(** * DllBundlesControl: staleness detection for prebuilt DLL bundles

    A shallow embedding of [src/src/DllBundlesControl.ts] (with the types of
    [interfaces.ts]) and the properties of its metadata collector, diff
    engine, state store and rebuild decision.

    Modelling choices:
    - a promise that settles is a [Completion]: [Return v] for a fulfilled
      promise, [Throw e] for a rejected one;
    - a JS object used as a dictionary ([BundleState]) is an association
      list in the order [Object.keys] enumerates its keys (array indices
      first, then the others in insertion order), because that order
      reaches the rebuild list;
    - Node's module system and file system are the [World]: module
      resolution, manifest loading, the files on disk, whether a write to a
      path succeeds, and the module cache in which [require] keeps the
      object it returned for the state file. What [require] returns for a
      package manifest is taken as fixed while the process runs (the
      packages on disk do not change under it), so the cache entries of
      manifests are not recorded. *)

From Stdlib Require Import String List Bool ZArith Lia.
Import ListNotations.
Open Scope string_scope.
Open Scope list_scope.

(** ** JavaScript values *)

(** An optional string: [None] is [undefined]. *)
Definition truthy (v : option string) : bool :=
  match v with
  | Some s => negb (String.eqb s "")
  | None => false
  end.

Definition isSome {A : Type} (v : option A) : bool :=
  match v with Some _ => true | None => false end.

(** Template-literal rendering of a possibly undefined string. *)
Definition show (v : option string) : string :=
  match v with Some s => s | None => "undefined" end.

(** [v1 === v2] on possibly undefined strings. *)
Definition strict_eq (v1 v2 : option string) : bool :=
  match v1, v2 with
  | Some a, Some b => String.eqb a b
  | None, None => true
  | _, _ => false
  end.

(** [Array.prototype.indexOf]: position of the first occurrence, or -1. *)
Fixpoint indexOf (l : list string) (x : string) : Z :=
  match l with
  | [] => (-1)%Z
  | y :: l' =>
      if String.eqb y x then 0%Z
      else let i := indexOf l' x in
           if (i =? -1)%Z then (-1)%Z else (i + 1)%Z
  end.

(** [Path.join] on two segments that need no normalization (no [.], [..]
    or doubled separators). *)
Definition Path_join (dir file : string) : string :=
  String.append dir (String.append "/" file).

(** ** Errors and settled promises *)

(** [PropertyCall]: the TypeError of calling a property that is not a
    function; [WriteFileCall]: the error of a write that fails. *)
Inductive NodeCall :=
| ResolveCall | FindRootCall | RequireCall | PropertyCall | WriteFileCall.

(** An [Error] object is either raised by the runtime ([require.resolve],
    [findRoot], [require], a call, [fs.writeFileSync]) on some argument, or
    built by this repository with [new Error(message)]. *)
Inductive Error :=
| NodeError (call : NodeCall) (arg : string)
| NewError (message : string).

Inductive Completion (A : Type) :=
| Return (a : A)
| Throw (e : Error).
Arguments Return {A} a.
Arguments Throw {A} e.

Definition bind {A B : Type} (c : Completion A) (k : A -> Completion B) : Completion B :=
  match c with
  | Return a => k a
  | Throw e => Throw e
  end.

Notation "x <- c ;; k" := (bind c (fun x => k))
  (at level 61, c at next level, right associativity).

Definition orThrow {A : Type} (v : option A) (e : Error) : Completion A :=
  match v with Some a => Return a | None => Throw e end.

(** ** interfaces.ts *)

Record DllPackageConfig := {
  cfg_name : string;
  cfg_path : string
}.

(** [string | DllPackageConfig] *)
Inductive PackageRef :=
| PkgString (s : string)
| PkgConfig (c : DllPackageConfig).

Record DllBundleConfig := {
  bnd_name : string;
  bnd_packages : list PackageRef
}.

(** The two options the control reads; [ignorePackageError] is optional. *)
Record DllBundlesPluginOptions := {
  dllDir : string;
  ignorePackageError : option bool
}.

(** ** DllBundlesControl.ts: data *)

Record StateEntry := {
  st_bundle : string;
  st_version : option string
}.

(** [interface BundleState { [key: string]: { bundle; version } }], its own
    keys in the order the object enumerates them: keys that are array
    indices first, ascending, then the others in insertion order. *)
Definition BundleState := list (string * StateEntry).

Record PackageInfo := {
  pkg_bundle : string;
  pkg_name : string;
  pkg_path : string;
  pkg_version : option string;
  pkg_error : option Error
}.

(** [new PackageInfo(bundle, pkg)] *)
Definition mkPackageInfo (bundle : string) (pkg : PackageRef) : PackageInfo :=
  match pkg with
  | PkgString s =>
      {| pkg_bundle := bundle; pkg_name := s; pkg_path := s;
         pkg_version := None; pkg_error := None |}
  | PkgConfig c =>
      {| pkg_bundle := bundle; pkg_name := cfg_name c; pkg_path := cfg_path c;
         pkg_version := None; pkg_error := None |}
  end.

Definition set_version (p : PackageInfo) (v : option string) : PackageInfo :=
  {| pkg_bundle := pkg_bundle p; pkg_name := pkg_name p; pkg_path := pkg_path p;
     pkg_version := v; pkg_error := pkg_error p |}.

Definition set_error (p : PackageInfo) (e : Error) : PackageInfo :=
  {| pkg_bundle := pkg_bundle p; pkg_name := pkg_name p; pkg_path := pkg_path p;
     pkg_version := pkg_version p; pkg_error := Some e |}.

Record AnalyzedState := {
  current : list PackageInfo;
  changed : list PackageInfo;
  added : list PackageInfo;
  removed : list PackageInfo;
  error : list PackageInfo
}.

Definition BUNDLE_STATE_FILENAME : string := "dll-bundles-state.json".

(** The fields of a loaded [package.json] that the code reads. *)
Record PackageJson := {
  json_name : option string;
  json_version : option string
}.

(** ** Operations on a [BundleState] object *)

Definition keyIs (k : string) (kv : string * StateEntry) : bool :=
  String.eqb (fst kv) k.

(** [Object.keys(state)] *)
Definition Object_keys (state : BundleState) : list string := map fst state.

(** [state.hasOwnProperty(k)] *)
Definition hasOwnProperty (state : BundleState) (k : string) : bool :=
  existsb (keyIs k) state.

(** [state[k]] *)
Definition getProperty (state : BundleState) (k : string) : option StateEntry :=
  option_map snd (find (keyIs k) state).

(** [delete state[k]] *)
Definition deleteProperty (state : BundleState) (k : string) : BundleState :=
  filter (fun kv => negb (keyIs k kv)) state.

(** The value of a string of decimal digits. *)
Fixpoint digitsValue (s : string) (acc : N) : option N :=
  match s with
  | EmptyString => Some acc
  | String c rest =>
      let n := Ascii.N_of_ascii c in
      if ((48 <=? n) && (n <=? 57))%N
      then digitsValue rest (10 * acc + (n - 48))%N
      else None
  end.

(** The array index a key denotes: a canonical decimal numeral (no leading
    zero) below 2^32 - 1. *)
Definition arrayIndex (k : string) : option N :=
  match k with
  | EmptyString => None
  | String c rest =>
      if (Ascii.N_of_ascii c =? 48)%N && negb (String.eqb rest "")
      then None
      else match digitsValue k 0 with
           | Some n => if (n <? 4294967295)%N then Some n else None
           | None => None
           end
  end.

(** Whether the key [existing] is enumerated before a new key [k]. *)
Definition staysBefore (k existing : string) : bool :=
  match arrayIndex k with
  | None => true
  | Some n =>
      match arrayIndex existing with
      | Some m => (m <? n)%N
      | None => false
      end
  end.

(** A new own key takes its place in the enumeration order. *)
Fixpoint insertKey (state : BundleState) (k : string) (v : StateEntry) : BundleState :=
  match state with
  | [] => [(k, v)]
  | kv :: rest =>
      if staysBefore k (fst kv)
      then kv :: insertKey rest k v
      else (k, v) :: kv :: rest
  end.

(** [state[k] = v] for a key other than [__proto__]: an existing key keeps
    its place; a new one goes last, or among the array indices when it is
    one. *)
Definition setProperty (state : BundleState) (k : string) (v : StateEntry) : BundleState :=
  if hasOwnProperty state k
  then map (fun kv => if keyIs k kv then (k, v) else kv) state
  else insertKey state k v.

(** ** The world outside the control *)

(** A file is a JSON text that parses to a state object, or a file that
    is not a JSON text, of which [require] throws. A file with JSON of
    another shape (an array, a number, [null], entries that are not
    objects) is outside this model. Of a bundle artifact only the
    existence is ever tested; the samples give it the content [Opaque]. *)
Inductive File :=
| JsonState (s : BundleState)   (* the object the content parses to *)
| Opaque.                       (* content that is not a JSON text *)

Record World := {
  require_resolve : string -> option string;       (* [None]: it throws *)
  findRoot : string -> option string;              (* [None]: it throws *)
  require_manifest : string -> option PackageJson; (* [require] of a package.json *)
  fs : string -> option File;                      (* the files on disk *)
  fs_writable : string -> bool;                    (* a write to the path succeeds *)
  require_cache : string -> option BundleState     (* the state objects [require] handed out *)
}.

Definition existsSync (w : World) (file : string) : bool := isSome (fs w file).

Definition update {A : Type} (f : string -> option A) (k : string) (v : A) : string -> option A :=
  fun k' => if String.eqb k' k then Some v else f k'.

(** The world once [content] is in [file]. *)
Definition putFile (w : World) (file : string) (content : File) : World :=
  {| require_resolve := require_resolve w; findRoot := findRoot w;
     require_manifest := require_manifest w;
     fs := update (fs w) file content;
     fs_writable := fs_writable w;
     require_cache := require_cache w |}.

(** [fs.writeFileSync(file, content)]: it replaces the whole file, or it
    throws (the directory is missing, the path is not permitted) and
    leaves the disk as it was. *)
Definition writeFileSync (w : World) (file : string) (content : File)
  : World * Completion unit :=
  if fs_writable w file
  then (putFile w file content, Return tt)
  else (w, Throw (NodeError WriteFileCall file)).

Definition cacheObject (w : World) (file : string) (obj : BundleState) : World :=
  {| require_resolve := require_resolve w; findRoot := findRoot w;
     require_manifest := require_manifest w;
     fs := fs w;
     fs_writable := fs_writable w;
     require_cache := update (require_cache w) file obj |}.

(** Where an object lives: a literal owned by the caller, or the exports of
    a cached module, which every later [require] of the file returns. *)
Inductive ObjRef :=
| Literal
| ModuleExports (file : string).

(** [require(file)] for a JSON state file. *)
Definition requireState (w : World) (file : string) : World * Completion (ObjRef * BundleState) :=
  match require_cache w file with
  | Some obj => (w, Return (ModuleExports file, obj))
  | None =>
      match fs w file with
      | Some (JsonState s) => (cacheObject w file s, Return (ModuleExports file, s))
      | _ => (w, Throw (NodeError RequireCall file))
      end
  end.

(** Mutations of an object reach the module cache when it lives there. *)
Definition writeBack (w : World) (ref : ObjRef) (obj : BundleState) : World :=
  match ref with
  | Literal => w
  | ModuleExports file => cacheObject w file obj
  end.

(** ** class DllBundlesControl *)

(** [constructor(private bundles, private options)] *)
Record DllBundlesControl := {
  bundles : list DllBundleConfig;
  options : DllBundlesPluginOptions
}.

Definition getPackageJsonPath (w : World) (uri : string) : Completion string :=
  resolved <- orThrow (require_resolve w uri) (NodeError ResolveCall uri) ;;
  location <- orThrow (findRoot w resolved) (NodeError FindRootCall resolved) ;;
  Return (Path_join location "package.json").

Definition getPackageJson (w : World) (uri : string) : Completion PackageJson :=
  file <- getPackageJsonPath w uri ;;
  pkg <- orThrow (require_manifest w file) (NodeError RequireCall file) ;;
  if negb (truthy (json_name pkg)) || negb (truthy (json_version pkg))
  then Throw (NewError "Invalid package.json")
  else Return pkg.

Definition mismatchMessage (expected : string) (found : option string) : string :=
  String.append "Package name mismatch, Expected "
    (String.append expected
       (String.append " but found " (String.append (show found) " "))).

(** One element of the promise array of [getMetadata]: the [then], the
    [catch] and the final [then] applied to one [pkgInfo]. *)
Definition resolvePackage (w : World) (pkgInfo : PackageInfo) : PackageInfo :=
  match getPackageJson w (pkg_path pkgInfo) with
  | Return pkgJson =>
      let pkgInfo' := set_version pkgInfo (json_version pkgJson) in
      if negb (strict_eq (Some (pkg_name pkgInfo')) (json_name pkgJson))
      then set_error pkgInfo'
             (NewError (mismatchMessage (pkg_name pkgInfo') (json_name pkgJson)))
      else pkgInfo'
  | Throw err => set_error pkgInfo err
  end.

Definition packageInfos (bs : list DllBundleConfig) : list PackageInfo :=
  fold_left (fun prev curr => prev ++ curr)
    (map (fun b => map (fun p => mkPackageInfo (bnd_name b) p) (bnd_packages b)) bs)
    [].

Definition getMetadata (this : DllBundlesControl) (w : World) : list PackageInfo :=
  map (resolvePackage w) (packageInfos (bundles this)).

Definition stateFile (this : DllBundlesControl) : string :=
  Path_join (dllDir (options this)) BUNDLE_STATE_FILENAME.

Definition getBundleSate (this : DllBundlesControl) (w : World)
  : World * Completion (ObjRef * BundleState) :=
  if existsSync w (stateFile this)
  then requireState w (stateFile this)
  else (w, Return (Literal, [])).

(** *** analyzeState *)

Record PkgCache := {
  bundleState : BundleState;
  hist : list string
}.

Definition del (pkgCache : PkgCache) (pkgInfo : PackageInfo) : PkgCache :=
  {| bundleState := deleteProperty (bundleState pkgCache) (pkg_name pkgInfo);
     hist := hist pkgCache ++ [pkg_name pkgInfo] |}.

Definition deleted (pkgCache : PkgCache) (pkgInfo : PackageInfo) : bool :=
  (indexOf (hist pkgCache) (pkg_name pkgInfo) >? -1)%Z.

Definition emptyResult : AnalyzedState :=
  {| current := []; changed := []; added := []; removed := []; error := [] |}.

Definition push_current (r : AnalyzedState) (p : PackageInfo) : AnalyzedState :=
  {| current := current r ++ [p]; changed := changed r; added := added r;
     removed := removed r; error := error r |}.

Definition push_changed (r : AnalyzedState) (p : PackageInfo) : AnalyzedState :=
  {| current := current r; changed := changed r ++ [p]; added := added r;
     removed := removed r; error := error r |}.

Definition push_added (r : AnalyzedState) (p : PackageInfo) : AnalyzedState :=
  {| current := current r; changed := changed r; added := added r ++ [p];
     removed := removed r; error := error r |}.

Definition push_error (r : AnalyzedState) (p : PackageInfo) : AnalyzedState :=
  {| current := current r; changed := changed r; added := added r;
     removed := removed r; error := error r ++ [p] |}.

Definition set_removed (r : AnalyzedState) (l : list PackageInfo) : AnalyzedState :=
  {| current := current r; changed := changed r; added := added r;
     removed := l; error := error r |}.

Definition entryVersion (state : BundleState) (k : string) : option string :=
  match getProperty state k with
  | Some e => st_version e
  | None => None
  end.

(** The body of [packages.forEach( pkgInfo => ... )]. *)
Definition classify (acc : AnalyzedState * PkgCache) (pkgInfo : PackageInfo)
  : AnalyzedState * PkgCache :=
  let (result, pkgCache) := acc in
  if isSome (pkg_error pkgInfo) then
    (push_error result pkgInfo, del pkgCache pkgInfo)
  else if hasOwnProperty (bundleState pkgCache) (pkg_name pkgInfo) then
    if strict_eq (entryVersion (bundleState pkgCache) (pkg_name pkgInfo))
                 (pkg_version pkgInfo)
    then (push_current result pkgInfo, del pkgCache pkgInfo)
    else (push_changed result pkgInfo, del pkgCache pkgInfo)
  else if negb (deleted pkgCache pkgInfo) then
    (push_added result pkgInfo, pkgCache)
  else acc.

(** [result], [bundleState] and [pkgCache] before the loop. *)
Definition start (state : BundleState) : AnalyzedState * PkgCache :=
  (emptyResult, {| bundleState := state; hist := [] |}).

Definition removedOf (state : BundleState) : list PackageInfo :=
  map (fun kv => mkPackageInfo (st_bundle (snd kv)) (PkgString (fst kv))) state.

(** What the callback of [analyzeState] computes from the collected
    packages and the loaded state object when every call in it returns;
    with the result, what is left of that object. *)
Definition analyze (packages : list PackageInfo) (state : BundleState)
  : AnalyzedState * BundleState :=
  let (result, pkgCache) := fold_left classify packages (start state) in
  (set_removed result (removedOf (bundleState pkgCache)), bundleState pkgCache).

(** [bundleState.hasOwnProperty] is the inherited method unless the object
    has an own entry of that name; an entry is not a function. *)
Definition methodShadowed (state : BundleState) : bool :=
  hasOwnProperty state "hasOwnProperty".

(** [packages.forEach( pkgInfo => ... )] as it runs: a package without
    error reaches the call of [bundleState.hasOwnProperty], which throws a
    TypeError when the method is shadowed; the object keeps what was
    deleted from it before. *)
Fixpoint forEach (packages : list PackageInfo) (acc : AnalyzedState * PkgCache)
  : option Error * (AnalyzedState * PkgCache) :=
  match packages with
  | [] => (None, acc)
  | pkgInfo :: rest =>
      if negb (isSome (pkg_error pkgInfo)) && methodShadowed (bundleState (snd acc))
      then (Some (NodeError PropertyCall "bundleState.hasOwnProperty"), acc)
      else forEach rest (classify acc pkgInfo)
  end.

Definition analyzeState (this : DllBundlesControl) (w : World)
  : World * Completion AnalyzedState :=
  let packages := getMetadata this w in
  match getBundleSate this w with
  | (w1, Return (ref, state)) =>
      match forEach packages (start state) with
      | (None, (result, pkgCache)) =>
          (writeBack w1 ref (bundleState pkgCache),
           Return (set_removed result (removedOf (bundleState pkgCache))))
      | (Some e, (result, pkgCache)) =>
          (writeBack w1 ref (bundleState pkgCache), Throw e)
      end
  | (w1, Throw e) => (w1, Throw e)
  end.

(** *** checkBundles *)

(** Despite its name it answers [true] when an artifact is missing. *)
Definition bundleLooksValid (this : DllBundlesControl) (w : World) (name : string) : bool :=
  negb (existsSync w (Path_join (dllDir (options this)) (String.append name ".dll.js")))
  || negb (existsSync w (Path_join (dllDir (options this)) (String.append name "-manifest.json"))).

Definition pushBundle (bundleNames : list string) (p : PackageInfo) : list string :=
  if (indexOf bundleNames (pkg_bundle p) =? -1)%Z
  then bundleNames ++ [pkg_bundle p]
  else bundleNames.

Definition rebuildNames (this : DllBundlesControl) (w : World) (analyzed : AnalyzedState)
  : list string :=
  fold_left pushBundle
    (added analyzed ++ changed analyzed ++ removed analyzed ++ error analyzed)
    (filter (bundleLooksValid this w) (map bnd_name (bundles this))).

(** [this.bundles.filter( bnd => bnd.name === bundleName )[0]] *)
Definition bundleNamed (this : DllBundlesControl) (bundleName : string)
  : option DllBundleConfig :=
  hd_error (filter (fun bnd => String.eqb (bnd_name bnd) bundleName) (bundles this)).

Definition ignoreErrors (this : DllBundlesControl) : bool :=
  match ignorePackageError (options this) with
  | Some b => b
  | None => false
  end.

Definition SOME_ERRORS : string := "DllBundlesPlugin: Some packages have errors.".

(** What a call leaves behind: the lines sent to [console.error] and the
    settled promise. An [undefined] array element is [None]. *)
Record Checked := {
  console : list (option Error);
  settled : Completion (list (option DllBundleConfig))
}.

Definition rebuildList (this : DllBundlesControl) (w : World) (analyzed : AnalyzedState)
  : list (option DllBundleConfig) :=
  map (bundleNamed this) (rebuildNames this w analyzed).

(** The callback of [checkBundles] on the analyzed state. *)
Definition checkAnalyzed (this : DllBundlesControl) (w : World) (analyzed : AnalyzedState)
  : Checked :=
  if (0 <? length (error analyzed))%nat then
    let logged := map pkg_error (error analyzed) in
    if negb (ignoreErrors this)
    then {| console := logged; settled := Throw (NewError SOME_ERRORS) |}
    else {| console := logged; settled := Return (rebuildList this w analyzed) |}
  else {| console := []; settled := Return (rebuildList this w analyzed) |}.

Definition checkBundles (this : DllBundlesControl) (w : World) : World * Checked :=
  match analyzeState this w with
  | (w1, Return analyzed) => (w1, checkAnalyzed this w1 analyzed)
  | (w1, Throw e) => (w1, {| console := []; settled := Throw e |})
  end.

(** *** saveBundleState

    [JSON.stringify] followed by a later [require] gives the object back,
    with its keys in the same enumeration order, so the file is modelled by
    the object it holds. *)

(** [state[pkg.name] = { bundle, version }] on the object the reduce
    builds: for the name [__proto__] the assignment sets the prototype and
    stores no own key. *)
Definition saveStep (state : BundleState) (pkg : PackageInfo) : BundleState :=
  if String.eqb (pkg_name pkg) "__proto__"
  then state
  else setProperty state (pkg_name pkg)
         {| st_bundle := pkg_bundle pkg; st_version := pkg_version pkg |}.

Definition bundleStateOf (metadata : list PackageInfo) : BundleState :=
  fold_left saveStep (filter (fun m => negb (isSome (pkg_error m))) metadata) [].

Definition saveBundleState (this : DllBundlesControl) (w : World) : World * Completion unit :=
  writeFileSync w (stateFile this) (JsonState (bundleStateOf (getMetadata this w))).

(** ** Vocabulary of the properties *)

Definition names (l : list PackageInfo) : list string := map pkg_name l.

(** The records of [l] that carry the name [n], in order. *)
Definition named (n : string) (l : list PackageInfo) : list PackageInfo :=
  filter (fun p => String.eqb (pkg_name p) n) l.

Definition mem (x : string) (l : list string) : bool := existsb (String.eqb x) l.

(** The defined elements of an array that may hold [undefined]. *)
Fixpoint defined {A : Type} (l : list (option A)) : list A :=
  match l with
  | [] => []
  | Some a :: l' => a :: defined l'
  | None :: l' => defined l'
  end.

(** The error kind the specification calls ManifestError: no manifest was
    found above the resolved location, the manifest could not be loaded, or
    it was loaded and rejected. *)
Definition isManifestError (e : Error) : bool :=
  match e with
  | NodeError FindRootCall _ => true
  | NodeError RequireCall _ => true
  | NodeError _ _ => false
  | NewError m => String.eqb m "Invalid package.json"
  end.

Definition failsWithManifestError (c : Completion PackageJson) : Prop :=
  exists e, c = Throw e /\ isManifestError e = true.

(** A descriptor with exactly one of [version] and [error] set. *)
Definition oneOfVersionError (d : PackageInfo) : bool :=
  xorb (isSome (pkg_version d)) (isSome (pkg_error d)).

(** The three ways a descriptor leaves the collector. *)
Inductive Settled (w : World) (d : PackageInfo) : Prop :=
| Resolved (pkgJson : PackageJson) :
    getPackageJson w (pkg_path d) = Return pkgJson ->
    json_name pkgJson = Some (pkg_name d) ->
    pkg_version d = json_version pkgJson ->
    truthy (pkg_version d) = true ->
    pkg_error d = None ->
    Settled w d
| Failed (e : Error) :
    getPackageJson w (pkg_path d) = Throw e ->
    pkg_version d = None ->
    pkg_error d = Some e ->
    Settled w d
| Mismatched (pkgJson : PackageJson) :
    getPackageJson w (pkg_path d) = Return pkgJson ->
    json_name pkgJson <> Some (pkg_name d) ->
    pkg_version d = json_version pkgJson ->
    truthy (pkg_version d) = true ->
    pkg_error d = Some (NewError (mismatchMessage (pkg_name d) (json_name pkgJson))) ->
    Settled w d.

(** What holds of the loop of [analyzeState] after any number of rounds,
    started on the state object [state0]. *)
Record Reconciled (state0 : BundleState) (acc : AnalyzedState * PkgCache) : Prop := {
  rec_state :
    bundleState (snd acc) =
    filter (fun kv => negb (mem (fst kv) (hist (snd acc)))) state0;
  rec_hist : forall n,
    In n (hist (snd acc)) <->
    In n (names (current (fst acc) ++ changed (fst acc) ++ error (fst acc)));
  rec_once : NoDup (names (current (fst acc) ++ changed (fst acc)));
  rec_known : forall n,
    In n (names (current (fst acc) ++ changed (fst acc))) -> In n (Object_keys state0);
  rec_added : forall n,
    In n (names (added (fst acc))) -> ~ In n (Object_keys state0);
  rec_input : removed (fst acc) = []
}.

(** The loop has not touched the name [n] between [acc] and [acc']. *)
Definition sameFor (n : string) (acc acc' : AnalyzedState * PkgCache) : Prop :=
  named n (current (fst acc')) = named n (current (fst acc)) /\
  named n (changed (fst acc')) = named n (changed (fst acc)) /\
  named n (added (fst acc')) = named n (added (fst acc)) /\
  named n (error (fst acc')) = named n (error (fst acc)) /\
  (In n (hist (snd acc')) <-> In n (hist (snd acc))) /\
  hasOwnProperty (bundleState (snd acc')) n = hasOwnProperty (bundleState (snd acc)) n.

(** The name [n] has been through [pkgCache.del]. *)
Definition consumed (n : string) (acc : AnalyzedState * PkgCache) : Prop :=
  In n (hist (snd acc)) /\ hasOwnProperty (bundleState (snd acc)) n = false.

(** The name of [p] has been added or consumed. *)
Definition covered (acc : AnalyzedState * PkgCache) (p : PackageInfo) : Prop :=
  In (pkg_name p) (names (added (fst acc))) \/ In (pkg_name p) (hist (snd acc)).

Definition hasError (p : PackageInfo) : bool := isSome (pkg_error p).

(** The descriptors of [l] that come before the first one with an error. *)
Fixpoint beforeError (l : list PackageInfo) : list PackageInfo :=
  match l with
  | [] => []
  | p :: l' => if hasError p then [] else p :: beforeError l'
  end.

(** C1 as stated: no name is classified twice. *)
Definition classifiedOnce (r : AnalyzedState) : Prop :=
  NoDup (names (current r ++ changed r ++ added r ++ removed r ++ error r)).

(** Every record of the result comes from the collected packages, with an
    error exactly when it sits in [error]. *)
Definition sourced (packages : list PackageInfo) (acc : AnalyzedState * PkgCache) : Prop :=
  (forall p, In p (current (fst acc) ++ changed (fst acc) ++ added (fst acc)) ->
             In p packages /\ pkg_error p = None) /\
  (forall p, In p (error (fst acc)) ->
             In p packages /\ isSome (pkg_error p) = true).

(** The distinct elements of a list, in order of first mention. *)
Fixpoint firstMentions (l : list string) : list string :=
  match l with
  | [] => []
  | x :: l' => x :: filter (fun y => negb (String.eqb y x)) (firstMentions l')
  end.

(** [l1] can be obtained from [l2] by dropping elements. *)
Fixpoint subsequence (l1 l2 : list string) : bool :=
  match l1, l2 with
  | [], _ => true
  | _ :: _, [] => false
  | x :: l1', y :: l2' =>
      if String.eqb x y then subsequence l1' l2' else subsequence l1 l2'
  end.

(** [sub] occurs in [s]. *)
Definition contains (s sub : string) : bool := isSome (String.index 0 sub s).

(** The text an error object carries mentions [n]. *)
Definition mentions (e : Error) (n : string) : bool :=
  match e with
  | NodeError _ arg => contains arg n
  | NewError message => contains message n
  end.

(** The records that flag their bundle, in the order [checkBundles] reads them. *)
Definition flagging (analyzed : AnalyzedState) : list PackageInfo :=
  added analyzed ++ changed analyzed ++ removed analyzed ++ error analyzed.

(** [w'] differs from [w] in the module cache at most. *)
Definition sameOutside (w w' : World) : Prop :=
  require_resolve w' = require_resolve w /\
  findRoot w' = findRoot w /\
  require_manifest w' = require_manifest w /\
  fs w' = fs w.

(** The two artifact files of a bundle. *)
Definition dllFile (this : DllBundlesControl) (name : string) : string :=
  Path_join (dllDir (options this)) (String.append name ".dll.js").

Definition manifestFile (this : DllBundlesControl) (name : string) : string :=
  Path_join (dllDir (options this)) (String.append name "-manifest.json").

Definition artifactMissing (this : DllBundlesControl) (w : World) (name : string) : Prop :=
  existsSync w (dllFile this name) = false \/
  existsSync w (manifestFile this name) = false.

(** Some record that flags its bundle belongs to the bundle called [name]. *)
Definition diffTouches (analyzed : AnalyzedState) (name : string) : Prop :=
  exists p, In p (flagging analyzed) /\ pkg_bundle p = name.

(** The entry [save] writes for a descriptor. *)
Definition entryOf (d : PackageInfo) : StateEntry :=
  {| st_bundle := pkg_bundle d; st_version := pkg_version d |}.

(** The last descriptor without error that carries the name [k]. *)
Definition lastSaved (k : string) (metadata : list PackageInfo) : option PackageInfo :=
  find (fun d => negb (isSome (pkg_error d)) && String.eqb (pkg_name d) k) (rev metadata).

(** [w'] resolves and loads packages as [w] does. *)
Definition sameModules (w w' : World) : Prop :=
  require_resolve w' = require_resolve w /\
  findRoot w' = findRoot w /\
  require_manifest w' = require_manifest w.

(** The descriptor [p] agrees with what the loop holds: its entry is in
    the state object with its version, or its name has been consumed. *)
Definition matchesState (c : PkgCache) (p : PackageInfo) : Prop :=
  pkg_error p = None /\
  ((hasOwnProperty (bundleState c) (pkg_name p) = true /\
    entryVersion (bundleState c) (pkg_name p) = pkg_version p) \/
   (hasOwnProperty (bundleState c) (pkg_name p) = false /\
    In (pkg_name p) (hist c))).

(** The state object holds nothing but the packages still to come, each as
    it will be found. *)
Definition upToDate (l : list PackageInfo) (c : PkgCache) : Prop :=
  (forall p, In p l -> matchesState c p) /\
  (forall k, In k (Object_keys (bundleState c)) -> In k (names l)).

(** ** A sample installation

    Packages [pkgA], [pkgB], [pkgC] and [other] are installed; [pkgC] is
    also reachable through a second path, and a nested copy of it has
    another version; the manifest of [bare] has a version and no name;
    nothing else resolves. *)

Definition table {A : Type} (l : list (string * A)) (k : string) : option A :=
  option_map snd (find (fun kv => String.eqb (fst kv) k) l).

Definition manifestOf (name version : string) : PackageJson :=
  {| json_name := Some name; json_version := Some version |}.

Definition installed (files : list (string * File)) : World :=
  {| require_resolve := table
       [("pkgA", "/nm/pkgA/index.js"); ("pkgB", "/nm/pkgB/index.js");
        ("pkgC", "/nm/pkgC/index.js"); ("pkgC/extra", "/nm/pkgC/extra.js");
        ("other", "/nm/other/index.js"); ("bare", "/nm/bare/index.js");
        ("deep/pkgC", "/nm/deep/node_modules/pkgC/index.js")];
     findRoot := table
       [("/nm/pkgA/index.js", "/nm/pkgA"); ("/nm/pkgB/index.js", "/nm/pkgB");
        ("/nm/pkgC/index.js", "/nm/pkgC"); ("/nm/pkgC/extra.js", "/nm/pkgC");
        ("/nm/other/index.js", "/nm/other"); ("/nm/bare/index.js", "/nm/bare");
        ("/nm/deep/node_modules/pkgC/index.js", "/nm/deep/node_modules/pkgC")];
     require_manifest := table
       [("/nm/pkgA/package.json", manifestOf "pkgA" "1.0.0");
        ("/nm/pkgB/package.json", manifestOf "pkgB" "2.0.0");
        ("/nm/pkgC/package.json", manifestOf "pkgC" "1.0.0");
        ("/nm/other/package.json", manifestOf "other" "2.0.0");
        ("/nm/deep/node_modules/pkgC/package.json", manifestOf "pkgC" "2.0.0");
        ("/nm/bare/package.json",
           {| json_name := None; json_version := Some "1.0.0" |})];
     fs := table files;
     fs_writable := fun _ => true;
     require_cache := fun _ => None |}.


(** An installation of one package, whatever its name. *)
Definition only (name version : string) (files : list (string * File)) : World :=
  {| require_resolve := table [(name, Path_join "/nm" (Path_join name "index.js"))];
     findRoot := table [(Path_join "/nm" (Path_join name "index.js"), Path_join "/nm" name)];
     require_manifest :=
       table [(Path_join (Path_join "/nm" name) "package.json", manifestOf name version)];
     fs := table files;
     fs_writable := fun _ => true;
     require_cache := fun _ => None |}.

Definition control (ignore : option bool) (bs : list DllBundleConfig) : DllBundlesControl :=
  {| bundles := bs; options := {| dllDir := "/dll"; ignorePackageError := ignore |} |}.

Definition artifacts (name : string) : list (string * File) :=
  [(Path_join "/dll" (String.append name ".dll.js"), Opaque);
   (Path_join "/dll" (String.append name "-manifest.json"), Opaque)].

(** One bundle that lists [pkgA] and lists [pkgC] twice, through two paths. *)
Definition vendorTwice : DllBundleConfig :=
  {| bnd_name := "vendor";
     bnd_packages :=
       [PkgString "pkgA"; PkgString "pkgC";
        PkgConfig {| cfg_name := "pkgC"; cfg_path := "pkgC/extra" |}] |}.

(** A state object that knows [pkgA] and a package that is gone. *)
Definition savedEarlier : BundleState :=
  [("pkgA", {| st_bundle := "vendor"; st_version := Some "1.0.0" |});
   ("gone", {| st_bundle := "vendor"; st_version := Some "0.1.0" |})].

Definition appBundle : DllBundleConfig :=
  {| bnd_name := "app"; bnd_packages := [PkgString "pkgA"] |}.

Definition vendorBundle : DllBundleConfig :=
  {| bnd_name := "vendor"; bnd_packages := [PkgString "pkgB"] |}.

(** A bundle with one package that resolves and one that does not. *)
Definition brokenBundle : DllBundleConfig :=
  {| bnd_name := "vendor"; bnd_packages := [PkgString "pkgA"; PkgString "nope"] |}.

(** A state file left by a build that had a bundle [legacy]. *)
Definition legacyState : BundleState :=
  [("pkgA", {| st_bundle := "app"; st_version := Some "1.0.0" |});
   ("old", {| st_bundle := "legacy"; st_version := Some "3.0.0" |})].

Definition legacyDisk : list (string * File) :=
  (Path_join "/dll" BUNDLE_STATE_FILENAME, JsonState legacyState) :: artifacts "app".

(** [pkgC] declared twice, in two bundles, the second time at its nested copy. *)
Definition appWithC : DllBundleConfig :=
  {| bnd_name := "app"; bnd_packages := [PkgString "pkgC"] |}.

Definition vendorWithDeepC : DllBundleConfig :=
  {| bnd_name := "vendor";
     bnd_packages := [PkgConfig {| cfg_name := "pkgC"; cfg_path := "deep/pkgC" |}] |}.

(** ** Vocabulary of the further properties *)

(** The name and the location a package reference declares. *)
Definition refName (p : PackageRef) : string :=
  match p with PkgString s => s | PkgConfig c => cfg_name c end.

(** [typeof p === 'string' ? p : p.path] *)
Definition refPath (p : PackageRef) : string :=
  match p with PkgString s => s | PkgConfig c => cfg_path c end.

(** What a descriptor is declared with: bundle, name and location. *)
Definition declaration (d : PackageInfo) : string * string * string :=
  (pkg_bundle d, pkg_name d, pkg_path d).

(** The entry's package is not among the collected packages. *)
Definition undeclared (packages : list PackageInfo) (kv : string * StateEntry) : bool :=
  negb (mem (fst kv) (names packages)).

(** ** DllBundlesPlugin.ts

    The plugin around the control. What it needs from Node and webpack is
    the [Host]: the working directory, two functions of [path], and the
    build, [runWebpack(config).done] of [utils.ts], which acts on the world
    in ways this file does not fix and rejects with the error webpack
    reports. The webpack configuration is taken to be a configuration
    object; [user_rest] stands for its properties other than [entry],
    [output] and [plugins]. *)

Inductive WebpackPlugin :=
| UserPlugin (id : string)
| DllPlugin (path name : string)
| DllReferencePlugin (context manifest : string).

Record UserConfig := {
  user_rest : list (string * string);
  user_plugins : option (list WebpackPlugin)
}.

(** [interface DllBundlesPluginOptions], as the caller writes it. *)
Record UserOptions := {
  opt_bundles : list (string * list PackageRef);
  opt_webpackConfig : UserConfig;
  opt_dllDir : string;
  opt_ignorePackageError : option bool;
  opt_context : option string
}.

Record Output := {
  out_path : string;
  out_filename : string;
  out_library : string
}.

Record WebpackConfig := {
  wp_rest : list (string * string);
  wp_entry : list (string * list string);
  wp_output : Output;
  wp_plugins : list WebpackPlugin
}.

Record Host := {
  cwd : string;                                   (* [process.cwd()] *)
  Path_isAbsolute : string -> bool;
  Path_resolve : string -> string -> string;
  runWebpack_done : WebpackConfig -> World -> World * Completion unit
}.

(** The fields of a constructed plugin; [plg_webpackConfig] is the caller's
    own object, which [Object.assign] does not copy in depth. *)
Record DllBundlesPlugin := {
  plg_context : string;
  plg_webpackConfig : UserConfig;
  plg_bundles : list DllBundleConfig;
  bundleControl : DllBundlesControl
}.

(** How [new DllBundlesPlugin(options)] ends. [Path.isAbsolute] throws a
    TypeError on [undefined]. *)
Inductive Constructed :=
| Built (plugin : DllBundlesPlugin)
| TypeError
| Raised (e : Error).

Definition setOptions (host : Host) (options : UserOptions) : Constructed :=
  let context :=
    if truthy (opt_context options) then Some (cwd host) else opt_context options in
  match context with
  | None => TypeError
  | Some context =>
      if negb (Path_isAbsolute host context)
      then Raised (NewError "Context must be an absolute path")
      else
        let dir :=
          if negb (Path_isAbsolute host (opt_dllDir options))
          then Path_resolve host context (opt_dllDir options)
          else opt_dllDir options in
        let bs :=
          map (fun kv => {| bnd_name := fst kv; bnd_packages := snd kv |})
              (opt_bundles options) in
        Built {| plg_context := context;
                 plg_webpackConfig := opt_webpackConfig options;
                 plg_bundles := bs;
                 bundleControl :=
                   {| bundles := bs;
                      options := {| dllDir := dir;
                                    ignorePackageError := opt_ignorePackageError options |} |} |}
  end.

(** [static resolveFile(bundleName)] *)
Definition resolveFile (bundleName : string) : string :=
  String.append bundleName ".dll.js".

(** What [apply] reads and changes of the compiler. *)
Record Compiler := {
  compiler_plugins : list WebpackPlugin;   (* [compiler.options.plugins] *)
  applied : list WebpackPlugin;            (* plugins whose [apply] has run *)
  hooks : list string                      (* events with a handler of this plugin *)
}.

Definition referencePlugins (plugin : DllBundlesPlugin) : list WebpackPlugin :=
  map (fun b => DllReferencePlugin (plg_context plugin)
                  (Path_join (dllDir (options (bundleControl plugin)))
                             (String.append (bnd_name b) "-manifest.json")))
      (plg_bundles plugin).

Definition applyPlugin (plugin : DllBundlesPlugin) (compiler : Compiler) : Compiler :=
  let newPlugins := referencePlugins plugin in
  {| compiler_plugins := compiler_plugins compiler ++ newPlugins;
     applied := applied compiler ++ newPlugins;
     hooks := hooks compiler ++ ["run"; "watch-run"] |}.

(** [obj[k] = v] on the entry object, its keys listed in the order of
    their first assignment. *)
Definition assignKey {A : Type} (obj : list (string * A)) (k : string) (v : A)
  : list (string * A) :=
  if existsb (fun kv => String.eqb (fst kv) k) obj
  then map (fun kv => if String.eqb (fst kv) k then (k, v) else kv) obj
  else obj ++ [(k, v)].

Definition newEntry (bs : list DllBundleConfig) : list (string * list string) :=
  fold_left (fun prev curr => assignKey prev (bnd_name curr) (map refPath (bnd_packages curr)))
            bs [].

Definition dllPlugin (plugin : DllBundlesPlugin) : WebpackPlugin :=
  DllPlugin (Path_join (dllDir (options (bundleControl plugin))) "[name]-manifest.json")
            "[name]_lib".

(** The configuration [run] hands to webpack, and the caller's
    configuration object after the push on its [plugins] array. *)
Definition buildConfig (plugin : DllBundlesPlugin) : WebpackConfig * UserConfig :=
  let user := plg_webpackConfig plugin in
  let output := {| out_path := dllDir (options (bundleControl plugin));
                   out_filename := "[name].dll.js";
                   out_library := "[name]_lib" |} in
  match user_plugins user with
  | Some arr =>
      ({| wp_rest := user_rest user; wp_entry := newEntry (plg_bundles plugin);
          wp_output := output; wp_plugins := arr ++ [dllPlugin plugin] |},
       {| user_rest := user_rest user;
          user_plugins := Some (arr ++ [dllPlugin plugin]) |})
  | None =>
      ({| wp_rest := user_rest user; wp_entry := newEntry (plg_bundles plugin);
          wp_output := output; wp_plugins := [] ++ [dllPlugin plugin] |},
       user)
  end.

Definition withConfig (plugin : DllBundlesPlugin) (user : UserConfig) : DllBundlesPlugin :=
  {| plg_context := plg_context plugin; plg_webpackConfig := user;
     plg_bundles := plg_bundles plugin; bundleControl := bundleControl plugin |}.

Definition CHECKING : string := "DLL: Checking if DLLs are valid.".
Definition ALL_VALID : string := "DLL: All DLLs are valid.".
Definition REBUILDING : string := "DLL: Rebuilding...".
Definition BUNDLING_DONE : string := "DLL: Bundling done, all DLLs are valid.".

(** What a call of [run] shows: the lines of [console.info] and
    [console.error], the configurations webpack was run with, and the
    argument [next] was called with ([None]: no argument). *)
Record Ran := {
  info : list string;
  errorLog : list (option Error);
  builds : list WebpackConfig;
  nextArg : option Error
}.

Definition run (host : Host) (plugin : DllBundlesPlugin) (w : World)
  : (DllBundlesPlugin * World) * Ran :=
  let (w1, checked) := checkBundles (bundleControl plugin) w in
  match settled checked with
  | Return bundles =>
      if (length bundles =? 0)%nat then
        ((plugin, w1),
         {| info := [CHECKING; ALL_VALID]; errorLog := console checked;
            builds := []; nextArg := None |})
      else
        let (webpackConfig, user) := buildConfig plugin in
        match runWebpack_done host webpackConfig w1 with
        | (w2, Return stats) =>
            match saveBundleState (bundleControl plugin) w2 with
            | (w3, Return _) =>
                ((withConfig plugin user, w3),
                 {| info := [CHECKING; REBUILDING; BUNDLING_DONE];
                    errorLog := console checked;
                    builds := [webpackConfig]; nextArg := None |})
            | (w3, Throw err) =>
                ((withConfig plugin user, w3),
                 {| info := [CHECKING; REBUILDING]; errorLog := console checked;
                    builds := [webpackConfig]; nextArg := Some err |})
            end
        | (w2, Throw err) =>
            ((withConfig plugin user, w2),
             {| info := [CHECKING; REBUILDING]; errorLog := console checked;
                builds := [webpackConfig]; nextArg := Some err |})
        end
  | Throw err =>
      ((plugin, w1),
       {| info := [CHECKING]; errorLog := console checked;
          builds := []; nextArg := Some err |})
  end.

(** *** A sample host *)

Definition posixAbsolute (s : string) : bool := String.prefix "/" s.

(** A build that writes the two artifacts of every entry. *)
Definition emitArtifacts (config : WebpackConfig) (w : World) : World * Completion unit :=
  (fold_left
     (fun w0 name =>
        putFile
          (putFile w0
             (Path_join (out_path (wp_output config)) (String.append name ".dll.js")) Opaque)
          (Path_join (out_path (wp_output config)) (String.append name "-manifest.json"))
          Opaque)
     (map fst (wp_entry config)) w,
   Return tt).

Definition failingBuild (config : WebpackConfig) (w : World) : World * Completion unit :=
  (w, Throw (NewError "webpack failed")).

Definition sampleHost (build : WebpackConfig -> World -> World * Completion unit) : Host :=
  {| cwd := "/project"; Path_isAbsolute := posixAbsolute;
     Path_resolve := Path_join; runWebpack_done := build |}.

Definition sampleOptions (context : option string) (ignore : option bool)
           (bs : list (string * list PackageRef)) : UserOptions :=
  {| opt_bundles := bs;
     opt_webpackConfig := {| user_rest := []; user_plugins := Some [UserPlugin "banner"] |};
     opt_dllDir := "/dll"; opt_ignorePackageError := ignore; opt_context := context |}.

Definition samplePlugin (ignore : option bool) (bs : list DllBundleConfig) : DllBundlesPlugin :=
  {| plg_context := "/project";
     plg_webpackConfig := {| user_rest := []; user_plugins := Some [UserPlugin "banner"] |};
     plg_bundles := bs; bundleControl := control ignore bs |}.


(** A build that, failing or not, leaves package resolution and the cached
    module of [file] alone and does not delete [file]. *)
Definition buildKeeps (host : Host) (file : string) : Prop :=
  forall config w0,
    sameModules w0 (fst (runWebpack_done host config w0)) /\
    require_cache (fst (runWebpack_done host config w0)) file = require_cache w0 file /\
    (existsSync w0 file = true ->
     existsSync (fst (runWebpack_done host config w0)) file = true).

(** * Properties *)

(** ** Strings, arrays and objects *)

Lemma eqb_false_neq (a b : string) : String.eqb a b = false <-> a <> b.
Proof. apply String.eqb_neq. Qed.

Lemma indexOf_lower (l : list string) (x : string) : (-1 <= indexOf l x)%Z.
Proof.
  induction l as [|y l IH]; simpl; [lia|].
  destruct (String.eqb y x); [lia|].
  destruct (Z.eqb_spec (indexOf l x) (-1)); lia.
Qed.

Lemma indexOf_absent (l : list string) (x : string) :
  indexOf l x = (-1)%Z <-> ~ In x l.
Proof.
  induction l as [|y l IH]; simpl.
  - split; [intros _ []|reflexivity].
  - destruct (String.eqb_spec y x) as [->|Hne].
    + split; [discriminate|intros H; exfalso; apply H; now left].
    + pose proof (indexOf_lower l x) as Hlo.
      destruct (Z.eqb_spec (indexOf l x) (-1)) as [He|He].
      * split; [|reflexivity]. intros _ [Hyx|Hin]; [congruence|].
        now apply IH in He.
      * split; [lia|]. intros Hnot. exfalso. apply He, IH.
        intros Hin. apply Hnot. now right.
Qed.

Lemma indexOf_present (l : list string) (x : string) :
  (indexOf l x >? -1)%Z = true <-> In x l.
Proof.
  pose proof (indexOf_lower l x) as Hlo.
  pose proof (indexOf_absent l x) as Habs.
  rewrite Z.gtb_ltb, Z.ltb_lt. split.
  - intros Hlt. destruct (in_dec string_dec x l) as [Hin|Hout]; [assumption|].
    apply Habs in Hout. lia.
  - intros Hin. destruct (Z.eq_dec (indexOf l x) (-1)) as [He|He]; [|lia].
    apply Habs in He. contradiction.
Qed.

Lemma mem_In (x : string) (l : list string) : mem x l = true <-> In x l.
Proof.
  unfold mem. rewrite existsb_exists. split.
  - intros [y [Hin Heq]]. apply String.eqb_eq in Heq. now subst.
  - intros Hin. exists x. split; [assumption|apply String.eqb_refl].
Qed.

Lemma mem_false (x : string) (l : list string) : mem x l = false <-> ~ In x l.
Proof.
  rewrite <- mem_In. destruct (mem x l); split; intros H; congruence.
Qed.

Lemma hasOwnProperty_In (state : BundleState) (k : string) :
  hasOwnProperty state k = true <-> In k (Object_keys state).
Proof.
  unfold hasOwnProperty, Object_keys, keyIs. rewrite existsb_exists, in_map_iff.
  split.
  - intros [kv [Hin Heq]]. apply String.eqb_eq in Heq. now exists kv.
  - intros [kv [Heq Hin]]. exists kv. split; [assumption|].
    now apply String.eqb_eq.
Qed.

Lemma hasOwnProperty_false (state : BundleState) (k : string) :
  hasOwnProperty state k = false <-> ~ In k (Object_keys state).
Proof.
  rewrite <- hasOwnProperty_In.
  destruct (hasOwnProperty state k); split; intros H; congruence.
Qed.

Lemma keys_deleteProperty (state : BundleState) (k k' : string) :
  In k' (Object_keys (deleteProperty state k)) <->
  In k' (Object_keys state) /\ k' <> k.
Proof.
  unfold Object_keys, deleteProperty, keyIs. rewrite !in_map_iff. split.
  - intros [kv [Heq Hin]]. apply filter_In in Hin. destruct Hin as [Hin Hb].
    apply negb_true_iff, String.eqb_neq in Hb. subst k'.
    split; [now exists kv|assumption].
  - intros [[kv [Heq Hin]] Hne]. exists kv. split; [assumption|].
    apply filter_In. split; [assumption|].
    apply negb_true_iff, String.eqb_neq. now subst k'.
Qed.

Lemma NoDup_keys_filter (f : string * StateEntry -> bool) (state : BundleState) :
  NoDup (Object_keys state) -> NoDup (Object_keys (filter f state)).
Proof.
  unfold Object_keys. induction state as [|kv state IH]; simpl; intros Hnd.
  - constructor.
  - inversion Hnd as [|? ? Hout Hrest]; subst.
    destruct (f kv); simpl; [|now apply IH].
    constructor; [|now apply IH].
    intros Hin. apply Hout. apply in_map_iff in Hin.
    destruct Hin as [kv' [Heq Hin']]. apply filter_In in Hin'.
    apply in_map_iff. exists kv'. tauto.
Qed.

Lemma app_fold_concat {A : Type} (ls : list (list A)) (acc : list A) :
  fold_left (fun prev curr => prev ++ curr) ls acc = acc ++ concat ls.
Proof.
  revert acc. induction ls as [|l ls IH]; intros acc; simpl.
  - now rewrite app_nil_r.
  - rewrite IH. now rewrite app_assoc.
Qed.

Lemma packageInfos_In (bs : list DllBundleConfig) (p : PackageInfo) :
  In p (packageInfos bs) <->
  exists b ref, In b bs /\ In ref (bnd_packages b) /\ p = mkPackageInfo (bnd_name b) ref.
Proof.
  unfold packageInfos. rewrite app_fold_concat. simpl.
  rewrite in_concat. split.
  - intros [l [Hl Hp]]. apply in_map_iff in Hl. destruct Hl as [b [Hb Hin]].
    subst l. apply in_map_iff in Hp. destruct Hp as [ref [Href Hin']].
    exists b, ref. auto.
  - intros [b [ref [Hb [Href Hp]]]].
    exists (map (fun p0 => mkPackageInfo (bnd_name b) p0) (bnd_packages b)).
    split; [apply in_map_iff; now exists b|].
    apply in_map_iff. now exists ref.
Qed.

(** ** Package resolver and metadata collector *)

Lemma resolvePackage_keeps (w : World) (p : PackageInfo) :
  pkg_name (resolvePackage w p) = pkg_name p /\
  pkg_bundle (resolvePackage w p) = pkg_bundle p /\
  pkg_path (resolvePackage w p) = pkg_path p.
Proof.
  unfold resolvePackage. destruct (getPackageJson w (pkg_path p)) as [j|e]; simpl.
  - destruct (negb _); simpl; auto.
  - auto.
Qed.

Lemma getPackageJson_Return (w : World) (uri : string) (pkg : PackageJson) :
  getPackageJson w uri = Return pkg ->
  truthy (json_name pkg) = true /\ truthy (json_version pkg) = true.
Proof.
  unfold getPackageJson, bind.
  destruct (getPackageJsonPath w uri) as [file|e]; [|discriminate].
  destruct (require_manifest w file) as [j|]; simpl; [|discriminate].
  destruct (truthy (json_name j)) eqn:Hn, (truthy (json_version j)) eqn:Hv;
    simpl; try discriminate.
  intros H. injection H as <-. auto.
Qed.

Lemma getMetadata_bundle (this : DllBundlesControl) (w : World) (p : PackageInfo) :
  In p (getMetadata this w) ->
  exists b, In b (bundles this) /\ bnd_name b = pkg_bundle p.
Proof.
  unfold getMetadata. intros Hin. apply in_map_iff in Hin.
  destruct Hin as [q [Hq Hin]]. apply packageInfos_In in Hin.
  destruct Hin as [b [ref [Hb [_ Hmk]]]]. exists b. split; [assumption|].
  subst p. destruct (resolvePackage_keeps w q) as [_ [-> _]].
  subst q. now destruct ref.
Qed.

(** C3, as stated, fails: the manifest of [bare] parses and has a version
    field, and the resolver still rejects it with "Invalid package.json". *)
Lemma getPackageJson_rejects_version_only :
  ~ (forall (w : World) (uri file : string) (pkg : PackageJson),
        getPackageJsonPath w uri = Return file ->
        require_manifest w file = Some pkg ->
        isSome (json_name pkg) || isSome (json_version pkg) = true ->
        ~ failsWithManifestError (getPackageJson w uri)).
Proof.
  intros claim.
  apply (claim (installed []) "bare" "/nm/bare/package.json"
           {| json_name := None; json_version := Some "1.0.0" |});
    try reflexivity.
  exists (NewError "Invalid package.json"). split; reflexivity.
Qed.

(** C3, amended: the resolver fails with a manifest error exactly when the
    package location resolves and then the manifest is missing (no
    package.json above the resolved location), cannot be loaded, or is
    loaded and lacks a name or a version (an empty one counts as lacking):
    one missing field is enough. *)
Theorem getPackageJson_manifest_error (w : World) (uri : string) :
  failsWithManifestError (getPackageJson w uri) <->
  exists resolved,
    require_resolve w uri = Some resolved /\
    match findRoot w resolved with
    | None => True
    | Some location =>
        match require_manifest w (Path_join location "package.json") with
        | None => True
        | Some pkg =>
            truthy (json_name pkg) = false \/ truthy (json_version pkg) = false
        end
    end.
Proof.
  unfold failsWithManifestError, getPackageJson, getPackageJsonPath, bind, orThrow.
  destruct (require_resolve w uri) as [resolved|].
  - destruct (findRoot w resolved) as [location|] eqn:Hroot.
    + destruct (require_manifest w (Path_join location "package.json")) as [pkg|] eqn:Hload.
      * destruct (truthy (json_name pkg)) eqn:Hn, (truthy (json_version pkg)) eqn:Hv; simpl.
        -- split.
           ++ intros [e [He _]]. discriminate.
           ++ intros [r [Hr Hbad]]. injection Hr as <-.
              rewrite Hroot, Hload, Hn, Hv in Hbad. destruct Hbad; discriminate.
        -- split; intros _.
           ++ exists resolved. rewrite Hroot, Hload. auto.
           ++ eexists. split; reflexivity.
        -- split; intros _.
           ++ exists resolved. rewrite Hroot, Hload. auto.
           ++ eexists. split; reflexivity.
        -- split; intros _.
           ++ exists resolved. rewrite Hroot, Hload. auto.
           ++ eexists. split; reflexivity.
      * split; intros _.
        -- exists resolved. now rewrite Hroot, Hload.
        -- eexists. split; reflexivity.
    + split; intros _.
      * exists resolved. now rewrite Hroot.
      * eexists. split; reflexivity.
  - split.
    + intros [e [He Hk]]. injection He as <-. discriminate.
    + intros [r [Hr _]]. discriminate.
Qed.

Lemma strict_eq_true (a b : option string) : strict_eq a b = true <-> a = b.
Proof.
  destruct a as [a|], b as [b|]; simpl; try (split; congruence).
  rewrite String.eqb_eq. split; congruence.
Qed.

Lemma resolvePackage_Settled (w : World) (p : PackageInfo) :
  pkg_version p = None -> pkg_error p = None -> Settled w (resolvePackage w p).
Proof.
  intros Hv He.
  destruct (resolvePackage_keeps w p) as [Hname [_ Hpath]].
  unfold resolvePackage in *.
  destruct (getPackageJson w (pkg_path p)) as [j|e] eqn:Hget.
  - destruct (getPackageJson_Return _ _ _ Hget) as [_ Htv].
    change (pkg_name (set_version p (json_version j))) with (pkg_name p) in *.
    destruct (strict_eq (Some (pkg_name p)) (json_name j)) eqn:Hcmp;
      cbn [negb] in *.
    + apply strict_eq_true in Hcmp. now apply (Resolved _ _ j).
    + apply (Mismatched _ _ j); auto.
      intros Heq. rewrite Heq in Hcmp. simpl in Hcmp.
      now rewrite String.eqb_refl in Hcmp.
  - now apply (Failed _ _ e).
Qed.

(** C2, as stated, fails: declaring [pkgB] at the path of [other] ends with
    the name-mismatch error set and the version of [other] set as well. *)
Lemma getMetadata_mismatch_sets_both :
  ~ (forall (this : DllBundlesControl) (w : World) (d : PackageInfo),
        In d (getMetadata this w) -> oneOfVersionError d = true).
Proof.
  intros claim.
  pose (this := control None
          [{| bnd_name := "vendor";
              bnd_packages := [PkgConfig {| cfg_name := "pkgB"; cfg_path := "other" |}] |}]).
  specialize (claim this (installed [])
    {| pkg_bundle := "vendor"; pkg_name := "pkgB"; pkg_path := "other";
       pkg_version := Some "2.0.0";
       pkg_error := Some (NewError "Package name mismatch, Expected pkgB but found other ") |}).
  assert (Hin : oneOfVersionError
            {| pkg_bundle := "vendor"; pkg_name := "pkgB"; pkg_path := "other";
               pkg_version := Some "2.0.0";
               pkg_error := Some (NewError "Package name mismatch, Expected pkgB but found other ") |}
          = true) by (apply claim; left; reflexivity).
  discriminate Hin.
Qed.

(** C2, amended: every descriptor of the collector is resolved (version
    set, no error), failed in the resolver (error set, no version), or
    mismatched (the manifest's version set and the name-mismatch error set);
    a descriptor without error always has its version. *)
Theorem getMetadata_settled (this : DllBundlesControl) (w : World) :
  Forall (Settled w) (getMetadata this w).
Proof.
  apply Forall_forall. intros d Hin. unfold getMetadata in Hin.
  apply in_map_iff in Hin. destruct Hin as [p [<- Hp]].
  apply packageInfos_In in Hp. destruct Hp as [b [ref [_ [_ ->]]]].
  apply resolvePackage_Settled; now destruct ref.
Qed.

(** ** Diff engine *)

Lemma NoDup_insert {A : Type} (l l' : list A) (a : A) :
  NoDup (l ++ l') -> ~ In a (l ++ l') -> NoDup (l ++ a :: l').
Proof.
  induction l as [|x l IH]; simpl; intros Hnd Hout.
  - now constructor.
  - inversion Hnd as [|? ? Hx Hrest]; subst. constructor.
    + intros Hin. apply in_app_iff in Hin. simpl in Hin.
      destruct Hin as [Hin|[Heq|Hin]].
      * apply Hx, in_app_iff. now left.
      * apply Hout. now left.
      * apply Hx, in_app_iff. now right.
    + apply IH; [assumption|]. intros Hin. apply Hout. now right.
Qed.

Lemma mem_snoc (x k : string) (h : list string) :
  mem x (h ++ [k]) = mem x h || String.eqb x k.
Proof.
  unfold mem. rewrite existsb_app. simpl. now rewrite orb_false_r.
Qed.

Lemma deleteProperty_filter (f : string * StateEntry -> bool) (state : BundleState) (k : string) :
  deleteProperty (filter f state) k =
  filter (fun kv => f kv && negb (String.eqb (fst kv) k)) state.
Proof.
  unfold deleteProperty, keyIs. induction state as [|kv state IH]; simpl; [reflexivity|].
  destruct (f kv); simpl; [|assumption].
  destruct (String.eqb (fst kv) k); simpl; [assumption|now rewrite IH].
Qed.

Lemma filter_all {A : Type} (l : list A) : filter (fun _ => true) l = l.
Proof. induction l as [|x l IH]; simpl; [reflexivity|now rewrite IH]. Qed.

Lemma Reconciled_start (state0 : BundleState) : Reconciled state0 (start state0).
Proof.
  constructor; simpl.
  - now rewrite filter_all.
  - intros n. tauto.
  - constructor.
  - intros n [].
  - intros n [].
  - reflexivity.
Qed.

(** The state object after [pkgCache.del]. *)
Lemma Reconciled_del_state (state0 : BundleState) (c : PkgCache) (p : PackageInfo) :
  bundleState c = filter (fun kv => negb (mem (fst kv) (hist c))) state0 ->
  bundleState (del c p) = filter (fun kv => negb (mem (fst kv) (hist (del c p)))) state0.
Proof.
  intros Hst. simpl. rewrite Hst, deleteProperty_filter.
  apply filter_ext. intros kv. rewrite mem_snoc, negb_orb. reflexivity.
Qed.

Lemma Reconciled_live (state0 : BundleState) (acc : AnalyzedState * PkgCache) (n : string) :
  Reconciled state0 acc ->
  (In n (Object_keys (bundleState (snd acc))) <->
   In n (Object_keys state0) /\ ~ In n (hist (snd acc))).
Proof.
  intros [Hst _ _ _ _ _]. rewrite Hst. unfold Object_keys.
  rewrite !in_map_iff. split.
  - intros [kv [Heq Hin]]. apply filter_In in Hin. destruct Hin as [Hin Hb].
    apply negb_true_iff, mem_false in Hb. subst n. split; [now exists kv|assumption].
  - intros [[kv [Heq Hin]] Hout]. exists kv. split; [assumption|].
    apply filter_In. split; [assumption|].
    apply negb_true_iff, mem_false. now subst n.
Qed.

Lemma names_app (l l' : list PackageInfo) : names (l ++ l') = names l ++ names l'.
Proof. apply map_app. Qed.

Lemma Reconciled_classify (state0 : BundleState) (acc : AnalyzedState * PkgCache)
      (p : PackageInfo) :
  Reconciled state0 acc -> Reconciled state0 (classify acc p).
Proof.
  intros Hrec. pose proof (Reconciled_live state0 acc (pkg_name p) Hrec) as Hlive.
  destruct Hrec as [Hst Hhist Honce Hknown Hadded Hin].
  destruct acc as [r c]. simpl in *. unfold classify.
  destruct (isSome (pkg_error p)).
  - constructor; simpl; try assumption.
    + now apply Reconciled_del_state.
    + intros n. rewrite in_app_iff, Hhist, !names_app, !in_app_iff. simpl. tauto.
  - destruct (hasOwnProperty (bundleState c) (pkg_name p)) eqn:Hhas.
    + apply hasOwnProperty_In, Hlive in Hhas. destruct Hhas as [Hk Hfresh].
      assert (Hnew : ~ In (pkg_name p) (names (current r ++ changed r))).
      { intros Hold. apply Hfresh, Hhist. rewrite !names_app, !in_app_iff in *. tauto. }
      destruct (strict_eq _ _).
      * constructor; simpl; try assumption.
        -- now apply Reconciled_del_state.
        -- intros n. rewrite in_app_iff, Hhist, !names_app, !in_app_iff. simpl. tauto.
        -- rewrite <- app_assoc, names_app. simpl. apply NoDup_insert.
           ++ now rewrite <- names_app.
           ++ now rewrite <- names_app.
        -- intros n. rewrite <- app_assoc, names_app, in_app_iff. simpl.
           intros [H|[H|H]]; [| now subst |];
             apply Hknown; rewrite names_app, in_app_iff; tauto.
      * constructor; simpl; try assumption.
        -- now apply Reconciled_del_state.
        -- intros n. rewrite in_app_iff, Hhist, !names_app, !in_app_iff. simpl. tauto.
        -- rewrite app_assoc, names_app. simpl.
           replace (names (current r ++ changed r) ++ [pkg_name p])
             with (names (current r ++ changed r) ++ pkg_name p :: []) by reflexivity.
           apply NoDup_insert; now rewrite app_nil_r.
        -- intros n. rewrite app_assoc, names_app, in_app_iff. simpl.
           intros [H|[H|[]]]; [now apply Hknown|now subst].
    + destruct (deleted c p) eqn:Hdel; simpl.
      * now constructor.
      * constructor; simpl; try assumption.
        intros n. rewrite names_app, in_app_iff. simpl.
        intros [H|[H|[]]]; [now apply Hadded|]. subst n.
        intros Hk. apply hasOwnProperty_false in Hhas. apply Hhas, Hlive.
        split; [assumption|]. intros Hh.
        apply indexOf_present in Hh. unfold deleted in Hdel. congruence.
Qed.

Lemma Reconciled_fold (state0 : BundleState) (l : list PackageInfo)
      (acc : AnalyzedState * PkgCache) :
  Reconciled state0 acc -> Reconciled state0 (fold_left classify l acc).
Proof.
  revert acc. induction l as [|p l IH]; intros acc Hrec; simpl; [assumption|].
  apply IH. now apply Reconciled_classify.
Qed.

Lemma hasOwnProperty_delete_other (state : BundleState) (k n : string) :
  k <> n -> hasOwnProperty (deleteProperty state k) n = hasOwnProperty state n.
Proof.
  intros Hne.
  destruct (hasOwnProperty state n) eqn:Hn.
  - apply hasOwnProperty_In. apply keys_deleteProperty.
    apply hasOwnProperty_In in Hn. split; congruence.
  - apply hasOwnProperty_false. intros Hin. apply keys_deleteProperty in Hin.
    apply hasOwnProperty_false in Hn. tauto.
Qed.

Lemma hasOwnProperty_delete_same (state : BundleState) (n : string) :
  hasOwnProperty (deleteProperty state n) n = false.
Proof.
  apply hasOwnProperty_false. intros Hin. apply keys_deleteProperty in Hin. tauto.
Qed.

Lemma hasOwnProperty_delete_false (state : BundleState) (k n : string) :
  hasOwnProperty state n = false -> hasOwnProperty (deleteProperty state k) n = false.
Proof.
  intros Hn. apply hasOwnProperty_false. intros Hin.
  apply keys_deleteProperty in Hin. apply hasOwnProperty_false in Hn. tauto.
Qed.

Lemma named_app (n : string) (l l' : list PackageInfo) :
  named n (l ++ l') = named n l ++ named n l'.
Proof. apply filter_app. Qed.

Lemma named_snoc_other (n : string) (l : list PackageInfo) (p : PackageInfo) :
  pkg_name p <> n -> named n (l ++ [p]) = named n l.
Proof.
  intros Hne. rewrite named_app. simpl.
  apply String.eqb_neq in Hne. rewrite Hne. apply app_nil_r.
Qed.

Lemma named_snoc_same (l : list PackageInfo) (p : PackageInfo) :
  named (pkg_name p) (l ++ [p]) = named (pkg_name p) l ++ [p].
Proof. rewrite named_app. simpl. now rewrite String.eqb_refl. Qed.

Lemma sameFor_refl (n : string) (acc : AnalyzedState * PkgCache) : sameFor n acc acc.
Proof. unfold sameFor. tauto. Qed.

Lemma sameFor_trans (n : string) (a b c : AnalyzedState * PkgCache) :
  sameFor n a b -> sameFor n b c -> sameFor n a c.
Proof.
  unfold sameFor. intros [H1 [H2 [H3 [H4 [H5 H6]]]]] [G1 [G2 [G3 [G4 [G5 G6]]]]].
  repeat split; try congruence; tauto.
Qed.

Lemma classify_other (n : string) (acc : AnalyzedState * PkgCache) (p : PackageInfo) :
  pkg_name p <> n -> sameFor n acc (classify acc p).
Proof.
  intros Hne. destruct acc as [r c]. unfold classify, sameFor.
  assert (Hhist : In n (hist c ++ [pkg_name p]) <-> In n (hist c)).
  { rewrite in_app_iff. simpl. intuition congruence. }
  destruct (isSome (pkg_error p)); simpl.
  - rewrite named_snoc_other, hasOwnProperty_delete_other by assumption. tauto.
  - destruct (hasOwnProperty (bundleState c) (pkg_name p)).
    + destruct (strict_eq _ _); simpl;
        rewrite named_snoc_other, hasOwnProperty_delete_other by assumption; tauto.
    + destruct (deleted c p); simpl.
      * tauto.
      * rewrite named_snoc_other by assumption. tauto.
Qed.

Lemma fold_classify_others (n : string) (l : list PackageInfo)
      (acc : AnalyzedState * PkgCache) :
  ~ In n (names l) -> sameFor n acc (fold_left classify l acc).
Proof.
  revert acc. induction l as [|p l IH]; intros acc Hout; simpl.
  - apply sameFor_refl.
  - apply sameFor_trans with (b := classify acc p).
    + apply classify_other. intros Heq. apply Hout. now left.
    + apply IH. intros Hin. apply Hout. now right.
Qed.

(** Once a name is consumed, no later round classifies it as current,
    changed or added. *)
Lemma classify_consumed (n : string) (acc : AnalyzedState * PkgCache) (p : PackageInfo) :
  consumed n acc ->
  consumed n (classify acc p) /\
  named n (current (fst (classify acc p))) = named n (current (fst acc)) /\
  named n (changed (fst (classify acc p))) = named n (changed (fst acc)) /\
  named n (added (fst (classify acc p))) = named n (added (fst acc)).
Proof.
  intros [Hh Hs]. destruct (string_dec (pkg_name p) n) as [Heq|Hne].
  - subst n. destruct acc as [r c]. unfold classify, consumed in *. simpl in *.
    destruct (isSome (pkg_error p)); simpl.
    + rewrite hasOwnProperty_delete_same, in_app_iff. tauto.
    + rewrite Hs. apply indexOf_present in Hh. unfold deleted. rewrite Hh. simpl.
      apply indexOf_present in Hh. tauto.
  - destruct (classify_other n acc p Hne) as [H1 [H2 [H3 [_ [H5 H6]]]]].
    unfold consumed. rewrite H5, H6. tauto.
Qed.

Lemma fold_classify_consumed (n : string) (l : list PackageInfo)
      (acc : AnalyzedState * PkgCache) :
  consumed n acc ->
  named n (current (fst (fold_left classify l acc))) = named n (current (fst acc)) /\
  named n (changed (fst (fold_left classify l acc))) = named n (changed (fst acc)) /\
  named n (added (fst (fold_left classify l acc))) = named n (added (fst acc)).
Proof.
  revert acc. induction l as [|p l IH]; intros acc Hc; simpl; [tauto|].
  destruct (classify_consumed n acc p Hc) as [Hc' [H1 [H2 H3]]].
  destruct (IH _ Hc') as [G1 [G2 G3]]. repeat split; congruence.
Qed.

(** The round of the first descriptor that carries a name the state object
    still holds. *)
Lemma classify_first (acc : AnalyzedState * PkgCache) (p : PackageInfo) :
  hasOwnProperty (bundleState (snd acc)) (pkg_name p) = true ->
  named (pkg_name p) (current (fst acc)) = [] ->
  named (pkg_name p) (changed (fst acc)) = [] ->
  named (pkg_name p) (added (fst acc)) = [] ->
  consumed (pkg_name p) (classify acc p) /\
  named (pkg_name p)
    (current (fst (classify acc p)) ++ changed (fst (classify acc p))
       ++ added (fst (classify acc p)))
  = if isSome (pkg_error p) then [] else [p].
Proof.
  destruct acc as [r c]. unfold classify, consumed. simpl.
  intros Hhas Hc Hch Ha.
  assert (Hin : In (pkg_name p) (hist c ++ [pkg_name p])).
  { apply in_app_iff. right. now left. }
  destruct (isSome (pkg_error p)); simpl.
  - rewrite hasOwnProperty_delete_same, !named_app, Hc, Hch, Ha. auto.
  - assert (Hp : named (pkg_name p) [p] = [p]).
    { simpl. now rewrite String.eqb_refl. }
    rewrite Hhas. destruct (strict_eq _ _); simpl;
      rewrite hasOwnProperty_delete_same, !named_app, Hp, Hc, Hch, Ha; auto.
Qed.

Lemma analyze_eq (packages : list PackageInfo) (state : BundleState) :
  analyze packages state =
  (set_removed (fst (fold_left classify packages (start state)))
     (removedOf (bundleState (snd (fold_left classify packages (start state))))),
   bundleState (snd (fold_left classify packages (start state)))).
Proof.
  unfold analyze. now destruct (fold_left classify packages (start state)).
Qed.

Lemma names_removedOf (state : BundleState) : names (removedOf state) = Object_keys state.
Proof.
  unfold names, removedOf, Object_keys. rewrite map_map. now apply map_ext.
Qed.

Lemma first_descriptor_classified (packages l1 l2 : list PackageInfo) (p : PackageInfo)
      (state : BundleState) :
  packages = l1 ++ p :: l2 ->
  ~ In (pkg_name p) (names l1) ->
  hasOwnProperty state (pkg_name p) = true ->
  let r := fst (analyze packages state) in
  named (pkg_name p) (current r ++ changed r ++ added r)
  = if isSome (pkg_error p) then [] else [p].
Proof.
  intros -> Hfirst Hhas. rewrite analyze_eq. simpl.
  rewrite fold_left_app. simpl.
  destruct (fold_classify_others (pkg_name p) l1 (start state) Hfirst)
    as [H1 [H2 [H3 [_ [_ H6]]]]].
  simpl in H1, H2, H3, H6. rewrite Hhas in H6.
  destruct (classify_first (fold_left classify l1 (start state)) p H6 H1 H2 H3)
    as [Hcons Hnamed].
  destruct (fold_classify_consumed (pkg_name p) l2 _ Hcons) as [G1 [G2 G3]].
  rewrite !named_app, G1, G2, G3, <- !named_app. exact Hnamed.
Qed.

Lemma classify_grows (acc : AnalyzedState * PkgCache) (p q : PackageInfo) :
  covered acc q -> covered (classify acc p) q.
Proof.
  destruct acc as [r c]. unfold covered, classify. simpl.
  destruct (isSome (pkg_error p)); simpl.
  - rewrite in_app_iff. tauto.
  - destruct (hasOwnProperty (bundleState c) (pkg_name p)).
    + destruct (strict_eq _ _); simpl; rewrite in_app_iff; tauto.
    + destruct (deleted c p); simpl; [tauto|].
      rewrite names_app, in_app_iff. tauto.
Qed.

Lemma classify_covers (acc : AnalyzedState * PkgCache) (p : PackageInfo) :
  covered (classify acc p) p.
Proof.
  destruct acc as [r c]. unfold covered, classify. simpl.
  destruct (isSome (pkg_error p)); simpl.
  - right. rewrite in_app_iff. simpl. tauto.
  - destruct (hasOwnProperty (bundleState c) (pkg_name p)).
    + destruct (strict_eq _ _); simpl; right; rewrite in_app_iff; simpl; tauto.
    + destruct (deleted c p) eqn:Hdel; simpl.
      * right. now apply indexOf_present.
      * left. rewrite names_app, in_app_iff. simpl. tauto.
Qed.

Lemma covered_fold (l seen : list PackageInfo) (acc : AnalyzedState * PkgCache) :
  (forall p, In p seen -> covered acc p) ->
  forall p, In p (seen ++ l) -> covered (fold_left classify l acc) p.
Proof.
  revert seen acc. induction l as [|x l IH]; intros seen acc Hseen p Hp; simpl.
  - rewrite app_nil_r in Hp. now apply Hseen.
  - apply (IH (seen ++ [x])).
    + intros q Hq. apply in_app_iff in Hq. destruct Hq as [Hq|[<-|[]]].
      * now apply classify_grows, Hseen.
      * apply classify_covers.
    + now rewrite <- app_assoc.
Qed.

Lemma analyze_Reconciled (packages : list PackageInfo) (state : BundleState) :
  Reconciled state (fold_left classify packages (start state)).
Proof. apply Reconciled_fold, Reconciled_start. Qed.

Lemma fold_classify_error (l : list PackageInfo) (acc : AnalyzedState * PkgCache) :
  error (fst (fold_left classify l acc)) = error (fst acc) ++ filter hasError l.
Proof.
  revert acc. induction l as [|p l IH]; intros acc; simpl.
  - now rewrite app_nil_r.
  - rewrite IH. destruct acc as [r c]. unfold classify, hasError.
    destruct (isSome (pkg_error p)); simpl.
    + now rewrite <- app_assoc.
    + destruct (hasOwnProperty (bundleState c) (pkg_name p)).
      * now destruct (strict_eq _ _).
      * now destruct (deleted c p).
Qed.

Lemma analyze_error_filter (packages : list PackageInfo) (state : BundleState) :
  error (fst (analyze packages state)) = filter hasError packages.
Proof.
  rewrite analyze_eq. simpl. now rewrite fold_classify_error.
Qed.

(** A name the state object lacks: until a descriptor of the name fails,
    every resolved descriptor of the name is added. *)
Lemma fold_classify_absent (n : string) (l : list PackageInfo)
      (acc : AnalyzedState * PkgCache) :
  hasOwnProperty (bundleState (snd acc)) n = false ->
  ~ In n (hist (snd acc)) ->
  named n (current (fst (fold_left classify l acc))) = named n (current (fst acc)) /\
  named n (changed (fst (fold_left classify l acc))) = named n (changed (fst acc)) /\
  named n (added (fst (fold_left classify l acc)))
  = named n (added (fst acc)) ++ beforeError (named n l).
Proof.
  revert acc. induction l as [|p l IH]; intros acc Hhas Hh.
  - simpl. now rewrite app_nil_r.
  - cbn [fold_left]. destruct (string_dec (pkg_name p) n) as [Heq|Hne].
    + assert (Hnamed : named n (p :: l) = p :: named n l).
      { unfold named. simpl. apply String.eqb_eq in Heq. now rewrite Heq. }
      rewrite Hnamed. cbn [beforeError]. unfold hasError.
      destruct (isSome (pkg_error p)) eqn:Herr.
      * assert (Hstep : classify acc p = (push_error (fst acc) p, del (snd acc) p)).
        { destruct acc as [r c]. unfold classify. now rewrite Herr. }
        assert (Hcons : consumed n (classify acc p)).
        { rewrite Hstep. unfold consumed. simpl. rewrite Heq.
          rewrite hasOwnProperty_delete_same, in_app_iff. simpl. tauto. }
        destruct (fold_classify_consumed n l _ Hcons) as [G1 [G2 G3]].
        rewrite G1, G2, G3, Hstep. simpl. now rewrite app_nil_r.
      * assert (Hdel : deleted (snd acc) p = false).
        { unfold deleted. rewrite Heq.
          destruct (indexOf (hist (snd acc)) n >? -1)%Z eqn:Hi; [|reflexivity].
          now apply indexOf_present in Hi. }
        assert (Hstep : classify acc p = (push_added (fst acc) p, snd acc)).
        { destruct acc as [r c]. unfold classify. simpl in *.
          now rewrite Herr, Heq, Hhas, Hdel. }
        destruct (IH (classify acc p)) as [G1 [G2 G3]].
        { now rewrite Hstep. }
        { now rewrite Hstep. }
        rewrite G1, G2, G3, Hstep. simpl.
        rewrite named_app, <- app_assoc. simpl.
        apply String.eqb_eq in Heq. now rewrite Heq.
    + assert (Hnamed : named n (p :: l) = named n l).
      { unfold named. simpl. apply String.eqb_neq in Hne. now rewrite Hne. }
      rewrite Hnamed.
      destruct (classify_other n acc p Hne) as [H1 [H2 [H3 [_ [H5 H6]]]]].
      destruct (IH (classify acc p)) as [G1 [G2 G3]].
      { now rewrite H6. }
      { now rewrite H5. }
      rewrite G1, G2, G3, H1, H2, H3. auto.
Qed.

(** C1, as stated, fails: on a first run (no persisted state) the two
    descriptors of [pkgC] are both classified [added]. *)
Lemma analyze_adds_duplicate_twice :
  ~ (forall (packages : list PackageInfo) (state : BundleState),
        NoDup (Object_keys state) ->
        fst (forEach packages (start state)) = None ->
        classifiedOnce (fst (analyze packages state))).
Proof.
  intros claim.
  specialize (claim (getMetadata (control None [vendorTwice]) (installed [])) []).
  assert (Hnd : NoDup ["pkgA"; "pkgC"; "pkgC"]) by (apply claim; [constructor|reflexivity]).
  inversion Hnd as [|? ? _ Htail]; subst.
  inversion Htail as [|? ? Hout _]; subst.
  apply Hout. now left.
Qed.

(** C1, amended: for a run that returns, over a persisted state with
    unique keys. A name appears at most once over [current], [changed] and
    [removed] together; a name in [added] is in none of those three and a
    name in [error] is not in [removed]; every declared name appears in
    [current], [changed], [added] or [error]; [error] lists exactly the
    descriptors that carry an error. Of the descriptors sharing a name
    that the persisted state holds, only the first in declaration order can
    be classified current, changed or added: it is (as current or changed)
    when it resolved, and none is when it failed. Of the descriptors
    sharing a name that the persisted state lacks, none is current or
    changed, and those declared before the first failed one of the name
    are each added. *)
Theorem analyze_first_descriptor_owns_name
        (packages : list PackageInfo) (state : BundleState) :
  NoDup (Object_keys state) ->
  fst (forEach packages (start state)) = None ->
  let r := fst (analyze packages state) in
  NoDup (names (current r ++ changed r ++ removed r)) /\
  (forall n, In n (names (added r)) ->
             ~ In n (names (current r ++ changed r ++ removed r))) /\
  (forall n, In n (names (error r)) -> ~ In n (names (removed r))) /\
  (forall p, In p packages ->
             In (pkg_name p) (names (current r ++ changed r ++ added r ++ error r))) /\
  error r = filter hasError packages /\
  (forall l1 p l2,
      packages = l1 ++ p :: l2 ->
      ~ In (pkg_name p) (names l1) ->
      hasOwnProperty state (pkg_name p) = true ->
      named (pkg_name p) (current r ++ changed r ++ added r)
      = if isSome (pkg_error p) then [] else [p]) /\
  (forall n,
      hasOwnProperty state n = false ->
      named n (current r ++ changed r) = [] /\
      named n (added r) = beforeError (named n packages)).
Proof.
  intros Hnd _ r.
  pose proof (analyze_Reconciled packages state) as Hrec.
  pose proof (fun n => Reconciled_live state _ n Hrec) as Hlive.
  destruct Hrec as [Hst Hhist Honce Hknown Hadded _].
  assert (Hcur : current r = current (fst (fold_left classify packages (start state))))
    by (subst r; now rewrite analyze_eq).
  assert (Hchg : changed r = changed (fst (fold_left classify packages (start state))))
    by (subst r; now rewrite analyze_eq).
  assert (Hadd : added r = added (fst (fold_left classify packages (start state))))
    by (subst r; now rewrite analyze_eq).
  assert (Herr : error r = error (fst (fold_left classify packages (start state))))
    by (subst r; now rewrite analyze_eq).
  assert (Hrem : names (removed r)
                 = Object_keys (bundleState (snd (fold_left classify packages (start state)))))
    by (subst r; rewrite analyze_eq; simpl; apply names_removedOf).
  assert (Hleft : forall n, In n (names (removed r)) ->
                            In n (Object_keys state) /\
                            ~ In n (names (current r ++ changed r ++ error r))).
  { intros n Hin. rewrite Hrem in Hin. apply Hlive in Hin.
    rewrite Hcur, Hchg, Herr, <- Hhist. exact Hin. }
  split; [|split; [|split; [|split; [|split; [|split]]]]].
  - rewrite app_assoc, names_app. apply NoDup_app.
    + now rewrite Hcur, Hchg.
    + rewrite Hrem, Hst. now apply NoDup_keys_filter.
    + intros n Hin Hrm. apply Hleft in Hrm. destruct Hrm as [_ Hrm]. apply Hrm.
      rewrite app_assoc, names_app, in_app_iff. now left.
  - intros n Hin Hother. rewrite Hadd in Hin. apply Hadded in Hin. apply Hin.
    rewrite app_assoc, names_app, in_app_iff in Hother.
    destruct Hother as [Hcc|Hrm].
    + apply Hknown. now rewrite <- Hcur, <- Hchg.
    + now apply Hleft in Hrm.
  - intros n Hin Hrm. apply Hleft in Hrm. destruct Hrm as [_ Hrm]. apply Hrm.
    rewrite !names_app, !in_app_iff. tauto.
  - intros p Hp.
    assert (Hcov : covered (fold_left classify packages (start state)) p).
    { apply (covered_fold packages []); [intros q []|assumption]. }
    rewrite !names_app, !in_app_iff. destruct Hcov as [Ha|Hh].
    + rewrite Hadd. tauto.
    + apply Hhist in Hh. rewrite !names_app, !in_app_iff in Hh.
      rewrite Hcur, Hchg, Herr. tauto.
  - apply analyze_error_filter.
  - intros l1 p l2 Hsplit Hfirst Hhas.
    now apply (first_descriptor_classified packages l1 l2 p state).
  - intros n Hhas.
    destruct (fold_classify_absent n packages (start state) Hhas (fun H => H))
      as [G1 [G2 G3]].
    rewrite named_app, Hcur, Hchg, Hadd, G1, G2, G3. simpl. auto.
Qed.

Lemma analyze_first_descriptor_owns_name_witness :
  let packages := getMetadata (control None [vendorTwice]) (installed []) in
  NoDup (Object_keys savedEarlier) /\
  fst (forEach packages (start savedEarlier)) = None /\
  let r := fst (analyze packages savedEarlier) in
  NoDup (names (current r ++ changed r ++ removed r)) /\
  (forall n, In n (names (added r)) ->
             ~ In n (names (current r ++ changed r ++ removed r))) /\
  (forall n, In n (names (error r)) -> ~ In n (names (removed r))) /\
  (forall p, In p packages ->
             In (pkg_name p) (names (current r ++ changed r ++ added r ++ error r))) /\
  error r = filter hasError packages /\
  (forall l1 p l2,
      packages = l1 ++ p :: l2 ->
      ~ In (pkg_name p) (names l1) ->
      hasOwnProperty savedEarlier (pkg_name p) = true ->
      named (pkg_name p) (current r ++ changed r ++ added r)
      = if isSome (pkg_error p) then [] else [p]) /\
  (forall n,
      hasOwnProperty savedEarlier n = false ->
      named n (current r ++ changed r) = [] /\
      named n (added r) = beforeError (named n packages)).
Proof.
  intros packages.
  assert (Hnd : NoDup (Object_keys savedEarlier)).
  { simpl. repeat constructor; simpl; intuition discriminate. }
  assert (Hrun : fst (forEach packages (start savedEarlier)) = None) by reflexivity.
  split; [exact Hnd|]. split; [exact Hrun|].
  exact (analyze_first_descriptor_owns_name packages savedEarlier Hnd Hrun).
Defined.

(** A duplicate that follows a failed descriptor of its name is
    suppressed even when the persisted state lacks the name. *)
Example analyze_suppresses_after_failure :
  let failed := {| pkg_bundle := "app"; pkg_name := "pkgA"; pkg_path := "nowhere";
                   pkg_version := None;
                   pkg_error := Some (NodeError ResolveCall "nowhere") |} in
  let good := {| pkg_bundle := "vendor"; pkg_name := "pkgA"; pkg_path := "pkgA";
                 pkg_version := Some "1.0.0"; pkg_error := None |} in
  added (fst (analyze [failed; good] [])) = [] /\
  added (fst (analyze [good; good; failed; good] [])) = [good; good].
Proof. split; reflexivity. Qed.

Lemma sourced_classify (packages : list PackageInfo) (acc : AnalyzedState * PkgCache)
      (p : PackageInfo) :
  sourced packages acc -> In p packages -> sourced packages (classify acc p).
Proof.
  destruct acc as [r c]. unfold sourced, classify. simpl. intros [Hok Herr] Hin.
  destruct (pkg_error p) as [e|] eqn:Hpe; simpl.
  - split; [assumption|]. intros q Hq. apply in_app_iff in Hq.
    destruct Hq as [Hq|[<-|[]]]; [now apply Herr|]. now rewrite Hpe.
  - destruct (hasOwnProperty (bundleState c) (pkg_name p)).
    + destruct (strict_eq _ _); simpl; (split; [|assumption]); intros q Hq;
        rewrite !in_app_iff in Hq; simpl in Hq;
        destruct Hq as [Hq|[Hq|Hq]];
        try (apply Hok; rewrite !in_app_iff; tauto);
        destruct Hq as [Hq|[Hq|Hq]];
        try (apply Hok; rewrite !in_app_iff; tauto);
        try (subst q; now split); try contradiction.
    + destruct (deleted c p); simpl; [now split|].
      split; [|assumption]. intros q Hq.
      rewrite !in_app_iff in Hq. simpl in Hq.
      destruct Hq as [Hq|[Hq|[Hq|[Hq|[]]]]];
        try (apply Hok; rewrite !in_app_iff; tauto).
      subst q. now split.
Qed.

Lemma sourced_fold (packages l : list PackageInfo) (acc : AnalyzedState * PkgCache) :
  sourced packages acc -> incl l packages -> sourced packages (fold_left classify l acc).
Proof.
  revert acc. induction l as [|p l IH]; intros acc Hs Hincl; simpl; [assumption|].
  apply IH.
  - apply sourced_classify; [assumption|]. apply Hincl. now left.
  - intros q Hq. apply Hincl. now right.
Qed.

Lemma analyze_sourced (packages : list PackageInfo) (state : BundleState) :
  sourced packages (fold_left classify packages (start state)).
Proof.
  apply sourced_fold; [|apply incl_refl].
  split; simpl; intros p [].
Qed.

Lemma analyze_error_source (packages : list PackageInfo) (state : BundleState) (p : PackageInfo) :
  In p (error (fst (analyze packages state))) ->
  In p packages /\ isSome (pkg_error p) = true.
Proof.
  rewrite analyze_eq. simpl. apply (proj2 (analyze_sourced packages state)).
Qed.

Lemma analyze_no_error (packages : list PackageInfo) (state : BundleState) :
  (forall d, In d packages -> pkg_error d = None) ->
  error (fst (analyze packages state)) = [].
Proof.
  intros Hall. destruct (error (fst (analyze packages state))) as [|p l] eqn:He; [reflexivity|].
  assert (Hin : In p (error (fst (analyze packages state)))) by (rewrite He; now left).
  apply analyze_error_source in Hin. destruct Hin as [Hin Hsome].
  rewrite (Hall p Hin) in Hsome. discriminate.
Qed.

(** *** The names collected by [checkBundles] *)

Lemma pushBundle_fold_In (ps : list PackageInfo) (init : list string) (n : string) :
  In n (fold_left pushBundle ps init) <-> In n init \/ In n (map pkg_bundle ps).
Proof.
  revert init. induction ps as [|p ps IH]; intros init; simpl; [tauto|].
  rewrite IH. unfold pushBundle.
  destruct (Z.eqb_spec (indexOf init (pkg_bundle p)) (-1)) as [Habs|Hpres].
  - rewrite in_app_iff. simpl. tauto.
  - assert (Hin : In (pkg_bundle p) init).
    { destruct (in_dec string_dec (pkg_bundle p) init) as [H|H]; [assumption|].
      now apply indexOf_absent in H. }
    split; [tauto|]. intros [H|[H|H]]; auto. subst n. auto.
Qed.

Lemma filter_filter {A : Type} (f g : A -> bool) (l : list A) :
  filter f (filter g l) = filter (fun x => g x && f x) l.
Proof.
  induction l as [|x l IH]; simpl; [reflexivity|].
  destruct (g x); simpl; [|assumption]. destruct (f x); now rewrite IH.
Qed.

(** The loop over [indexOf] and [push] appends the new names in order of
    first mention. *)
Lemma pushBundle_fold_order (ps : list PackageInfo) (init : list string) :
  fold_left pushBundle ps init =
  init ++ filter (fun n => negb (mem n init)) (firstMentions (map pkg_bundle ps)).
Proof.
  revert init. induction ps as [|p ps IH]; intros init; simpl.
  - now rewrite app_nil_r.
  - rewrite IH. unfold pushBundle.
    destruct (Z.eqb_spec (indexOf init (pkg_bundle p)) (-1)) as [Habs|Hpres].
    + apply indexOf_absent, mem_false in Habs. rewrite Habs. simpl.
      rewrite <- app_assoc. simpl. f_equal. f_equal.
      rewrite filter_filter. apply filter_ext. intros n.
      rewrite mem_snoc, negb_orb. apply andb_comm.
    + assert (Hin : mem (pkg_bundle p) init = true).
      { apply mem_In. destruct (in_dec string_dec (pkg_bundle p) init) as [H|H];
          [assumption|]. now apply indexOf_absent in H. }
      rewrite Hin. simpl. f_equal.
      rewrite filter_filter. apply filter_ext. intros n.
      destruct (String.eqb_spec n (pkg_bundle p)) as [->|Hne]; simpl; [|reflexivity].
      now rewrite Hin.
Qed.

Lemma firstMentions_In (l : list string) (n : string) :
  In n (firstMentions l) <-> In n l.
Proof.
  induction l as [|x l IH]; simpl; [tauto|].
  rewrite filter_In, IH, negb_true_iff, String.eqb_neq.
  destruct (string_dec x n); intuition congruence.
Qed.

Lemma firstMentions_NoDup (l : list string) : NoDup (firstMentions l).
Proof.
  induction l as [|x l IH]; simpl; constructor.
  - rewrite filter_In, negb_true_iff, String.eqb_neq. tauto.
  - now apply NoDup_filter.
Qed.

Lemma rebuildNames_order (this : DllBundlesControl) (w : World) (analyzed : AnalyzedState) :
  rebuildNames this w analyzed =
  filter (bundleLooksValid this w) (map bnd_name (bundles this))
  ++ filter (fun n => negb (mem n (filter (bundleLooksValid this w)
                                     (map bnd_name (bundles this)))))
       (firstMentions (map pkg_bundle (flagging analyzed))).
Proof. apply pushBundle_fold_order. Qed.

Lemma rebuildNames_In (this : DllBundlesControl) (w : World) (analyzed : AnalyzedState)
      (n : string) :
  In n (rebuildNames this w analyzed) <->
  (In n (map bnd_name (bundles this)) /\ bundleLooksValid this w n = true) \/
  exists p, In p (flagging analyzed) /\ pkg_bundle p = n.
Proof.
  unfold rebuildNames. rewrite pushBundle_fold_In, filter_In.
  fold (flagging analyzed). split; (intros [H|H]; [now left|right]).
  - apply in_map_iff in H. destruct H as [p [Heq Hin]]. now exists p.
  - apply in_map_iff. destruct H as [p [Hin Heq]]. now exists p.
Qed.

Lemma rebuildNames_NoDup (this : DllBundlesControl) (w : World) (analyzed : AnalyzedState) :
  NoDup (map bnd_name (bundles this)) -> NoDup (rebuildNames this w analyzed).
Proof.
  intros Hnd. rewrite rebuildNames_order. apply NoDup_app.
  - now apply NoDup_filter.
  - apply NoDup_filter, firstMentions_NoDup.
  - intros n Hin Hin'. apply filter_In in Hin'. destruct Hin' as [_ Hout].
    apply negb_true_iff, mem_false in Hout. contradiction.
Qed.

(** *** Looking a bundle up by name *)

Lemma bundleNamed_Some (this : DllBundlesControl) (n : string) (b : DllBundleConfig) :
  bundleNamed this n = Some b -> In b (bundles this) /\ bnd_name b = n.
Proof.
  unfold bundleNamed. intros Hhd.
  assert (Hin : In b (filter (fun bnd => String.eqb (bnd_name bnd) n) (bundles this))).
  { destruct (filter _ (bundles this)) as [|b' l]; simpl in Hhd; [discriminate|].
    injection Hhd as ->. now left. }
  apply filter_In in Hin. now rewrite String.eqb_eq in Hin.
Qed.

Lemma bundleNamed_None (this : DllBundlesControl) (n : string) :
  bundleNamed this n = None <-> forall b, In b (bundles this) -> bnd_name b <> n.
Proof.
  unfold bundleNamed. split.
  - intros Hhd b Hin Heq.
    assert (Hb : In b (filter (fun bnd => String.eqb (bnd_name bnd) n) (bundles this))).
    { apply filter_In. split; [assumption|]. now apply String.eqb_eq. }
    destruct (filter _ (bundles this)); [contradiction|discriminate].
  - intros Hall.
    destruct (filter (fun bnd => String.eqb (bnd_name bnd) n) (bundles this))
      as [|b l] eqn:Hf; [reflexivity|].
    assert (Hb : In b (filter (fun bnd => String.eqb (bnd_name bnd) n) (bundles this)))
      by (rewrite Hf; now left).
    apply filter_In in Hb. destruct Hb as [Hin Heq].
    apply String.eqb_eq in Heq. now apply Hall in Hin.
Qed.

Lemma bundleNamed_declared (this : DllBundlesControl) (b : DllBundleConfig) :
  In b (bundles this) ->
  exists b', bundleNamed this (bnd_name b) = Some b'.
Proof.
  intros Hin. destruct (bundleNamed this (bnd_name b)) as [b'|] eqn:Hb; [now exists b'|].
  exfalso. now apply (proj1 (bundleNamed_None this (bnd_name b)) Hb b).
Qed.

Lemma NoDup_names_inj (bs : list DllBundleConfig) (b b' : DllBundleConfig) :
  NoDup (map bnd_name bs) -> In b bs -> In b' bs -> bnd_name b = bnd_name b' -> b = b'.
Proof.
  induction bs as [|x bs IH]; simpl; intros Hnd Hb Hb' Heq; [contradiction|].
  inversion Hnd as [|? ? Hout Hrest]; subst.
  destruct Hb as [->|Hb], Hb' as [->|Hb'].
  - reflexivity.
  - exfalso. apply Hout. rewrite Heq. now apply in_map.
  - exfalso. apply Hout. rewrite <- Heq. now apply in_map.
  - now apply IH.
Qed.

Lemma bundleNamed_unique (this : DllBundlesControl) (b : DllBundleConfig) :
  NoDup (map bnd_name (bundles this)) -> In b (bundles this) ->
  bundleNamed this (bnd_name b) = Some b.
Proof.
  intros Hnd Hin. destruct (bundleNamed_declared this b Hin) as [b' Hb'].
  rewrite Hb'. apply bundleNamed_Some in Hb'. destruct Hb' as [Hin' Heq].
  f_equal. now apply (NoDup_names_inj (bundles this)).
Qed.

(** ** The world across a call *)

Lemma sameOutside_refl (w : World) : sameOutside w w.
Proof. unfold sameOutside. tauto. Qed.

Lemma sameOutside_trans (w1 w2 w3 : World) :
  sameOutside w1 w2 -> sameOutside w2 w3 -> sameOutside w1 w3.
Proof.
  unfold sameOutside. intros [A1 [A2 [A3 A4]]] [B1 [B2 [B3 B4]]].
  repeat split; congruence.
Qed.

Lemma cacheObject_outside (w : World) (file : string) (obj : BundleState) :
  sameOutside w (cacheObject w file obj).
Proof. unfold sameOutside. simpl. tauto. Qed.

Lemma writeBack_outside (w : World) (ref : ObjRef) (obj : BundleState) :
  sameOutside w (writeBack w ref obj).
Proof. destruct ref; [apply sameOutside_refl|apply cacheObject_outside]. Qed.

Lemma getBundleSate_outside (this : DllBundlesControl) (w : World) :
  sameOutside w (fst (getBundleSate this w)).
Proof.
  unfold getBundleSate, requireState.
  destruct (existsSync w (stateFile this)); [|apply sameOutside_refl].
  destruct (require_cache w (stateFile this)); [apply sameOutside_refl|].
  destruct (fs w (stateFile this)) as [[s|]|]; simpl;
    [apply cacheObject_outside|apply sameOutside_refl|apply sameOutside_refl].
Qed.

(** The loop of [analyzeState] that runs through is the fold of its body. *)
Lemma forEach_None (packages : list PackageInfo) (acc : AnalyzedState * PkgCache) :
  fst (forEach packages acc) = None ->
  forEach packages acc = (None, fold_left classify packages acc).
Proof.
  revert acc. induction packages as [|p packages IH]; intros acc; simpl.
  - reflexivity.
  - destruct (negb (isSome (pkg_error p)) && methodShadowed (bundleState (snd acc)));
      [discriminate|apply IH].
Qed.

Lemma classify_keeps_unshadowed (acc : AnalyzedState * PkgCache) (p : PackageInfo) :
  methodShadowed (bundleState (snd acc)) = false ->
  methodShadowed (bundleState (snd (classify acc p))) = false.
Proof.
  unfold methodShadowed. intros H.
  assert (Hdel : hasOwnProperty (bundleState (del (snd acc) p)) "hasOwnProperty" = false).
  { apply hasOwnProperty_false. intros Hin. apply keys_deleteProperty in Hin.
    apply hasOwnProperty_false in H. tauto. }
  destruct acc as [result pkgCache]. unfold classify. simpl in *.
  destruct (isSome (pkg_error p)); [exact Hdel|].
  destruct (hasOwnProperty (bundleState pkgCache) (pkg_name p)).
  - destruct (strict_eq _ _); exact Hdel.
  - destruct (negb (deleted pkgCache p)); exact H.
Qed.

(** With the inherited method in place the loop runs through. *)
Lemma forEach_unshadowed (packages : list PackageInfo) (acc : AnalyzedState * PkgCache) :
  methodShadowed (bundleState (snd acc)) = false ->
  fst (forEach packages acc) = None.
Proof.
  revert acc. induction packages as [|p packages IH]; intros acc H; simpl.
  - reflexivity.
  - rewrite H, andb_false_r. apply IH. now apply classify_keeps_unshadowed.
Qed.

(** The loop throws nothing but the TypeError of the shadowed method. *)
Lemma forEach_Some (packages : list PackageInfo) (acc : AnalyzedState * PkgCache) (e : Error) :
  fst (forEach packages acc) = Some e ->
  e = NodeError PropertyCall "bundleState.hasOwnProperty".
Proof.
  revert acc. induction packages as [|p packages IH]; intros acc; simpl.
  - discriminate.
  - destruct (negb (isSome (pkg_error p)) && methodShadowed (bundleState (snd acc)));
      [simpl; congruence|apply IH].
Qed.

Lemma analyzeState_outside (this : DllBundlesControl) (w : World) :
  sameOutside w (fst (analyzeState this w)).
Proof.
  unfold analyzeState. pose proof (getBundleSate_outside this w) as Hout.
  destruct (getBundleSate this w) as [w1 [[ref state]|e]]; simpl in *; [|assumption].
  destruct (forEach (getMetadata this w) (start state)) as [[e|] [result pkgCache]]; simpl;
    (apply sameOutside_trans with (w2 := w1); [assumption|apply writeBack_outside]).
Qed.

Lemma writeBack_writable (w : World) (ref : ObjRef) (obj : BundleState) :
  fs_writable (writeBack w ref obj) = fs_writable w.
Proof. now destruct ref. Qed.

Lemma getBundleSate_writable (this : DllBundlesControl) (w : World) :
  fs_writable (fst (getBundleSate this w)) = fs_writable w.
Proof.
  unfold getBundleSate, requireState.
  destruct (existsSync w (stateFile this)); [|reflexivity].
  destruct (require_cache w (stateFile this)); [reflexivity|].
  now destruct (fs w (stateFile this)) as [[s|]|].
Qed.

Lemma analyzeState_writable (this : DllBundlesControl) (w : World) :
  fs_writable (fst (analyzeState this w)) = fs_writable w.
Proof.
  unfold analyzeState. pose proof (getBundleSate_writable this w) as Hw.
  destruct (getBundleSate this w) as [w1 [[ref state]|e]]; simpl in *; [|assumption].
  destruct (forEach (getMetadata this w) (start state)) as [[e|] [result pkgCache]]; simpl;
    now rewrite writeBack_writable.
Qed.

Lemma checkBundles_writable (this : DllBundlesControl) (w : World) :
  fs_writable (fst (checkBundles this w)) = fs_writable w.
Proof.
  unfold checkBundles. pose proof (analyzeState_writable this w) as Hw.
  now destruct (analyzeState this w) as [w1 [a|e]].
Qed.

Lemma getMetadata_modules (this : DllBundlesControl) (w w' : World) :
  sameModules w w' -> getMetadata this w' = getMetadata this w.
Proof.
  intros [H1 [H2 H3]].
  unfold getMetadata, resolvePackage, getPackageJson, getPackageJsonPath.
  now rewrite H1, H2, H3.
Qed.

Lemma sameOutside_modules (w w' : World) : sameOutside w w' -> sameModules w w'.
Proof. unfold sameOutside, sameModules. tauto. Qed.

Lemma bundleLooksValid_outside (this : DllBundlesControl) (w w' : World) (n : string) :
  sameOutside w w' -> bundleLooksValid this w' n = bundleLooksValid this w n.
Proof.
  intros [_ [_ [_ H4]]]. unfold bundleLooksValid, existsSync. now rewrite H4.
Qed.

Lemma rebuildList_outside (this : DllBundlesControl) (w w' : World) (a : AnalyzedState) :
  sameOutside w w' -> rebuildList this w' a = rebuildList this w a.
Proof.
  intros Hout. unfold rebuildList, rebuildNames. f_equal. f_equal.
  apply filter_ext. intros n. now apply bundleLooksValid_outside.
Qed.

Lemma checkAnalyzed_outside (this : DllBundlesControl) (w w' : World) (a : AnalyzedState) :
  sameOutside w w' -> checkAnalyzed this w' a = checkAnalyzed this w a.
Proof.
  intros Hout. unfold checkAnalyzed. now rewrite (rebuildList_outside this w w' a Hout).
Qed.

Lemma analyzeState_Return (this : DllBundlesControl) (w w1 : World) (analyzed : AnalyzedState) :
  analyzeState this w = (w1, Return analyzed) ->
  exists w' ref state,
    getBundleSate this w = (w', Return (ref, state)) /\
    analyzed = fst (analyze (getMetadata this w) state).
Proof.
  unfold analyzeState.
  destruct (getBundleSate this w) as [w' [[ref state]|e]]; [|discriminate].
  destruct (forEach (getMetadata this w) (start state)) as [o acc] eqn:Hloop.
  destruct o as [e|]; destruct acc as [result pkgCache]; [discriminate|].
  assert (Hf := forEach_None (getMetadata this w) (start state)).
  rewrite Hloop in Hf. specialize (Hf eq_refl). injection Hf as Hf.
  intros H. injection H as _ <-. exists w', ref, state.
  unfold analyze. now rewrite <- Hf.
Qed.

(** The analysis on a loaded state object of which the loop runs through. *)
Lemma analyzeState_run (this : DllBundlesControl) (w w' : World) (ref : ObjRef)
      (state : BundleState) :
  getBundleSate this w = (w', Return (ref, state)) ->
  fst (forEach (getMetadata this w) (start state)) = None ->
  analyzeState this w =
  (writeBack w' ref (snd (analyze (getMetadata this w) state)),
   Return (fst (analyze (getMetadata this w) state))).
Proof.
  unfold analyzeState, analyze. intros -> Hrun.
  rewrite (forEach_None _ _ Hrun).
  now destruct (fold_left classify (getMetadata this w) (start state)).
Qed.

Lemma analyzeState_of_state (this : DllBundlesControl) (w w' : World) (ref : ObjRef)
      (state : BundleState) :
  getBundleSate this w = (w', Return (ref, state)) ->
  fst (forEach (getMetadata this w) (start state)) = None ->
  snd (analyzeState this w) = Return (fst (analyze (getMetadata this w) state)).
Proof.
  intros Hget Hrun. now rewrite (analyzeState_run this w w' ref state Hget Hrun).
Qed.

Lemma checkBundles_analyzed (this : DllBundlesControl) (w w1 : World) (analyzed : AnalyzedState) :
  analyzeState this w = (w1, Return analyzed) ->
  snd (checkBundles this w) = checkAnalyzed this w analyzed.
Proof.
  intros Ha. pose proof (analyzeState_outside this w) as Hout.
  unfold checkBundles. rewrite Ha in *. simpl in *.
  now apply checkAnalyzed_outside.
Qed.

(** ** Rebuild decision *)

Lemma length_positive {A : Type} (l : list A) : (0 <? length l)%nat = true <-> l <> [].
Proof.
  destruct l as [|x l]; simpl; split; intros H;
    try reflexivity; try discriminate.
  now elim H.
Qed.

Lemma checkAnalyzed_console (this : DllBundlesControl) (w : World) (a : AnalyzedState) :
  console (checkAnalyzed this w a) = map pkg_error (error a).
Proof.
  unfold checkAnalyzed. destruct (error a) as [|p l]; simpl; [reflexivity|].
  now destruct (ignoreErrors this).
Qed.

Lemma checkAnalyzed_strict (this : DllBundlesControl) (w : World) (a : AnalyzedState) :
  error a <> [] -> ignoreErrors this = false ->
  settled (checkAnalyzed this w a) = Throw (NewError SOME_ERRORS).
Proof.
  intros Hne Hstrict. unfold checkAnalyzed.
  apply length_positive in Hne. now rewrite Hne, Hstrict.
Qed.

Lemma checkAnalyzed_passes (this : DllBundlesControl) (w : World) (a : AnalyzedState) :
  error a = [] \/ ignoreErrors this = true ->
  settled (checkAnalyzed this w a) = Return (rebuildList this w a).
Proof.
  unfold checkAnalyzed. intros [-> | ->]; simpl; [reflexivity|].
  now destruct (0 <? length (error a))%nat.
Qed.

Lemma checkAnalyzed_Return (this : DllBundlesControl) (w : World) (a : AnalyzedState)
      (l : list (option DllBundleConfig)) :
  settled (checkAnalyzed this w a) = Return l -> l = rebuildList this w a.
Proof.
  unfold checkAnalyzed. destruct (0 <? length (error a))%nat.
  - destruct (ignoreErrors this); simpl; [congruence|discriminate].
  - simpl. congruence.
Qed.

Lemma bundleLooksValid_missing (this : DllBundlesControl) (w : World) (n : string) :
  bundleLooksValid this w n = true <-> artifactMissing this w n.
Proof.
  unfold bundleLooksValid, artifactMissing, dllFile, manifestFile.
  rewrite orb_true_iff, !negb_true_iff. tauto.
Qed.

Lemma rebuildList_flags (this : DllBundlesControl) (w : World) (a : AnalyzedState)
      (b : DllBundleConfig) :
  In b (bundles this) ->
  ((exists b', In (Some b') (rebuildList this w a) /\ bnd_name b' = bnd_name b) <->
   artifactMissing this w (bnd_name b) \/ diffTouches a (bnd_name b)).
Proof.
  intros Hin. unfold rebuildList, diffTouches. split.
  - intros [b' [Hl Hname]]. apply in_map_iff in Hl. destruct Hl as [n [Hn Hr]].
    apply bundleNamed_Some in Hn. destruct Hn as [_ Hn].
    apply rebuildNames_In in Hr. rewrite <- bundleLooksValid_missing.
    replace (bnd_name b) with n by congruence. tauto.
  - intros Hwhy. destruct (bundleNamed_declared this b Hin) as [b' Hb'].
    exists b'. split; [|now apply bundleNamed_Some in Hb'].
    apply in_map_iff. exists (bnd_name b). split; [assumption|].
    apply rebuildNames_In. rewrite bundleLooksValid_missing.
    destruct Hwhy as [H|H]; [left|now right].
    split; [now apply in_map|assumption].
Qed.

(** C5: when the check returns a rebuild list, a declared bundle is on it
    (under its name; as the very definition when declared names are
    unique) if and only if one of its two artifact files is missing or a
    record classified added, changed, removed or errored belongs to it. *)
Theorem checkBundles_flags_bundle
        (this : DllBundlesControl) (w w1 : World) (analyzed : AnalyzedState)
        (l : list (option DllBundleConfig)) (b : DllBundleConfig) :
  analyzeState this w = (w1, Return analyzed) ->
  settled (snd (checkBundles this w)) = Return l ->
  In b (bundles this) ->
  ((exists b', In (Some b') l /\ bnd_name b' = bnd_name b) <->
   artifactMissing this w (bnd_name b) \/ diffTouches analyzed (bnd_name b)) /\
  (NoDup (map bnd_name (bundles this)) ->
   (In (Some b) l <->
    artifactMissing this w (bnd_name b) \/ diffTouches analyzed (bnd_name b))).
Proof.
  intros Ha Hl Hin. rewrite (checkBundles_analyzed this w w1 analyzed Ha) in Hl.
  apply checkAnalyzed_Return in Hl. subst l.
  pose proof (rebuildList_flags this w analyzed b Hin) as Hflags.
  split; [exact Hflags|]. intros Hnd. rewrite <- Hflags. split.
  - intros Hb. now exists b.
  - intros [b' [Hb' Hname]]. replace b with b'; [assumption|].
    unfold rebuildList in Hb'. apply in_map_iff in Hb'.
    destruct Hb' as [n [Hn _]]. apply bundleNamed_Some in Hn.
    now apply (NoDup_names_inj (bundles this)).
Qed.

Lemma rebuildList_declared (this : DllBundlesControl) (w : World) (a : AnalyzedState)
      (b : DllBundleConfig) :
  In (Some b) (rebuildList this w a) -> In b (bundles this).
Proof.
  unfold rebuildList. intros Hin. apply in_map_iff in Hin.
  destruct Hin as [n [Hn _]]. now apply bundleNamed_Some in Hn.
Qed.

(** C4, as stated, fails: in strict mode the check of a bundle with the
    unresolvable package [nope] is rejected with an error that does not
    mention [nope]. *)
Lemma checkBundles_strict_error_names_nobody :
  ~ (forall (this : DllBundlesControl) (w w1 : World) (analyzed : AnalyzedState)
            (e : Error) (p : PackageInfo),
        analyzeState this w = (w1, Return analyzed) ->
        ignoreErrors this = false ->
        settled (snd (checkBundles this w)) = Throw e ->
        In p (error analyzed) ->
        mentions e (pkg_name p) = true).
Proof.
  intros claim.
  pose (this := control None [brokenBundle]).
  pose (w := installed []).
  pose (p := {| pkg_bundle := "vendor"; pkg_name := "nope"; pkg_path := "nope";
                pkg_version := None;
                pkg_error := Some (NodeError ResolveCall "nope") |}).
  assert (H : mentions (NewError SOME_ERRORS) (pkg_name p) = true).
  { apply (claim this w (fst (analyzeState this w))
             (fst (analyze (getMetadata this w) []))).
    - reflexivity.
    - reflexivity.
    - reflexivity.
    - left. reflexivity. }
  discriminate H.
Qed.

(** C4, amended: when some package errored, every errored package's error
    object is written to the console; in strict mode the check is rejected
    with one error whose only content is the fixed message "DllBundlesPlugin:
    Some packages have errors." and no rebuild list is produced; in
    permissive mode the check returns a rebuild list that holds, for every
    errored package, a declared bundle of the name the package belongs to. *)
Theorem checkBundles_with_errors
        (this : DllBundlesControl) (w w1 : World) (analyzed : AnalyzedState) :
  analyzeState this w = (w1, Return analyzed) ->
  error analyzed <> [] ->
  console (snd (checkBundles this w)) = map pkg_error (error analyzed) /\
  (forall p, In p (error analyzed) -> isSome (pkg_error p) = true) /\
  (ignoreErrors this = false ->
   settled (snd (checkBundles this w))
   = Throw (NewError "DllBundlesPlugin: Some packages have errors.")) /\
  (ignoreErrors this = true ->
   exists l, settled (snd (checkBundles this w)) = Return l /\
             forall p, In p (error analyzed) ->
                       exists b, In (Some b) l /\ In b (bundles this) /\
                                 bnd_name b = pkg_bundle p).
Proof.
  intros Ha Hne. rewrite (checkBundles_analyzed this w w1 analyzed Ha).
  destruct (analyzeState_Return this w w1 analyzed Ha) as [w' [ref [state [_ Hr]]]].
  repeat split.
  - apply checkAnalyzed_console.
  - intros p Hp. rewrite Hr in Hp. now apply analyze_error_source in Hp.
  - intros Hstrict. now apply checkAnalyzed_strict.
  - intros Hperm. exists (rebuildList this w analyzed).
    split; [apply checkAnalyzed_passes; now right|].
    intros p Hp. assert (Hsrc := Hp). rewrite Hr in Hsrc.
    apply analyze_error_source in Hsrc. destruct Hsrc as [Hsrc _].
    apply getMetadata_bundle in Hsrc. destruct Hsrc as [b0 [Hb0 Hname]].
    assert (Hflag : exists b', In (Some b') (rebuildList this w analyzed) /\
                               bnd_name b' = bnd_name b0).
    { apply rebuildList_flags; [assumption|]. right. exists p.
      split; [|now symmetry]. unfold flagging. rewrite !in_app_iff. tauto. }
    destruct Hflag as [b' [Hb' Hn']]. exists b'.
    split; [assumption|]. split; [now apply rebuildList_declared in Hb'|congruence].
Qed.

(** C6, as stated, fails on the order: [app] is declared before [vendor],
    [vendor] lacks its artifacts and [app] has a new package, and the
    check returns [vendor] before [app]. *)
Lemma checkBundles_not_in_declaration_order :
  ~ (forall (this : DllBundlesControl) (w : World) (l : list (option DllBundleConfig)),
        settled (snd (checkBundles this w)) = Return l ->
        subsequence (map bnd_name (defined l)) (map bnd_name (bundles this)) = true).
Proof.
  intros claim.
  specialize (claim (control None [appBundle; vendorBundle])
                    (installed (artifacts "app"))
                    [Some vendorBundle; Some appBundle] eq_refl).
  discriminate claim.
Qed.

Lemma defined_In {A : Type} (l : list (option A)) (a : A) :
  In a (defined l) <-> In (Some a) l.
Proof.
  induction l as [|[x|] l IH]; simpl.
  - tauto.
  - rewrite IH. split; intros [H|H]; auto; left; congruence.
  - rewrite IH. split; [auto|]. intros [H|H]; [discriminate|assumption].
Qed.

Lemma defined_bundleNamed_NoDup (this : DllBundlesControl) (ns : list string) :
  NoDup ns -> NoDup (defined (map (bundleNamed this) ns)).
Proof.
  induction ns as [|n ns IH]; simpl; intros Hnd; [constructor|].
  inversion Hnd as [|? ? Hout Hrest]; subst.
  destruct (bundleNamed this n) as [b|] eqn:Hb; [|now apply IH].
  constructor; [|now apply IH].
  intros Hin. apply defined_In, in_map_iff in Hin.
  destruct Hin as [n' [Hn' Hin']].
  apply bundleNamed_Some in Hb. apply bundleNamed_Some in Hn'.
  apply Hout. replace n with n' by (destruct Hb, Hn'; congruence). assumption.
Qed.

Lemma bundleNamed_in_order (this : DllBundlesControl) (f : string -> bool)
      (bs : list DllBundleConfig) :
  NoDup (map bnd_name (bundles this)) -> incl bs (bundles this) ->
  map (bundleNamed this) (filter f (map bnd_name bs))
  = map Some (filter (fun b => f (bnd_name b)) bs).
Proof.
  intros Hnd. induction bs as [|b bs IH]; simpl; intros Hincl; [reflexivity|].
  assert (Hrest : incl bs (bundles this)) by (intros x Hx; apply Hincl; now right).
  destruct (f (bnd_name b)); simpl; [|now apply IH].
  rewrite (IH Hrest). f_equal. apply bundleNamed_unique; [assumption|].
  apply Hincl. now left.
Qed.

(** C6, amended: the rebuild list is the lookup, name by name, of the
    bundles with a missing artifact in declaration order followed by the
    other bundles named by the added, changed, removed and errored records
    in order of first mention; every defined element is a declared
    BundleDefinition; and when the declared names are unique no bundle
    occurs twice and the leading part is exactly the declared bundles with
    a missing artifact, in declaration order. *)
Theorem checkBundles_rebuild_list_shape
        (this : DllBundlesControl) (w w1 : World) (analyzed : AnalyzedState)
        (l : list (option DllBundleConfig)) :
  analyzeState this w = (w1, Return analyzed) ->
  settled (snd (checkBundles this w)) = Return l ->
  let missing := filter (bundleLooksValid this w) (map bnd_name (bundles this)) in
  let others := filter (fun n => negb (mem n missing))
                  (firstMentions (map pkg_bundle (flagging analyzed))) in
  l = map (bundleNamed this) missing ++ map (bundleNamed this) others /\
  (forall b, In (Some b) l -> In b (bundles this)) /\
  (NoDup (map bnd_name (bundles this)) ->
   NoDup (defined l) /\
   map (bundleNamed this) missing
   = map Some (filter (fun b => bundleLooksValid this w (bnd_name b)) (bundles this))).
Proof.
  intros Ha Hl missing others.
  rewrite (checkBundles_analyzed this w w1 analyzed Ha) in Hl.
  apply checkAnalyzed_Return in Hl. subst l. repeat split.
  - unfold rebuildList. rewrite rebuildNames_order. apply map_app.
  - intros b. apply rebuildList_declared.
  - unfold rebuildList. apply defined_bundleNamed_NoDup.
    now apply rebuildNames_NoDup.
  - apply bundleNamed_in_order; [assumption|apply incl_refl].
Qed.

(** ** Entries left in the state object *)

Lemma analyze_hist_names (packages : list PackageInfo) (state : BundleState) (n : string) :
  In n (hist (snd (fold_left classify packages (start state)))) -> In n (names packages).
Proof.
  intros Hin. apply (rec_hist _ _ (analyze_Reconciled packages state)) in Hin.
  destruct (analyze_sourced packages state) as [Hok Herr].
  unfold names in *. apply in_map_iff in Hin. destruct Hin as [p [Hn Hp]].
  apply in_map_iff. exists p. split; [assumption|].
  rewrite app_assoc, in_app_iff in Hp. destruct Hp as [Hp|Hp].
  - apply Hok. rewrite app_assoc, in_app_iff. now left.
  - now apply Herr.
Qed.

Lemma analyze_removed_In (packages : list PackageInfo) (state : BundleState)
      (k : string) (e : StateEntry) :
  In (k, e) state -> ~ In k (names packages) ->
  In (mkPackageInfo (st_bundle e) (PkgString k)) (removed (fst (analyze packages state))).
Proof.
  intros Hin Hout. rewrite analyze_eq. simpl.
  rewrite (rec_state _ _ (analyze_Reconciled packages state)).
  unfold removedOf. apply in_map_iff. exists (k, e). split; [reflexivity|].
  apply filter_In. split; [assumption|]. simpl.
  apply negb_true_iff, mem_false. intros Hh. apply Hout.
  now apply (analyze_hist_names packages state).
Qed.

(** C9: when the analysis returns, an entry of the loaded state whose
    package is no longer declared and whose recorded bundle is not declared
    is a removed record, and whenever the check then returns a list
    (permissive mode, or no package errored) that list has an undefined
    element. *)
Theorem removed_entry_of_undeclared_bundle
        (this : DllBundlesControl) (w w' w1 : World) (ref : ObjRef) (state : BundleState)
        (analyzed : AnalyzedState) (k : string) (e : StateEntry) :
  getBundleSate this w = (w', Return (ref, state)) ->
  analyzeState this w = (w1, Return analyzed) ->
  In (k, e) state ->
  ~ In k (names (getMetadata this w)) ->
  (forall b, In b (bundles this) -> bnd_name b <> st_bundle e) ->
  ignoreErrors this = true \/
    (forall d, In d (getMetadata this w) -> pkg_error d = None) ->
  In (mkPackageInfo (st_bundle e) (PkgString k)) (removed analyzed) /\
  exists l,
    settled (snd (checkBundles this w)) = Return l /\
    In None l.
Proof.
  intros Hload Ha Hentry Hgone Hundeclared Hpass.
  destruct (analyzeState_Return this w w1 analyzed Ha) as [w'' [ref' [state' [Hload' Hr]]]].
  rewrite Hload in Hload'. injection Hload' as _ _ <-.
  assert (Hrem : In (mkPackageInfo (st_bundle e) (PkgString k)) (removed analyzed))
    by (rewrite Hr; now apply analyze_removed_In).
  split; [assumption|].
  exists (rebuildList this w analyzed). split.
  - rewrite (checkBundles_analyzed this w w1 analyzed Ha).
    apply checkAnalyzed_passes. destruct Hpass as [Hperm|Hall]; [now right|left].
    rewrite Hr. now apply analyze_no_error.
  - unfold rebuildList. apply in_map_iff. exists (st_bundle e). split.
    + now apply bundleNamed_None.
    + apply rebuildNames_In. right.
      exists (mkPackageInfo (st_bundle e) (PkgString k)). split; [|reflexivity].
      unfold flagging. rewrite !in_app_iff. tauto.
Qed.

(** ** State store *)

Lemma find_app_first {A : Type} (f : A -> bool) (l l' : list A) :
  find f (l ++ l') = match find f l with Some x => Some x | None => find f l' end.
Proof.
  induction l as [|x l IH]; simpl; [reflexivity|]. now destruct (f x).
Qed.

Lemma find_filter_both {A : Type} (f g : A -> bool) (l : list A) :
  find f (filter g l) = find (fun x => g x && f x) l.
Proof.
  induction l as [|x l IH]; simpl; [reflexivity|].
  destruct (g x); simpl; [|assumption]. now destruct (f x).
Qed.

Lemma filter_rev_comm {A : Type} (f : A -> bool) (l : list A) :
  filter f (rev l) = rev (filter f l).
Proof.
  induction l as [|x l IH]; simpl; [reflexivity|].
  rewrite filter_app, IH. simpl. destruct (f x); simpl; [reflexivity|apply app_nil_r].
Qed.

(** A new key is put somewhere among the others, which keep their order. *)
Lemma insertKey_split (state : BundleState) (k : string) (v : StateEntry) :
  exists l1 l2, state = l1 ++ l2 /\ insertKey state k v = l1 ++ (k, v) :: l2.
Proof.
  induction state as [|kv state IH]; simpl.
  - now exists [], [].
  - destruct (staysBefore k (fst kv)).
    + destruct IH as [l1 [l2 [Hs Hi]]]. exists (kv :: l1), l2.
      simpl. now rewrite <- Hs, Hi.
    + now exists [], (kv :: state).
Qed.

Lemma find_absent (state : BundleState) (k : string) :
  hasOwnProperty state k = false -> find (keyIs k) state = None.
Proof.
  unfold hasOwnProperty. induction state as [|kv state IH]; simpl; [reflexivity|].
  intros Hhas. apply orb_false_iff in Hhas. destruct Hhas as [Hk Hrest].
  rewrite Hk. now apply IH.
Qed.

Lemma hasOwnProperty_app (l1 l2 : BundleState) (k : string) :
  hasOwnProperty (l1 ++ l2) k = hasOwnProperty l1 k || hasOwnProperty l2 k.
Proof. unfold hasOwnProperty. apply existsb_app. Qed.

Lemma getProperty_set_same (state : BundleState) (k : string) (v : StateEntry) :
  getProperty (setProperty state k v) k = Some v.
Proof.
  unfold getProperty, setProperty.
  destruct (hasOwnProperty state k) eqn:Hhas.
  - unfold hasOwnProperty in Hhas.
    induction state as [|kv state IH]; simpl in *; [discriminate|].
    destruct (keyIs k kv) eqn:Hk; simpl.
    + unfold keyIs. simpl. now rewrite String.eqb_refl.
    + rewrite Hk. now apply IH.
  - destruct (insertKey_split state k v) as [l1 [l2 [Hs ->]]].
    rewrite Hs, hasOwnProperty_app in Hhas. apply orb_false_iff in Hhas.
    rewrite find_app_first, (find_absent l1 k (proj1 Hhas)). simpl.
    unfold keyIs. simpl. now rewrite String.eqb_refl.
Qed.

Lemma getProperty_set_other (state : BundleState) (k k' : string) (v : StateEntry) :
  k' <> k -> getProperty (setProperty state k v) k' = getProperty state k'.
Proof.
  intros Hne. unfold getProperty, setProperty.
  assert (Hkv : keyIs k' (k, v) = false).
  { unfold keyIs. simpl. apply String.eqb_neq. congruence. }
  destruct (hasOwnProperty state k).
  - f_equal. induction state as [|kv state IH]; simpl; [reflexivity|].
    destruct (keyIs k kv) eqn:Hk.
    + rewrite Hkv. unfold keyIs in Hk. apply String.eqb_eq in Hk.
      assert (Hk' : keyIs k' kv = false).
      { unfold keyIs. apply String.eqb_neq. congruence. }
      now rewrite Hk'.
    + destruct (keyIs k' kv); [reflexivity|assumption].
  - destruct (insertKey_split state k v) as [l1 [l2 [Hs ->]]].
    rewrite Hs, !find_app_first. simpl. now rewrite Hkv.
Qed.

Lemma keys_setProperty (state : BundleState) (k k' : string) (v : StateEntry) :
  In k' (Object_keys (setProperty state k v)) <-> In k' (Object_keys state) \/ k' = k.
Proof.
  unfold setProperty. destruct (hasOwnProperty state k) eqn:Hhas.
  - apply hasOwnProperty_In in Hhas.
    assert (Hkeys : Object_keys (map (fun kv => if keyIs k kv then (k, v) else kv) state)
                    = Object_keys state).
    { unfold Object_keys. rewrite map_map. apply map_ext. intros kv.
      unfold keyIs. destruct (String.eqb_spec (fst kv) k); simpl; congruence. }
    rewrite Hkeys. split; [tauto|]. intros [H| ->]; assumption.
  - destruct (insertKey_split state k v) as [l1 [l2 [Hs ->]]].
    rewrite Hs. unfold Object_keys. rewrite !map_app, !in_app_iff. simpl.
    intuition congruence.
Qed.



Lemma saveStep_fold_keys (l : list PackageInfo) (state : BundleState) (k : string) :
  In k (Object_keys (fold_left saveStep l state)) <->
  In k (Object_keys state) \/ (In k (names l) /\ k <> "__proto__").
Proof.
  revert state. induction l as [|d l IH]; intros state; simpl; [tauto|].
  rewrite IH. unfold saveStep.
  destruct (String.eqb_spec (pkg_name d) "__proto__") as [Hp|Hp].
  - intuition congruence.
  - rewrite keys_setProperty. intuition congruence.
Qed.


Lemma saveStep_fold_get (l : list PackageInfo) (state : BundleState) (k : string) :
  k <> "__proto__" ->
  getProperty (fold_left saveStep l state) k =
  match find (fun d => String.eqb (pkg_name d) k) (rev l) with
  | Some d => Some (entryOf d)
  | None => getProperty state k
  end.
Proof.
  intros Hk. revert state. induction l as [|d l IH]; intros state; simpl; [reflexivity|].
  rewrite IH, find_app_first.
  destruct (find (fun d0 => String.eqb (pkg_name d0) k) (rev l)); [reflexivity|].
  simpl. unfold saveStep. destruct (String.eqb_spec (pkg_name d) k) as [Hn|Hne].
  - rewrite Hn. apply String.eqb_neq in Hk. rewrite Hk. apply getProperty_set_same.
  - destruct (String.eqb (pkg_name d) "__proto__"); [reflexivity|].
    apply getProperty_set_other. congruence.
Qed.

(** The object [save] builds maps each name other than [__proto__] to its
    last descriptor without error. *)
Lemma bundleStateOf_get (metadata : list PackageInfo) (k : string) :
  k <> "__proto__" ->
  getProperty (bundleStateOf metadata) k = option_map entryOf (lastSaved k metadata).
Proof.
  intros Hk. unfold bundleStateOf, lastSaved. rewrite (saveStep_fold_get _ _ _ Hk).
  rewrite <- filter_rev_comm, find_filter_both.
  now destruct (find _ (rev metadata)).
Qed.

Lemma bundleStateOf_keys (metadata : list PackageInfo) (k : string) :
  In k (Object_keys (bundleStateOf metadata)) <->
  k <> "__proto__" /\
  exists d, In d metadata /\ pkg_error d = None /\ pkg_name d = k.
Proof.
  unfold bundleStateOf. rewrite saveStep_fold_keys. simpl. unfold names. split.
  - intros [[]|[Hin Hk]]. split; [assumption|].
    apply in_map_iff in Hin. destruct Hin as [d [Hn Hd]].
    apply filter_In in Hd. destruct Hd as [Hd Hok]. exists d.
    repeat split; try assumption. now destruct (pkg_error d).
  - intros [Hk [d [Hd [He Hn]]]]. right. split; [|assumption].
    apply in_map_iff. exists d.
    split; [assumption|]. apply filter_In. split; [assumption|]. now rewrite He.
Qed.


Lemma lastSaved_Some (k : string) (metadata : list PackageInfo) (d : PackageInfo) :
  lastSaved k metadata = Some d ->
  In d metadata /\ pkg_error d = None /\ pkg_name d = k.
Proof.
  unfold lastSaved. intros Hf. apply find_some in Hf. destruct Hf as [Hin Hb].
  apply andb_true_iff in Hb. destruct Hb as [Hok Hn].
  apply in_rev in Hin. apply String.eqb_eq in Hn.
  repeat split; try assumption. now destruct (pkg_error d).
Qed.


(** A save that can write leaves the collected state in the file. *)
Lemma saveBundleState_writable (this : DllBundlesControl) (w : World) :
  fs_writable w (stateFile this) = true ->
  saveBundleState this w =
  (putFile w (stateFile this) (JsonState (bundleStateOf (getMetadata this w))), Return tt).
Proof. unfold saveBundleState, writeFileSync. now intros ->. Qed.


Lemma putFile_file (w : World) (file : string) (content : File) :
  fs (putFile w file content) file = Some content.
Proof. simpl. unfold update. now rewrite String.eqb_refl. Qed.


Lemma saveBundleState_file (this : DllBundlesControl) (w : World) :
  fs_writable w (stateFile this) = true ->
  fs (fst (saveBundleState this w)) (stateFile this)
  = Some (JsonState (bundleStateOf (getMetadata this w))).
Proof. intros Hw. rewrite (saveBundleState_writable this w Hw). apply putFile_file. Qed.

(** The saved object enumerates as a JavaScript object does: names that
    are array indices first, ascending, then the others as first saved. *)
Example bundleStateOf_enumerates_indices_first :
  let d := fun n => {| pkg_bundle := "vendor"; pkg_name := n; pkg_path := n;
                       pkg_version := Some "1.0.0"; pkg_error := None |} in
  Object_keys (bundleStateOf [d "b"; d "10"; d "a"; d "2"; d "01"; d "b"])
  = ["2"; "10"; "b"; "a"; "01"].
Proof. reflexivity. Qed.


(** A resolved package named [__proto__] is not written either. *)
Example saveBundleState_skips_proto :
  let this := control None
                [{| bnd_name := "vendor"; bnd_packages := [PkgString "__proto__"] |}] in
  map pkg_error (getMetadata this (only "__proto__" "1.0.0" [])) = [None] /\
  fs (fst (saveBundleState this (only "__proto__" "1.0.0" []))) (stateFile this)
  = Some (JsonState []).
Proof. split; reflexivity. Qed.






(** ** Check after save *)

Lemma entryVersion_delete_other (state : BundleState) (k n : string) :
  k <> n -> entryVersion (deleteProperty state k) n = entryVersion state n.
Proof.
  intros Hne. unfold entryVersion, getProperty, deleteProperty.
  replace (find (keyIs n) (filter (fun kv => negb (keyIs k kv)) state))
    with (find (keyIs n) state); [reflexivity|].
  induction state as [|kv state IH]; simpl; [reflexivity|].
  unfold keyIs in *. destruct (String.eqb_spec (fst kv) k) as [Hk|Hk]; simpl.
  - destruct (String.eqb_spec (fst kv) n) as [Hn|Hn]; [congruence|assumption].
  - destruct (String.eqb (fst kv) n); [reflexivity|assumption].
Qed.

Lemma keys_nil (state : BundleState) :
  (forall k, ~ In k (Object_keys state)) -> state = [].
Proof.
  destruct state as [|kv state]; [reflexivity|].
  intros Hnone. exfalso. apply (Hnone (fst kv)). now left.
Qed.

Lemma upToDate_classify (l : list PackageInfo) (r : AnalyzedState) (c : PkgCache)
      (p : PackageInfo) :
  upToDate (p :: l) c ->
  exists r' c',
    classify (r, c) p = (r', c') /\ upToDate l c' /\
    changed r' = changed r /\ added r' = added r /\ error r' = error r.
Proof.
  intros [Hall Hkeys].
  destruct (Hall p (or_introl eq_refl)) as [Hpe Hp]. unfold classify. rewrite Hpe. simpl.
  destruct Hp as [[Hhas Hver]|[Hhas Hh]].
  - rewrite Hhas. apply strict_eq_true in Hver. rewrite Hver.
    exists (push_current r p), (del c p).
    split; [reflexivity|]. split; [|now repeat split]. split.
    + intros q Hq. destruct (Hall q (or_intror Hq)) as [Hqe Hq'].
      split; [assumption|]. simpl.
      destruct (string_dec (pkg_name p) (pkg_name q)) as [Heq|Hne].
      * right. rewrite <- Heq, hasOwnProperty_delete_same, in_app_iff. simpl. tauto.
      * rewrite hasOwnProperty_delete_other, entryVersion_delete_other, in_app_iff
          by assumption. tauto.
    + intros k Hk. simpl in Hk. apply keys_deleteProperty in Hk.
      destruct Hk as [Hk Hne]. apply Hkeys in Hk. simpl in Hk.
      destruct Hk as [Hk|Hk]; [congruence|assumption].
  - rewrite Hhas. apply indexOf_present in Hh. unfold deleted. rewrite Hh. simpl.
    exists r, c.
    split; [reflexivity|]. split; [|now repeat split]. split.
    + intros q Hq. apply Hall. now right.
    + intros k Hk. assert (Hk' := Hk). apply Hkeys in Hk. simpl in Hk.
      destruct Hk as [Hk|Hk]; [|assumption].
      subst k. apply hasOwnProperty_In in Hk'. congruence.
Qed.

Lemma upToDate_fold (l : list PackageInfo) (r : AnalyzedState) (c : PkgCache) :
  upToDate l c ->
  changed (fst (fold_left classify l (r, c))) = changed r /\
  added (fst (fold_left classify l (r, c))) = added r /\
  error (fst (fold_left classify l (r, c))) = error r /\
  bundleState (snd (fold_left classify l (r, c))) = [].
Proof.
  revert r c. induction l as [|p l IH]; intros r c Hup.
  - simpl. split; [reflexivity|]. split; [reflexivity|]. split; [reflexivity|].
    apply keys_nil. intros k Hk. now apply (proj2 Hup) in Hk.
  - destruct (upToDate_classify l r c p Hup) as [r' [c' [Hstep [Hup' [H1 [H2 H3]]]]]].
    cbn [fold_left]. rewrite Hstep. destruct (IH r' c' Hup') as [G1 [G2 [G3 G4]]].
    repeat split; congruence.
Qed.

(** Against the state object that [save] builds from them, descriptors
    without error and with one version per name are all up to date. *)
Lemma analyze_saved_state (metadata : list PackageInfo) :
  (forall d, In d metadata -> pkg_error d = None) ->
  (forall d, In d metadata -> pkg_name d <> "__proto__") ->
  (forall d d', In d metadata -> In d' metadata ->
                pkg_name d = pkg_name d' -> pkg_version d = pkg_version d') ->
  flagging (fst (analyze metadata (bundleStateOf metadata))) = [].
Proof.
  intros Hok Hproto Hsame. rewrite analyze_eq. unfold flagging, start. simpl.
  assert (Hup : upToDate metadata {| bundleState := bundleStateOf metadata; hist := [] |}).
  { split; simpl.
    - intros p Hp. split; [now apply Hok|]. left. simpl. split.
      + apply hasOwnProperty_In, bundleStateOf_keys.
        split; [now apply Hproto|]. exists p. auto.
      + unfold entryVersion. rewrite (bundleStateOf_get _ _ (Hproto p Hp)).
        destruct (lastSaved (pkg_name p) metadata) as [d|] eqn:Hd; simpl.
        * apply lastSaved_Some in Hd. destruct Hd as [Hd [_ Hn]]. now apply Hsame.
        * exfalso. unfold lastSaved in Hd.
          assert (Hb := find_none _ _ Hd p (proj1 (in_rev metadata p) Hp)).
          simpl in Hb. rewrite (Hok p Hp), String.eqb_refl in Hb. discriminate.
    - intros k Hk. apply bundleStateOf_keys in Hk. destruct Hk as [_ [d [Hd [_ Hn]]]].
      unfold names. apply in_map_iff. now exists d. }
  destruct (upToDate_fold metadata emptyResult _ Hup) as [H1 [H2 [H3 H4]]].
  rewrite H1, H2, H3, H4. reflexivity.
Qed.

(** The object [save] builds shadows the method only with a package of
    that name. *)
Lemma bundleStateOf_unshadowed (metadata : list PackageInfo) :
  (forall d, In d metadata -> pkg_name d <> "hasOwnProperty") ->
  methodShadowed (bundleStateOf metadata) = false.
Proof.
  intros Hnone. unfold methodShadowed. apply hasOwnProperty_false. intros Hin.
  apply bundleStateOf_keys in Hin. destruct Hin as [_ [d [Hd [_ Hn]]]].
  now apply (Hnone d Hd).
Qed.

Lemma checkBundles_outside (this : DllBundlesControl) (w : World) :
  sameOutside w (fst (checkBundles this w)).
Proof.
  unfold checkBundles. pose proof (analyzeState_outside this w) as Hout.
  now destruct (analyzeState this w) as [w1 [a|e]].
Qed.

Lemma getBundleSate_after_save (this : DllBundlesControl) (wb : World) :
  require_cache wb (stateFile this) = None ->
  fs_writable wb (stateFile this) = true ->
  exists w',
    getBundleSate this (fst (saveBundleState this wb))
    = (w', Return (ModuleExports (stateFile this), bundleStateOf (getMetadata this wb))).
Proof.
  intros Hcache Hw. unfold getBundleSate, existsSync, requireState.
  rewrite (saveBundleState_file this wb Hw).
  rewrite (saveBundleState_writable this wb Hw). simpl. rewrite Hcache.
  eexists. reflexivity.
Qed.

Lemma saveBundleState_modules (this : DllBundlesControl) (w : World) :
  sameModules w (fst (saveBundleState this w)).
Proof.
  unfold saveBundleState, writeFileSync, sameModules.
  destruct (fs_writable w (stateFile this)); simpl; tauto.
Qed.

Lemma existsSync_save (this : DllBundlesControl) (wb : World) (file : string) :
  existsSync wb file = true -> existsSync (fst (saveBundleState this wb)) file = true.
Proof.
  unfold existsSync, saveBundleState, writeFileSync.
  destruct (fs_writable wb (stateFile this)); simpl; [|trivial]. unfold update.
  now destruct (String.eqb file (stateFile this)).
Qed.

Lemma bundleLooksValid_save (this : DllBundlesControl) (wb : World) (n : string) :
  ~ artifactMissing this wb n ->
  bundleLooksValid this (fst (saveBundleState this wb)) n = false.
Proof.
  intros Hpresent. unfold artifactMissing, dllFile, manifestFile in Hpresent.
  unfold bundleLooksValid.
  destruct (existsSync wb (Path_join (dllDir (options this)) (String.append n ".dll.js")))
    eqn:Hdll; [|tauto].
  destruct (existsSync wb (Path_join (dllDir (options this)) (String.append n "-manifest.json")))
    eqn:Hman; [|tauto].
  now rewrite (existsSync_save this wb _ Hdll), (existsSync_save this wb _ Hman).
Qed.

Lemma filter_none {A : Type} (f : A -> bool) (l : list A) :
  (forall x, In x l -> f x = false) -> filter f l = [].
Proof.
  induction l as [|x l IH]; simpl; intros Hall; [reflexivity|].
  rewrite (Hall x (or_introl eq_refl)). apply IH. intros y Hy. apply Hall. now right.
Qed.

(** A check of a world the state of which was just saved from packages
    that all resolved, with one version per name and no name that the
    object treats specially, with every artifact on disk. *)
Lemma check_after_save (this : DllBundlesControl) (wb : World) :
  require_cache wb (stateFile this) = None ->
  fs_writable wb (stateFile this) = true ->
  (forall b, In b (bundles this) -> ~ artifactMissing this wb (bnd_name b)) ->
  (forall d, In d (getMetadata this wb) -> pkg_error d = None) ->
  (forall d, In d (getMetadata this wb) ->
             pkg_name d <> "hasOwnProperty" /\ pkg_name d <> "__proto__") ->
  (forall d d', In d (getMetadata this wb) -> In d' (getMetadata this wb) ->
                pkg_name d = pkg_name d' -> pkg_version d = pkg_version d') ->
  settled (snd (checkBundles this (fst (saveBundleState this wb)))) = Return [].
Proof.
  intros Hcache Hw Hdisk Hok Hplain Hsame.
  assert (Hmeta : getMetadata this (fst (saveBundleState this wb)) = getMetadata this wb)
    by apply getMetadata_modules, saveBundleState_modules.
  destruct (getBundleSate_after_save this wb Hcache Hw) as [w' Hload].
  assert (Hrun : fst (forEach (getMetadata this (fst (saveBundleState this wb)))
                        (start (bundleStateOf (getMetadata this wb)))) = None).
  { apply forEach_unshadowed. simpl. apply bundleStateOf_unshadowed.
    intros d Hd. now apply Hplain. }
  pose proof (analyzeState_of_state this _ w' _ _ Hload Hrun) as Ha.
  rewrite Hmeta in Ha.
  set (analyzed := fst (analyze (getMetadata this wb) (bundleStateOf (getMetadata this wb)))) in *.
  assert (Hflag : flagging analyzed = []).
  { apply analyze_saved_state; try assumption. intros d Hd. now apply Hplain. }
  assert (Herr : error analyzed = []) by now apply analyze_no_error.
  destruct (analyzeState this (fst (saveBundleState this wb))) as [w3 c] eqn:Hc.
  simpl in Ha. subst c.
  rewrite (checkBundles_analyzed this _ w3 analyzed Hc).
  rewrite checkAnalyzed_passes by now left.
  unfold rebuildList. rewrite rebuildNames_order, Hflag. simpl.
  rewrite app_nil_r, filter_none; [reflexivity|].
  intros n Hn. apply in_map_iff in Hn. destruct Hn as [b [<- Hb]].
  apply bundleLooksValid_save. now apply Hdisk.
Qed.

(** C7, as stated, fails: in permissive mode a bundle with the
    unresolvable package [nope] is rebuilt, the state is saved, the
    artifacts are on disk, and the second check asks for the bundle again. *)
Lemma check_save_check_flags_errored_bundle_again :
  ~ (forall (this : DllBundlesControl) (w0 : World) (l1 : list (option DllBundleConfig)),
        settled (snd (checkBundles this w0)) = Return l1 ->
        snd (saveBundleState this (fst (checkBundles this w0))) = Return tt ->
        let w2 := fst (saveBundleState this (fst (checkBundles this w0))) in
        (forall b, In b (bundles this) -> ~ artifactMissing this w2 (bnd_name b)) ->
        settled (snd (checkBundles this w2)) = Return []).
Proof.
  intros claim.
  specialize (claim (control (Some true) [brokenBundle])
                    (installed (artifacts "vendor")) [Some brokenBundle] eq_refl eq_refl).
  simpl in claim.
  assert (Hquiet : Return [Some brokenBundle] = Return (@nil (option DllBundleConfig))).
  { rewrite <- claim; [reflexivity|].
    intros b [<-|[]]. intros [H|H]; discriminate H. }
  discriminate Hquiet.
Qed.

(** C7, amended: when every package resolves without error, descriptors
    that share a name carry one version, and no package is named
    [hasOwnProperty] or [__proto__], then after a check, a rebuild that
    leaves package resolution alone and leaves every bundle's two artifacts
    on disk, and a save whose write succeeds, a second check that loads the
    saved file (the state file is not in the module cache) returns the
    empty rebuild list. *)
Theorem check_save_check_returns_nothing
        (this : DllBundlesControl) (w0 wb : World) :
  sameModules (fst (checkBundles this w0)) wb ->
  require_cache wb (stateFile this) = None ->
  fs_writable wb (stateFile this) = true ->
  (forall b, In b (bundles this) -> ~ artifactMissing this wb (bnd_name b)) ->
  (forall d, In d (getMetadata this w0) -> pkg_error d = None) ->
  (forall d, In d (getMetadata this w0) ->
             pkg_name d <> "hasOwnProperty" /\ pkg_name d <> "__proto__") ->
  (forall d d', In d (getMetadata this w0) -> In d' (getMetadata this w0) ->
                pkg_name d = pkg_name d' -> pkg_version d = pkg_version d') ->
  snd (saveBundleState this wb) = Return tt /\
  settled (snd (checkBundles this (fst (saveBundleState this wb)))) = Return [].
Proof.
  intros Hbuild Hcache Hw Hdisk Hok Hplain Hsame.
  assert (Hmeta : getMetadata this wb = getMetadata this w0).
  { rewrite (getMetadata_modules this _ wb Hbuild).
    apply getMetadata_modules, sameOutside_modules, checkBundles_outside. }
  split; [now rewrite (saveBundleState_writable this wb Hw)|].
  apply check_after_save; try assumption; now rewrite Hmeta.
Qed.

Lemma check_save_check_returns_nothing_witness :
  let this := control None [appBundle; vendorBundle] in
  let w0 := installed (artifacts "app" ++ artifacts "vendor") in
  let wb := fst (checkBundles this w0) in
  sameModules (fst (checkBundles this w0)) wb /\
  require_cache wb (stateFile this) = None /\
  fs_writable wb (stateFile this) = true /\
  (forall b, In b (bundles this) -> ~ artifactMissing this wb (bnd_name b)) /\
  (forall d, In d (getMetadata this w0) -> pkg_error d = None) /\
  (forall d, In d (getMetadata this w0) ->
             pkg_name d <> "hasOwnProperty" /\ pkg_name d <> "__proto__") /\
  (forall d d', In d (getMetadata this w0) -> In d' (getMetadata this w0) ->
                pkg_name d = pkg_name d' -> pkg_version d = pkg_version d') /\
  snd (saveBundleState this wb) = Return tt /\
  settled (snd (checkBundles this (fst (saveBundleState this wb)))) = Return [].
Proof.
  intros this w0 wb.
  assert (Hbuild : sameModules (fst (checkBundles this w0)) wb)
    by (unfold sameModules; repeat split; reflexivity).
  assert (Hcache : require_cache wb (stateFile this) = None) by reflexivity.
  assert (Hw : fs_writable wb (stateFile this) = true) by reflexivity.
  assert (Hdisk : forall b, In b (bundles this) -> ~ artifactMissing this wb (bnd_name b)).
  { intros b [<-|[<-|[]]] [H|H]; discriminate H. }
  assert (Hok : forall d, In d (getMetadata this w0) -> pkg_error d = None).
  { intros d [<-|[<-|[]]]; reflexivity. }
  assert (Hplain : forall d, In d (getMetadata this w0) ->
                             pkg_name d <> "hasOwnProperty" /\ pkg_name d <> "__proto__").
  { intros d [<-|[<-|[]]]; split; discriminate. }
  assert (Hsame : forall d d', In d (getMetadata this w0) -> In d' (getMetadata this w0) ->
                               pkg_name d = pkg_name d' -> pkg_version d = pkg_version d').
  { intros d d' [<-|[<-|[]]] [<-|[<-|[]]] Hn; try reflexivity; discriminate Hn. }
  repeat (split; [assumption|]).
  exact (check_save_check_returns_nothing this w0 wb Hbuild Hcache Hw Hdisk Hok Hplain Hsame).
Defined.

(** One version per name is needed: [pkgC] is declared twice and resolves
    to two versions; [save] keeps the last, the next check compares the
    first against it and asks for [app] again. *)
Example check_save_check_two_versions :
  let this := control None [appWithC; vendorWithDeepC] in
  let w0 := installed (artifacts "app" ++ artifacts "vendor") in
  settled (snd (checkBundles this (fst (saveBundleState this (fst (checkBundles this w0))))))
  = Return [Some appWithC].
Proof. reflexivity. Qed.

(** A state file outside the module cache is needed: a first check that
    loaded the state file has emptied the cached object; after rebuild and
    save, a second check in the same process gets that object again and
    finds every package added. *)
Example check_save_check_same_process :
  let this := control None [appBundle] in
  let saved := [("pkgA", {| st_bundle := "app"; st_version := Some "1.0.0" |})] in
  let w0 := installed [(stateFile this, JsonState saved)] in
  let w1 := fst (checkBundles this w0) in
  let wb := putFile (putFile w1 (dllFile this "app") Opaque)
              (manifestFile this "app") Opaque in
  settled (snd (checkBundles this w0)) = Return [Some appBundle] /\
  fs (fst (saveBundleState this wb)) (stateFile this) = Some (JsonState saved) /\
  require_cache wb (stateFile this) = Some [] /\
  settled (snd (checkBundles this (fst (saveBundleState this wb)))) = Return [Some appBundle].
Proof. repeat split; reflexivity. Qed.

(** No package named [hasOwnProperty]: its saved entry shadows the method
    the next check calls on the state object, and that check is rejected
    with the TypeError. *)
Example check_save_check_shadowed_method :
  let vendor := {| bnd_name := "vendor"; bnd_packages := [PkgString "hasOwnProperty"] |} in
  let this := control None [vendor] in
  let w0 := only "hasOwnProperty" "1.0.0" (artifacts "vendor") in
  settled (snd (checkBundles this w0)) = Return [Some vendor] /\
  snd (saveBundleState this (fst (checkBundles this w0))) = Return tt /\
  settled (snd (checkBundles this (fst (saveBundleState this (fst (checkBundles this w0))))))
  = Throw (NodeError PropertyCall "bundleState.hasOwnProperty").
Proof. repeat split; reflexivity. Qed.

(** No package named [__proto__]: it is never written, and every check
    finds it added. *)
Example check_save_check_proto :
  let vendor := {| bnd_name := "vendor"; bnd_packages := [PkgString "__proto__"] |} in
  let this := control None [vendor] in
  let w0 := only "__proto__" "1.0.0" (artifacts "vendor") in
  settled (snd (checkBundles this (fst (saveBundleState this (fst (checkBundles this w0))))))
  = Return [Some vendor].
Proof. reflexivity. Qed.

(** ** Instances *)

Example contains_finds_substring :
  contains "Package name mismatch, Expected pkgB but found other " "pkgB" = true /\
  contains SOME_ERRORS "nope" = false.
Proof. split; reflexivity. Qed.

Lemma checkBundles_with_errors_witness :
  let this := control (Some true) [brokenBundle] in
  let w := installed [] in
  let analyzed := fst (analyze (getMetadata this w) []) in
  analyzeState this w = (fst (analyzeState this w), Return analyzed) /\
  error analyzed <> [] /\
  console (snd (checkBundles this w)) = map pkg_error (error analyzed) /\
  (forall p, In p (error analyzed) -> isSome (pkg_error p) = true) /\
  (ignoreErrors this = false ->
   settled (snd (checkBundles this w))
   = Throw (NewError "DllBundlesPlugin: Some packages have errors.")) /\
  (ignoreErrors this = true ->
   exists l, settled (snd (checkBundles this w)) = Return l /\
             forall p, In p (error analyzed) ->
                       exists b, In (Some b) l /\ In b (bundles this) /\
                                 bnd_name b = pkg_bundle p).
Proof.
  intros this w analyzed.
  assert (Ha : analyzeState this w = (fst (analyzeState this w), Return analyzed))
    by reflexivity.
  assert (Hne : error analyzed <> []) by (intros H; discriminate H).
  split; [exact Ha|]. split; [exact Hne|].
  exact (checkBundles_with_errors this w _ analyzed Ha Hne).
Defined.

Lemma checkBundles_flags_bundle_witness :
  let this := control None [appBundle; vendorBundle] in
  let w := installed (artifacts "app") in
  let analyzed := fst (analyze (getMetadata this w) []) in
  let l := [Some vendorBundle; Some appBundle] in
  analyzeState this w = (fst (analyzeState this w), Return analyzed) /\
  settled (snd (checkBundles this w)) = Return l /\
  In appBundle (bundles this) /\
  ((exists b', In (Some b') l /\ bnd_name b' = "app") <->
   artifactMissing this w "app" \/ diffTouches analyzed "app") /\
  (NoDup (map bnd_name (bundles this)) ->
   (In (Some appBundle) l <->
    artifactMissing this w "app" \/ diffTouches analyzed "app")).
Proof.
  intros this w analyzed l.
  assert (Ha : analyzeState this w = (fst (analyzeState this w), Return analyzed))
    by reflexivity.
  assert (Hl : settled (snd (checkBundles this w)) = Return l) by reflexivity.
  assert (Hin : In appBundle (bundles this)) by (left; reflexivity).
  split; [exact Ha|]. split; [exact Hl|]. split; [exact Hin|].
  exact (checkBundles_flags_bundle this w _ analyzed l appBundle Ha Hl Hin).
Defined.

Lemma checkBundles_rebuild_list_shape_witness :
  let this := control None [appBundle; vendorBundle] in
  let w := installed (artifacts "app") in
  let analyzed := fst (analyze (getMetadata this w) []) in
  let l := [Some vendorBundle; Some appBundle] in
  analyzeState this w = (fst (analyzeState this w), Return analyzed) /\
  settled (snd (checkBundles this w)) = Return l /\
  let missing := filter (bundleLooksValid this w) (map bnd_name (bundles this)) in
  let others := filter (fun n => negb (mem n missing))
                  (firstMentions (map pkg_bundle (flagging analyzed))) in
  l = map (bundleNamed this) missing ++ map (bundleNamed this) others /\
  (forall b, In (Some b) l -> In b (bundles this)) /\
  (NoDup (map bnd_name (bundles this)) ->
   NoDup (defined l) /\
   map (bundleNamed this) missing
   = map Some (filter (fun b => bundleLooksValid this w (bnd_name b)) (bundles this))).
Proof.
  intros this w analyzed l.
  assert (Ha : analyzeState this w = (fst (analyzeState this w), Return analyzed))
    by reflexivity.
  assert (Hl : settled (snd (checkBundles this w)) = Return l) by reflexivity.
  split; [exact Ha|]. split; [exact Hl|].
  exact (checkBundles_rebuild_list_shape this w _ analyzed l Ha Hl).
Defined.

Lemma removed_entry_of_undeclared_bundle_witness :
  let this := control None [appBundle] in
  let w := installed legacyDisk in
  let e := {| st_bundle := "legacy"; st_version := Some "3.0.0" |} in
  let analyzed := fst (analyze (getMetadata this w) legacyState) in
  getBundleSate this w
  = (fst (getBundleSate this w), Return (ModuleExports (stateFile this), legacyState)) /\
  analyzeState this w = (fst (analyzeState this w), Return analyzed) /\
  In ("old", e) legacyState /\
  ~ In "old" (names (getMetadata this w)) /\
  (forall b, In b (bundles this) -> bnd_name b <> st_bundle e) /\
  (forall d, In d (getMetadata this w) -> pkg_error d = None) /\
  In (mkPackageInfo "legacy" (PkgString "old")) (removed analyzed) /\
  exists l,
    settled (snd (checkBundles this w)) = Return l /\
    In None l.
Proof.
  intros this w e analyzed.
  assert (Hload : getBundleSate this w
                  = (fst (getBundleSate this w),
                     Return (ModuleExports (stateFile this), legacyState)))
    by reflexivity.
  assert (Ha : analyzeState this w = (fst (analyzeState this w), Return analyzed))
    by reflexivity.
  assert (Hentry : In ("old", e) legacyState) by (right; left; reflexivity).
  assert (Hgone : ~ In "old" (names (getMetadata this w))).
  { intros [H|[]]. discriminate H. }
  assert (Hund : forall b, In b (bundles this) -> bnd_name b <> st_bundle e).
  { intros b [<-|[]] H. discriminate H. }
  assert (Hok : forall d, In d (getMetadata this w) -> pkg_error d = None).
  { intros d [<-|[]]. reflexivity. }
  split; [exact Hload|]. split; [exact Ha|]. split; [exact Hentry|].
  split; [exact Hgone|]. split; [exact Hund|]. split; [exact Hok|].
  exact (removed_entry_of_undeclared_bundle this w _ _ _ legacyState analyzed "old" e
           Hload Ha Hentry Hgone Hund (or_intror Hok)).
Defined.

(** * Further properties *)

(** ** Metadata collector *)

Lemma packageInfos_flat_map (bs : list DllBundleConfig) :
  packageInfos bs
  = flat_map (fun b => map (fun p => mkPackageInfo (bnd_name b) p) (bnd_packages b)) bs.
Proof.
  unfold packageInfos. rewrite app_fold_concat. simpl. now rewrite flat_map_concat_map.
Qed.

Lemma mkPackageInfo_declaration (bundle : string) (ref : PackageRef) :
  declaration (mkPackageInfo bundle ref) = (bundle, refName ref, refPath ref).
Proof. now destruct ref. Qed.

(** X1: the collector returns one descriptor per declared package
    reference, bundle after bundle in declaration order, and resolution
    never changes the bundle, name or location a descriptor was declared
    with; a reference given as a bare string is its own name and location. *)
Theorem getMetadata_keeps_declarations (this : DllBundlesControl) (w : World) :
  map declaration (getMetadata this w)
  = flat_map (fun b => map (fun ref => (bnd_name b, refName ref, refPath ref))
                         (bnd_packages b))
      (bundles this).
Proof.
  unfold getMetadata. rewrite map_map.
  rewrite (map_ext (fun p => declaration (resolvePackage w p)) declaration).
  - rewrite packageInfos_flat_map. induction (bundles this) as [|b bs IH]; simpl.
    + reflexivity.
    + rewrite map_app, IH, map_map. f_equal.
      apply map_ext. intros ref. apply mkPackageInfo_declaration.
  - intros p. unfold declaration.
    destruct (resolvePackage_keeps w p) as [-> [-> ->]]. reflexivity.
Qed.

(** ** Diff engine: the lists in full *)

(** X2: the errored list is every descriptor that carries an error, in
    declaration order, and nothing else, whatever the persisted state. *)
Theorem analyze_error_is_every_failure (packages : list PackageInfo) (state : BundleState) :
  error (fst (analyze packages state)) = filter hasError packages.
Proof. apply analyze_error_filter. Qed.

Lemma analyze_hist_of_declared (packages : list PackageInfo) (state : BundleState)
      (p : PackageInfo) :
  In p packages -> In (pkg_name p) (Object_keys state) ->
  In (pkg_name p) (hist (snd (fold_left classify packages (start state)))).
Proof.
  intros Hp Hk.
  pose proof (analyze_Reconciled packages state) as Hrec.
  assert (Hcov : covered (fold_left classify packages (start state)) p).
  { apply (covered_fold packages []); [intros q []|assumption]. }
  destruct Hcov as [Ha|Hh]; [|assumption].
  exfalso. now apply (rec_added _ _ Hrec (pkg_name p)).
Qed.

Lemma analyze_left (packages : list PackageInfo) (state : BundleState) :
  snd (analyze packages state) = filter (undeclared packages) state.
Proof.
  rewrite analyze_eq. simpl.
  rewrite (rec_state _ _ (analyze_Reconciled packages state)).
  apply filter_ext_in. intros kv Hkv. unfold undeclared. f_equal.
  destruct (mem (fst kv) (names packages)) eqn:Hm.
  - apply mem_In. apply mem_In in Hm. unfold names in Hm.
    apply in_map_iff in Hm. destruct Hm as [p [Hn Hp]]. rewrite <- Hn.
    apply analyze_hist_of_declared; [assumption|].
    rewrite Hn. unfold Object_keys. apply in_map_iff. now exists kv.
  - apply mem_false. apply mem_false in Hm. intros Hh. apply Hm.
    now apply (analyze_hist_names packages state).
Qed.

(** X3: the removed list is exactly the persisted entries whose package
    name no descriptor carries, in the order of the persisted object, each
    with the bundle the entry records and with location equal to the name. *)
Theorem analyze_removed_is_every_undeclared_entry
        (packages : list PackageInfo) (state : BundleState) :
  removed (fst (analyze packages state))
  = map (fun kv => {| pkg_bundle := st_bundle (snd kv); pkg_name := fst kv;
                      pkg_path := fst kv; pkg_version := None; pkg_error := None |})
        (filter (undeclared packages) state).
Proof.
  rewrite <- analyze_left. rewrite analyze_eq. reflexivity.
Qed.

Lemma fold_classify_unknown (l : list PackageInfo) (r : AnalyzedState) (c : PkgCache) :
  (forall p, In p l -> pkg_error p = None /\
                       ~ In (pkg_name p) (Object_keys (bundleState c)) /\
                       ~ In (pkg_name p) (hist c)) ->
  fold_left classify l (r, c)
  = ({| current := current r; changed := changed r; added := added r ++ l;
        removed := removed r; error := error r |}, c).
Proof.
  revert r. induction l as [|p l IH]; intros r Hall.
  - simpl. rewrite app_nil_r. now destruct r.
  - destruct (Hall p (or_introl eq_refl)) as [He [Hk Hh]].
    assert (Hdel : deleted c p = false).
    { unfold deleted. destruct (indexOf (hist c) (pkg_name p) >? -1)%Z eqn:Hi;
        [|reflexivity]. now apply indexOf_present in Hi. }
    apply hasOwnProperty_false in Hk.
    assert (Hstep : classify (r, c) p = (push_added r p, c)).
    { unfold classify. now rewrite He, Hk, Hdel. }
    cbn [fold_left]. rewrite Hstep, IH.
    + unfold push_added. simpl. now rewrite <- app_assoc.
    + intros q Hq. apply Hall. now right.
Qed.

Lemma analyzeState_no_state_file (this : DllBundlesControl) (w : World) :
  existsSync w (stateFile this) = false ->
  (forall d, In d (getMetadata this w) -> pkg_error d = None) ->
  analyzeState this w
  = (w, Return {| current := []; changed := []; added := getMetadata this w;
                  removed := []; error := [] |}).
Proof.
  intros Hfile Hok.
  assert (Hload : getBundleSate this w = (w, Return (Literal, [])))
    by (unfold getBundleSate; now rewrite Hfile).
  rewrite (analyzeState_run this w w Literal [] Hload
             (forEach_unshadowed (getMetadata this w) (start []) eq_refl)).
  unfold analyze, start, writeBack. rewrite fold_classify_unknown.
  - reflexivity.
  - intros p Hp. simpl. split; [now apply Hok|]. split; intros [].
Qed.

(** X4: on a first run (no state file on disk) with every package
    resolved, the analysis returns every descriptor as added, in
    declaration order, and nothing as current, changed, removed or
    errored. *)
Theorem analyzeState_first_run (this : DllBundlesControl) (w : World) :
  existsSync w (stateFile this) = false ->
  (forall d, In d (getMetadata this w) -> pkg_error d = None) ->
  snd (analyzeState this w)
  = Return {| current := []; changed := []; added := getMetadata this w;
              removed := []; error := [] |}.
Proof.
  intros Hfile Hok. now rewrite (analyzeState_no_state_file this w Hfile Hok).
Qed.

Lemma analyzeState_first_run_witness :
  let this := control None [appBundle; vendorBundle] in
  let w := installed [] in
  existsSync w (stateFile this) = false /\
  (forall d, In d (getMetadata this w) -> pkg_error d = None) /\
  snd (analyzeState this w)
  = Return {| current := []; changed := []; added := getMetadata this w;
              removed := []; error := [] |}.
Proof.
  intros this w.
  assert (Hfile : existsSync w (stateFile this) = false) by reflexivity.
  assert (Hok : forall d, In d (getMetadata this w) -> pkg_error d = None).
  { intros d [<-|[<-|[]]]; reflexivity. }
  split; [exact Hfile|]. split; [exact Hok|].
  exact (analyzeState_first_run this w Hfile Hok).
Defined.

(** X5: when the first descriptor of a name carries an error, that
    descriptor is listed as errored and no descriptor of the name is
    classified current, changed or added, whatever the persisted state
    holds and however many resolved descriptors of the name follow. *)
Theorem analyze_failure_hides_its_name
        (packages l1 l2 : list PackageInfo) (e : PackageInfo) (state : BundleState) :
  packages = l1 ++ e :: l2 ->
  ~ In (pkg_name e) (names l1) ->
  hasError e = true ->
  let r := fst (analyze packages state) in
  In e (error r) /\
  named (pkg_name e) (current r ++ changed r ++ added r) = [].
Proof.
  intros -> Hfirst Herr r. subst r. split.
  - rewrite analyze_error_filter. apply filter_In.
    split; [|assumption]. apply in_app_iff. right. now left.
  - rewrite analyze_eq. simpl. rewrite fold_left_app. simpl.
    destruct (fold_classify_others (pkg_name e) l1 (start state) Hfirst)
      as [H1 [H2 [H3 _]]]. simpl in H1, H2, H3.
    set (acc1 := fold_left classify l1 (start state)) in *.
    assert (Hstep : classify acc1 e = (push_error (fst acc1) e, del (snd acc1) e)).
    { destruct acc1 as [r1 c1]. unfold classify. unfold hasError in Herr.
      now rewrite Herr. }
    assert (Hcons : consumed (pkg_name e) (classify acc1 e)).
    { rewrite Hstep. unfold consumed. simpl.
      rewrite hasOwnProperty_delete_same, in_app_iff. simpl. tauto. }
    destruct (fold_classify_consumed (pkg_name e) l2 _ Hcons) as [G1 [G2 G3]].
    rewrite !named_app, G1, G2, G3, Hstep. simpl. now rewrite H1, H2, H3.
Qed.

Lemma analyze_failure_hides_its_name_witness :
  let failed := {| pkg_bundle := "app"; pkg_name := "pkgA"; pkg_path := "nowhere";
                   pkg_version := None;
                   pkg_error := Some (NodeError ResolveCall "nowhere") |} in
  let good := {| pkg_bundle := "vendor"; pkg_name := "pkgA"; pkg_path := "pkgA";
                 pkg_version := Some "1.0.0"; pkg_error := None |} in
  [failed; good] = [] ++ failed :: [good] /\
  ~ In (pkg_name failed) (names []) /\
  hasError failed = true /\
  let r := fst (analyze [failed; good] []) in
  In failed (error r) /\
  named "pkgA" (current r ++ changed r ++ added r) = [].
Proof.
  intros failed good.
  assert (Hfirst : ~ In (pkg_name failed) (names [])) by (intros []).
  split; [reflexivity|]. split; [exact Hfirst|]. split; [reflexivity|].
  exact (analyze_failure_hides_its_name [failed; good] [] [good] failed []
           eq_refl Hfirst eq_refl).
Defined.

Lemma classify_other_version (n : string) (acc : AnalyzedState * PkgCache) (p : PackageInfo) :
  pkg_name p <> n ->
  entryVersion (bundleState (snd (classify acc p))) n
  = entryVersion (bundleState (snd acc)) n.
Proof.
  intros Hne. destruct acc as [r c]. unfold classify.
  destruct (isSome (pkg_error p)); simpl.
  - now apply entryVersion_delete_other.
  - destruct (hasOwnProperty (bundleState c) (pkg_name p)).
    + destruct (strict_eq _ _); simpl; now apply entryVersion_delete_other.
    + now destruct (deleted c p).
Qed.

Lemma fold_classify_others_version (n : string) (l : list PackageInfo)
      (acc : AnalyzedState * PkgCache) :
  ~ In n (names l) ->
  entryVersion (bundleState (snd (fold_left classify l acc))) n
  = entryVersion (bundleState (snd acc)) n.
Proof.
  revert acc. induction l as [|p l IH]; intros acc Hout; simpl; [reflexivity|].
  rewrite IH by (intros Hin; apply Hout; now right).
  apply classify_other_version. intros Heq. apply Hout. now left.
Qed.

Lemma getProperty_Some_has (state : BundleState) (k : string) (e : StateEntry) :
  getProperty state k = Some e -> hasOwnProperty state k = true.
Proof.
  unfold getProperty, hasOwnProperty. intros Hget.
  destruct (find (keyIs k) state) as [kv|] eqn:Hf; [|discriminate].
  apply find_some in Hf. apply existsb_exists. now exists kv.
Qed.

(** X6: for the first descriptor of a name, resolved, whose name the
    persisted state holds, the version alone decides: equal to the
    persisted version it is the one current record of the name and nothing
    of the name is changed, otherwise it is the one changed record and
    nothing is current; the bundle the entry records is never compared, so
    a package that moved to another bundle at the same version is current. *)
Theorem analyze_version_decides
        (packages l1 l2 : list PackageInfo) (p : PackageInfo) (state : BundleState)
        (entry : StateEntry) :
  packages = l1 ++ p :: l2 ->
  ~ In (pkg_name p) (names l1) ->
  pkg_error p = None ->
  getProperty state (pkg_name p) = Some entry ->
  let r := fst (analyze packages state) in
  named (pkg_name p) (added r) = [] /\
  if strict_eq (st_version entry) (pkg_version p)
  then named (pkg_name p) (current r) = [p] /\ named (pkg_name p) (changed r) = []
  else named (pkg_name p) (current r) = [] /\ named (pkg_name p) (changed r) = [p].
Proof.
  intros -> Hfirst Hpe Hget r. subst r.
  rewrite analyze_eq. simpl. rewrite fold_left_app. simpl.
  destruct (fold_classify_others (pkg_name p) l1 (start state) Hfirst)
    as [H1 [H2 [H3 [_ [_ H6]]]]]. simpl in H1, H2, H3, H6.
  pose proof (fold_classify_others_version (pkg_name p) l1 (start state) Hfirst) as Hv.
  simpl in Hv. rewrite (getProperty_Some_has _ _ _ Hget) in H6.
  unfold entryVersion at 2 in Hv. rewrite Hget in Hv.
  set (acc1 := fold_left classify l1 (start state)) in *.
  assert (Hp : named (pkg_name p) [p] = [p]) by (simpl; now rewrite String.eqb_refl).
  assert (Hstep : classify acc1 p
                  = if strict_eq (st_version entry) (pkg_version p)
                    then (push_current (fst acc1) p, del (snd acc1) p)
                    else (push_changed (fst acc1) p, del (snd acc1) p)).
  { destruct acc1 as [r1 c1]. unfold classify. simpl in *. now rewrite Hpe, H6, Hv. }
  assert (Hcons : consumed (pkg_name p) (classify acc1 p)).
  { rewrite Hstep. unfold consumed.
    destruct (strict_eq _ _); simpl;
      rewrite hasOwnProperty_delete_same, in_app_iff; simpl; tauto. }
  destruct (fold_classify_consumed (pkg_name p) l2 _ Hcons) as [G1 [G2 G3]].
  rewrite G1, G2, G3, Hstep.
  destruct (strict_eq (st_version entry) (pkg_version p)); simpl;
    rewrite ?named_app, ?Hp, H1, H2, H3; auto.
Qed.

Lemma analyze_version_decides_witness :
  let moved := {| pkg_bundle := "vendor"; pkg_name := "pkgA"; pkg_path := "pkgA";
                  pkg_version := Some "1.0.0"; pkg_error := None |} in
  let entry := {| st_bundle := "app"; st_version := Some "1.0.0" |} in
  [moved] = [] ++ moved :: [] /\
  ~ In (pkg_name moved) (names []) /\
  pkg_error moved = None /\
  getProperty legacyState (pkg_name moved) = Some entry /\
  let r := fst (analyze [moved] legacyState) in
  named "pkgA" (added r) = [] /\
  named "pkgA" (current r) = [moved] /\ named "pkgA" (changed r) = [].
Proof.
  intros moved entry.
  assert (Hfirst : ~ In (pkg_name moved) (names [])) by (intros []).
  split; [reflexivity|]. split; [exact Hfirst|]. split; [reflexivity|].
  split; [reflexivity|].
  exact (analyze_version_decides [moved] [] [] moved legacyState entry
           eq_refl Hfirst eq_refl eq_refl).
Defined.

(** ** The state object across calls *)

Lemma getBundleSate_fresh_load (this : DllBundlesControl) (w : World) (s : BundleState) :
  require_cache w (stateFile this) = None ->
  fs w (stateFile this) = Some (JsonState s) ->
  getBundleSate this w
  = (cacheObject w (stateFile this) s, Return (ModuleExports (stateFile this), s)).
Proof.
  intros Hcache Hfile. unfold getBundleSate, existsSync, requireState.
  now rewrite Hfile, Hcache.
Qed.

Lemma getBundleSate_cached (this : DllBundlesControl) (w : World) (obj : BundleState) :
  existsSync w (stateFile this) = true ->
  require_cache w (stateFile this) = Some obj ->
  getBundleSate this w = (w, Return (ModuleExports (stateFile this), obj)).
Proof.
  intros Hfile Hcache. unfold getBundleSate, requireState. now rewrite Hfile, Hcache.
Qed.

Lemma update_same {A : Type} (f : string -> option A) (k : string) (v : A) :
  update f k v k = Some v.
Proof. unfold update. now rewrite String.eqb_refl. Qed.

Lemma update_other {A : Type} (f : string -> option A) (k k' : string) (v : A) :
  k' <> k -> update f k v k' = f k'.
Proof. unfold update. intros Hne. apply String.eqb_neq in Hne. now rewrite Hne. Qed.

Lemma checkBundles_world (this : DllBundlesControl) (w : World) :
  fst (checkBundles this w) = fst (analyzeState this w).
Proof. unfold checkBundles. now destruct (analyzeState this w) as [w1 [a|e]]. Qed.

(** X7: a check, whatever its outcome, writes no file and leaves every
    path as writable as it was. *)
Theorem checkBundles_writes_no_file (this : DllBundlesControl) (w : World) :
  fs (fst (checkBundles this w)) = fs w /\
  fs_writable (fst (checkBundles this w)) = fs_writable w.
Proof.
  pose proof (checkBundles_outside this w) as Hout. split.
  - now destruct Hout as [_ [_ [_ Hfs]]].
  - apply checkBundles_writable.
Qed.

Lemma analyzeState_fresh_load (this : DllBundlesControl) (w : World) (s : BundleState) :
  require_cache w (stateFile this) = None ->
  fs w (stateFile this) = Some (JsonState s) ->
  methodShadowed s = false ->
  analyzeState this w
  = (cacheObject (cacheObject w (stateFile this) s) (stateFile this)
       (filter (undeclared (getMetadata this w)) s),
     Return (fst (analyze (getMetadata this w) s))).
Proof.
  intros Hcache Hfile Hplain.
  rewrite (analyzeState_run this w _ _ s (getBundleSate_fresh_load this w s Hcache Hfile)
             (forEach_unshadowed (getMetadata this w) (start s) Hplain)).
  now rewrite analyze_left.
Qed.

Lemma checkBundles_cache_left (this : DllBundlesControl) (w : World) (s : BundleState) :
  require_cache w (stateFile this) = None ->
  fs w (stateFile this) = Some (JsonState s) ->
  methodShadowed s = false ->
  require_cache (fst (checkBundles this w)) (stateFile this)
  = Some (filter (undeclared (getMetadata this w)) s).
Proof.
  intros Hcache Hfile Hplain. rewrite checkBundles_world.
  rewrite (analyzeState_fresh_load this w s Hcache Hfile Hplain). simpl. apply update_same.
Qed.

(** X8: a check that loads the state file (the file is on disk and not yet
    in the module cache, and holds no entry named [hasOwnProperty]) leaves
    in the module cache, as the object any later require of the state file
    returns, only the entries whose package is no longer declared: every
    entry of a declared package has been deleted from it. The file itself
    is as it was. *)
Theorem checkBundles_empties_the_cached_state
        (this : DllBundlesControl) (w : World) (s : BundleState) :
  require_cache w (stateFile this) = None ->
  fs w (stateFile this) = Some (JsonState s) ->
  hasOwnProperty s "hasOwnProperty" = false ->
  require_cache (fst (checkBundles this w)) (stateFile this)
  = Some (filter (undeclared (getMetadata this w)) s) /\
  fs (fst (checkBundles this w)) (stateFile this) = Some (JsonState s).
Proof.
  intros Hcache Hfile Hplain. rewrite checkBundles_world.
  rewrite (analyzeState_fresh_load this w s Hcache Hfile Hplain). simpl.
  split; [apply update_same|assumption].
Qed.

Lemma checkBundles_empties_the_cached_state_witness :
  let this := control None [appBundle] in
  let w := installed legacyDisk in
  require_cache w (stateFile this) = None /\
  fs w (stateFile this) = Some (JsonState legacyState) /\
  hasOwnProperty legacyState "hasOwnProperty" = false /\
  require_cache (fst (checkBundles this w)) (stateFile this)
  = Some (filter (undeclared (getMetadata this w)) legacyState) /\
  fs (fst (checkBundles this w)) (stateFile this) = Some (JsonState legacyState).
Proof.
  intros this w.
  assert (Hcache : require_cache w (stateFile this) = None) by reflexivity.
  assert (Hfile : fs w (stateFile this) = Some (JsonState legacyState)) by reflexivity.
  assert (Hplain : hasOwnProperty legacyState "hasOwnProperty" = false) by reflexivity.
  split; [exact Hcache|]. split; [exact Hfile|]. split; [exact Hplain|].
  exact (checkBundles_empties_the_cached_state this w legacyState Hcache Hfile Hplain).
Defined.

Lemma getMetadata_owner (this : DllBundlesControl) (w : World) (b : DllBundleConfig) :
  In b (bundles this) -> bnd_packages b <> [] ->
  exists d, In d (getMetadata this w) /\ pkg_bundle d = bnd_name b.
Proof.
  intros Hb Hne. destruct (bnd_packages b) as [|ref refs] eqn:Hrefs; [now elim Hne|].
  exists (resolvePackage w (mkPackageInfo (bnd_name b) ref)). split.
  - unfold getMetadata. apply in_map. apply packageInfos_In.
    exists b, ref. rewrite Hrefs. repeat split; [assumption|now left].
  - destruct (resolvePackage_keeps w (mkPackageInfo (bnd_name b) ref)) as [_ [-> _]].
    now destruct ref.
Qed.

Lemma undeclared_unshadowed (packages : list PackageInfo) (s : BundleState) :
  methodShadowed s = false -> methodShadowed (filter (undeclared packages) s) = false.
Proof.
  unfold methodShadowed. intros H. apply hasOwnProperty_false. intros Hin.
  apply hasOwnProperty_false in H. apply H. unfold Object_keys in *.
  apply in_map_iff in Hin. destruct Hin as [kv [Hk Hkv]]. apply filter_In in Hkv.
  apply in_map_iff. exists kv. tauto.
Qed.

Lemma checkBundles_again_core
        (this : DllBundlesControl) (w w' : World) (s : BundleState) :
  require_cache w (stateFile this) = None ->
  fs w (stateFile this) = Some (JsonState s) ->
  methodShadowed s = false ->
  (forall d, In d (getMetadata this w) -> pkg_error d = None) ->
  sameModules (fst (checkBundles this w)) w' ->
  require_cache w' (stateFile this)
  = require_cache (fst (checkBundles this w)) (stateFile this) ->
  existsSync w' (stateFile this) = true ->
  snd (analyzeState this w')
  = Return {| current := []; changed := []; added := getMetadata this w;
              removed := removedOf (filter (undeclared (getMetadata this w)) s);
              error := [] |} /\
  exists l, settled (snd (checkBundles this w')) = Return l /\
            forall b, In b (bundles this) -> bnd_packages b <> [] ->
                      exists b', In (Some b') l /\ bnd_name b' = bnd_name b.
Proof.
  intros Hcache Hfile Hplain Hok Hmod Hsame Hexists.
  rewrite (checkBundles_cache_left this w s Hcache Hfile Hplain) in Hsame.
  assert (Hmeta : getMetadata this w' = getMetadata this w).
  { rewrite (getMetadata_modules this _ w' Hmod).
    apply getMetadata_modules, sameOutside_modules, checkBundles_outside. }
  pose proof (getBundleSate_cached this w' _ Hexists Hsame) as Hload.
  pose proof (analyzeState_of_state this w' _ _ _ Hload
                (forEach_unshadowed _ (start _)
                   (undeclared_unshadowed (getMetadata this w) s Hplain))) as Ha.
  rewrite Hmeta in Ha.
  set (left := filter (undeclared (getMetadata this w)) s) in *.
  assert (Hrun : fold_left classify (getMetadata this w) (start left)
                 = ({| current := []; changed := []; added := getMetadata this w;
                       removed := []; error := [] |},
                    {| bundleState := left; hist := [] |})).
  { unfold start. rewrite fold_classify_unknown; [reflexivity|].
    intros p Hp. simpl. split; [now apply Hok|]. split; [|intros []].
    intros Hk. unfold Object_keys in Hk. apply in_map_iff in Hk.
    destruct Hk as [kv [Hn Hkv]]. apply filter_In in Hkv. destruct Hkv as [_ Hun].
    unfold undeclared in Hun. apply negb_true_iff, mem_false in Hun. apply Hun.
    rewrite Hn. unfold names. now apply in_map. }
  assert (Hres : fst (analyze (getMetadata this w) left)
                 = {| current := []; changed := []; added := getMetadata this w;
                      removed := removedOf left; error := [] |}).
  { rewrite analyze_eq. simpl. now rewrite Hrun. }
  rewrite Hres in Ha. split; [exact Ha|].
  destruct (analyzeState this w') as [w3 c] eqn:Hc. simpl in Ha. subst c.
  rewrite (checkBundles_analyzed this w' w3 _ Hc).
  eexists. split; [apply checkAnalyzed_passes; now left|].
  intros b Hb Hne. apply rebuildList_flags; [assumption|]. right.
  destruct (getMetadata_owner this w b Hb Hne) as [d [Hd Hbd]].
  exists d. split; [|assumption]. unfold flagging. simpl. apply in_app_iff. now left.
Qed.

(** X9: in one process, once a check has loaded the state file (which
    holds no entry named [hasOwnProperty]), every later check (whatever
    was written to disk in between, a save included) gets the emptied
    object back from the module cache: with every package resolved it
    classifies every descriptor as added, none as current or changed, and
    returns a rebuild list that holds every declared bundle with at least
    one package. *)
Theorem checkBundles_again_in_the_same_process
        (this : DllBundlesControl) (w w' : World) (s : BundleState) :
  require_cache w (stateFile this) = None ->
  fs w (stateFile this) = Some (JsonState s) ->
  hasOwnProperty s "hasOwnProperty" = false ->
  (forall d, In d (getMetadata this w) -> pkg_error d = None) ->
  sameModules (fst (checkBundles this w)) w' ->
  require_cache w' (stateFile this)
  = require_cache (fst (checkBundles this w)) (stateFile this) ->
  existsSync w' (stateFile this) = true ->
  snd (analyzeState this w')
  = Return {| current := []; changed := []; added := getMetadata this w;
              removed := removedOf (filter (undeclared (getMetadata this w)) s);
              error := [] |} /\
  exists l, settled (snd (checkBundles this w')) = Return l /\
            forall b, In b (bundles this) -> bnd_packages b <> [] ->
                      exists b', In (Some b') l /\ bnd_name b' = bnd_name b.
Proof. apply checkBundles_again_core. Qed.

Lemma checkBundles_again_in_the_same_process_witness :
  let this := control None [appBundle] in
  let w := installed legacyDisk in
  let w' := fst (saveBundleState this (fst (checkBundles this w))) in
  require_cache w (stateFile this) = None /\
  fs w (stateFile this) = Some (JsonState legacyState) /\
  hasOwnProperty legacyState "hasOwnProperty" = false /\
  (forall d, In d (getMetadata this w) -> pkg_error d = None) /\
  sameModules (fst (checkBundles this w)) w' /\
  require_cache w' (stateFile this)
  = require_cache (fst (checkBundles this w)) (stateFile this) /\
  existsSync w' (stateFile this) = true /\
  snd (analyzeState this w')
  = Return {| current := []; changed := []; added := getMetadata this w;
              removed := removedOf (filter (undeclared (getMetadata this w)) legacyState);
              error := [] |} /\
  exists l, settled (snd (checkBundles this w')) = Return l /\
            forall b, In b (bundles this) -> bnd_packages b <> [] ->
                      exists b', In (Some b') l /\ bnd_name b' = bnd_name b.
Proof.
  intros this w w'.
  assert (Hcache : require_cache w (stateFile this) = None) by reflexivity.
  assert (Hfile : fs w (stateFile this) = Some (JsonState legacyState)) by reflexivity.
  assert (Hplain : hasOwnProperty legacyState "hasOwnProperty" = false) by reflexivity.
  assert (Hok : forall d, In d (getMetadata this w) -> pkg_error d = None).
  { intros d [<-|[]]. reflexivity. }
  assert (Hmod : sameModules (fst (checkBundles this w)) w')
    by (unfold sameModules; repeat split; reflexivity).
  assert (Hsame : require_cache w' (stateFile this)
                  = require_cache (fst (checkBundles this w)) (stateFile this))
    by reflexivity.
  assert (Hexists : existsSync w' (stateFile this) = true) by reflexivity.
  repeat (split; [assumption|]).
  exact (checkBundles_again_in_the_same_process this w w' legacyState
           Hcache Hfile Hplain Hok Hmod Hsame Hexists).
Defined.

(** X10: loading right after a save that wrote the state file gives back
    the saved object only when the state file is not in the module cache;
    when it is, the load returns the cached object and what was just
    written is not read. *)
Theorem getBundleSate_after_saveBundleState (this : DllBundlesControl) (w : World) :
  fs_writable w (stateFile this) = true ->
  snd (getBundleSate this (fst (saveBundleState this w)))
  = Return (ModuleExports (stateFile this),
            match require_cache w (stateFile this) with
            | Some obj => obj
            | None => bundleStateOf (getMetadata this w)
            end).
Proof.
  intros Hw. unfold getBundleSate, existsSync, requireState.
  rewrite (saveBundleState_file this w Hw).
  rewrite (saveBundleState_writable this w Hw). simpl.
  now destruct (require_cache w (stateFile this)).
Qed.

Lemma getBundleSate_after_saveBundleState_witness :
  let this := control None [appBundle] in
  let w := fst (checkBundles this (installed legacyDisk)) in
  fs_writable w (stateFile this) = true /\
  snd (getBundleSate this (fst (saveBundleState this w)))
  = Return (ModuleExports (stateFile this),
            [("old", {| st_bundle := "legacy"; st_version := Some "3.0.0" |})]).
Proof.
  intros this w.
  assert (Hw : fs_writable w (stateFile this) = true) by reflexivity.
  split; [exact Hw|].
  exact (getBundleSate_after_saveBundleState this w Hw).
Defined.

(** X11: a state file that is on disk and is not a JSON text makes the
    check fail with the error of require, in permissive mode as in strict
    mode; nothing is logged and no rebuild list is produced. *)
Theorem checkBundles_malformed_state_file (this : DllBundlesControl) (w : World) :
  fs w (stateFile this) = Some Opaque ->
  require_cache w (stateFile this) = None ->
  snd (checkBundles this w)
  = {| console := []; settled := Throw (NodeError RequireCall (stateFile this)) |}.
Proof.
  intros Hfile Hcache.
  unfold checkBundles, analyzeState, getBundleSate, existsSync, requireState.
  now rewrite Hfile, Hcache.
Qed.

Lemma checkBundles_malformed_state_file_witness :
  let this := control (Some true) [appBundle] in
  let w := installed [(Path_join "/dll" BUNDLE_STATE_FILENAME, Opaque)] in
  fs w (stateFile this) = Some Opaque /\
  require_cache w (stateFile this) = None /\
  snd (checkBundles this w)
  = {| console := []; settled := Throw (NodeError RequireCall (stateFile this)) |}.
Proof.
  intros this w.
  assert (Hfile : fs w (stateFile this) = Some Opaque) by reflexivity.
  assert (Hcache : require_cache w (stateFile this) = None) by reflexivity.
  split; [exact Hfile|]. split; [exact Hcache|].
  exact (checkBundles_malformed_state_file this w Hfile Hcache).
Defined.

Lemma checkBundles_failure_core
        (this : DllBundlesControl) (w w' : World) (ref : ObjRef) (state : BundleState)
        (d : PackageInfo) :
  getBundleSate this w = (w', Return (ref, state)) ->
  methodShadowed state = false ->
  In d (getMetadata this w) ->
  hasError d = true ->
  (ignoreErrors this = false ->
   settled (snd (checkBundles this w))
   = Throw (NewError "DllBundlesPlugin: Some packages have errors.")) /\
  (ignoreErrors this = true ->
   exists l b, settled (snd (checkBundles this w)) = Return l /\
               In (Some b) l /\ In b (bundles this) /\ bnd_name b = pkg_bundle d).
Proof.
  intros Hload Hplain Hd Herr.
  pose proof (analyzeState_of_state this w w' ref state Hload
                (forEach_unshadowed _ (start state) Hplain)) as Ha.
  set (analyzed := fst (analyze (getMetadata this w) state)) in *.
  assert (Hin : In d (error analyzed)).
  { unfold analyzed. rewrite analyze_error_filter. now apply filter_In. }
  destruct (analyzeState this w) as [w1 c] eqn:Hc. simpl in Ha. subst c.
  rewrite (checkBundles_analyzed this w w1 analyzed Hc). split.
  - intros Hstrict. apply checkAnalyzed_strict; [|assumption].
    intros Hnil. rewrite Hnil in Hin. contradiction.
  - intros Hperm. destruct (getMetadata_bundle this w d Hd) as [b0 [Hb0 Hname]].
    assert (Hflag : exists b', In (Some b') (rebuildList this w analyzed) /\
                               bnd_name b' = bnd_name b0).
    { apply rebuildList_flags; [assumption|]. right. exists d.
      split; [|now symmetry]. unfold flagging. rewrite !in_app_iff. tauto. }
    destruct Hflag as [b' [Hb' Hn']]. exists (rebuildList this w analyzed), b'.
    split; [apply checkAnalyzed_passes; now right|].
    split; [assumption|]. split; [now apply rebuildList_declared in Hb'|congruence].
Qed.

(** X12: a package that fails to resolve blocks or flags on every check,
    whatever entries of packages the persisted state holds: once the state
    object is loaded (with no entry named [hasOwnProperty]), a strict check
    is rejected with the fixed message, and a permissive check returns a
    rebuild list that holds a declared bundle of the name the package
    belongs to. *)
Theorem checkBundles_failure_is_never_settled
        (this : DllBundlesControl) (w w' : World) (ref : ObjRef) (state : BundleState)
        (d : PackageInfo) :
  getBundleSate this w = (w', Return (ref, state)) ->
  hasOwnProperty state "hasOwnProperty" = false ->
  In d (getMetadata this w) ->
  hasError d = true ->
  (ignoreErrors this = false ->
   settled (snd (checkBundles this w))
   = Throw (NewError "DllBundlesPlugin: Some packages have errors.")) /\
  (ignoreErrors this = true ->
   exists l b, settled (snd (checkBundles this w)) = Return l /\
               In (Some b) l /\ In b (bundles this) /\ bnd_name b = pkg_bundle d).
Proof. apply checkBundles_failure_core. Qed.

Lemma checkBundles_failure_is_never_settled_witness :
  let this := control (Some true) [brokenBundle] in
  let saved := [("nope", {| st_bundle := "vendor"; st_version := Some "1.0.0" |})] in
  let w := installed ((Path_join "/dll" BUNDLE_STATE_FILENAME, JsonState saved)
                        :: artifacts "vendor") in
  let d := {| pkg_bundle := "vendor"; pkg_name := "nope"; pkg_path := "nope";
              pkg_version := None; pkg_error := Some (NodeError ResolveCall "nope") |} in
  getBundleSate this w
  = (fst (getBundleSate this w), Return (ModuleExports (stateFile this), saved)) /\
  hasOwnProperty saved "hasOwnProperty" = false /\
  In d (getMetadata this w) /\
  hasError d = true /\
  exists l b, settled (snd (checkBundles this w)) = Return l /\
              In (Some b) l /\ In b (bundles this) /\ bnd_name b = pkg_bundle d.
Proof.
  intros this saved w d.
  assert (Hload : getBundleSate this w
                  = (fst (getBundleSate this w),
                     Return (ModuleExports (stateFile this), saved))) by reflexivity.
  assert (Hplain : hasOwnProperty saved "hasOwnProperty" = false) by reflexivity.
  assert (Hd : In d (getMetadata this w)) by (right; left; reflexivity).
  split; [exact Hload|]. split; [exact Hplain|]. split; [exact Hd|].
  split; [reflexivity|].
  exact (proj2 (checkBundles_failure_is_never_settled this w _ _ saved d
                  Hload Hplain Hd eq_refl) eq_refl).
Defined.

(** ** The plugin: construction *)

(** X13: with an absolute working directory, the constructor succeeds
    exactly when the caller passes a non-empty context, and then discards
    it: the plugin's context is the working directory and a relative dllDir
    is resolved against the working directory. Without a context the
    constructor throws a TypeError; with the empty string it throws "Context
    must be an absolute path". *)
Theorem setOptions_replaces_the_context (host : Host) (opts : UserOptions) :
  Path_isAbsolute host (cwd host) = true ->
  Path_isAbsolute host "" = false ->
  match opt_context opts with
  | None => setOptions host opts = TypeError
  | Some c =>
      if String.eqb c ""
      then setOptions host opts = Raised (NewError "Context must be an absolute path")
      else exists plugin,
          setOptions host opts = Built plugin /\
          plg_context plugin = cwd host /\
          dllDir (options (bundleControl plugin))
          = if Path_isAbsolute host (opt_dllDir opts)
            then opt_dllDir opts
            else Path_resolve host (cwd host) (opt_dllDir opts)
  end.
Proof.
  intros Hcwd Hempty. unfold setOptions.
  destruct (opt_context opts) as [c|]; simpl; [|reflexivity].
  destruct (String.eqb_spec c "") as [->|Hne]; simpl.
  - now rewrite Hempty.
  - rewrite Hcwd. simpl. eexists. split; [reflexivity|]. split; [reflexivity|].
    simpl. now destruct (Path_isAbsolute host (opt_dllDir opts)).
Qed.

Lemma setOptions_replaces_the_context_witness :
  let host := sampleHost emitArtifacts in
  let opts := {| opt_bundles := [("app", [PkgString "pkgA"])];
                 opt_webpackConfig := {| user_rest := []; user_plugins := None |};
                 opt_dllDir := "dll"; opt_ignorePackageError := None;
                 opt_context := Some "/elsewhere" |} in
  Path_isAbsolute host (cwd host) = true /\
  Path_isAbsolute host "" = false /\
  exists plugin,
    setOptions host opts = Built plugin /\
    plg_context plugin = "/project" /\
    dllDir (options (bundleControl plugin)) = "/project/dll".
Proof.
  intros host opts.
  assert (Hcwd : Path_isAbsolute host (cwd host) = true) by reflexivity.
  assert (Hempty : Path_isAbsolute host "" = false) by reflexivity.
  split; [exact Hcwd|]. split; [exact Hempty|].
  exact (setOptions_replaces_the_context host opts Hcwd Hempty).
Defined.

Lemma checkBundles_Return_analyzed (this : DllBundlesControl) (w : World)
      (l : list (option DllBundleConfig)) :
  settled (snd (checkBundles this w)) = Return l ->
  exists w1 analyzed,
    analyzeState this w = (w1, Return analyzed) /\ l = rebuildList this w analyzed.
Proof.
  intros Hl. destruct (analyzeState this w) as [w1 [analyzed|e]] eqn:Ha.
  - exists w1, analyzed. split; [reflexivity|].
    rewrite (checkBundles_analyzed this w w1 analyzed Ha) in Hl.
    now apply checkAnalyzed_Return.
  - unfold checkBundles in Hl. rewrite Ha in Hl. discriminate Hl.
Qed.

(** X14: a plugin built from a bundles object (its keys unique) hands the
    control one bundle per key, in key order, and no check of that control
    returns a bundle twice. *)
Theorem setOptions_declares_each_bundle_once
        (host : Host) (opts : UserOptions) (plugin : DllBundlesPlugin) :
  setOptions host opts = Built plugin ->
  NoDup (map fst (opt_bundles opts)) ->
  bundles (bundleControl plugin) = plg_bundles plugin /\
  map (fun b => (bnd_name b, bnd_packages b)) (plg_bundles plugin) = opt_bundles opts /\
  forall w l, settled (snd (checkBundles (bundleControl plugin) w)) = Return l ->
              NoDup (defined l).
Proof.
  intros Hbuilt Hnd. unfold setOptions in Hbuilt.
  destruct (if truthy (opt_context opts) then Some (cwd host) else opt_context opts)
    as [context|]; [|discriminate].
  destruct (negb (Path_isAbsolute host context)); [discriminate|].
  injection Hbuilt as <-. simpl. split; [reflexivity|]. split.
  - rewrite map_map. simpl. rewrite <- (map_id (opt_bundles opts)) at 2.
    apply map_ext. now intros [k v].
  - intros w l Hl. apply checkBundles_Return_analyzed in Hl.
    destruct Hl as [w1 [analyzed [_ ->]]]. unfold rebuildList.
    apply defined_bundleNamed_NoDup, rebuildNames_NoDup. simpl.
    now rewrite map_map.
Qed.

Lemma setOptions_declares_each_bundle_once_witness :
  let host := sampleHost emitArtifacts in
  let opts := sampleOptions (Some "/project") None
                [("app", [PkgString "pkgA"]); ("vendor", [PkgString "pkgB"])] in
  let plugin := samplePlugin None [appBundle; vendorBundle] in
  setOptions host opts = Built plugin /\
  NoDup (map fst (opt_bundles opts)) /\
  bundles (bundleControl plugin) = plg_bundles plugin /\
  map (fun b => (bnd_name b, bnd_packages b)) (plg_bundles plugin) = opt_bundles opts /\
  forall w l, settled (snd (checkBundles (bundleControl plugin) w)) = Return l ->
              NoDup (defined l).
Proof.
  intros host opts plugin.
  assert (Hbuilt : setOptions host opts = Built plugin) by reflexivity.
  assert (Hnd : NoDup (map fst (opt_bundles opts))).
  { simpl. repeat constructor; simpl; intuition discriminate. }
  split; [exact Hbuilt|]. split; [exact Hnd|].
  exact (setOptions_declares_each_bundle_once host opts plugin Hbuilt Hnd).
Defined.

(** ** The plugin: run *)

Lemma run_rejected (host : Host) (plugin : DllBundlesPlugin) (w : World) (e : Error) :
  settled (snd (checkBundles (bundleControl plugin) w)) = Throw e ->
  run host plugin w
  = ((plugin, fst (checkBundles (bundleControl plugin) w)),
     {| info := [CHECKING];
        errorLog := console (snd (checkBundles (bundleControl plugin) w));
        builds := []; nextArg := Some e |}).
Proof.
  unfold run. destruct (checkBundles (bundleControl plugin) w) as [w1 checked].
  simpl. now intros ->.
Qed.

Lemma run_nothing (host : Host) (plugin : DllBundlesPlugin) (w : World) :
  settled (snd (checkBundles (bundleControl plugin) w)) = Return [] ->
  run host plugin w
  = ((plugin, fst (checkBundles (bundleControl plugin) w)),
     {| info := [CHECKING; ALL_VALID];
        errorLog := console (snd (checkBundles (bundleControl plugin) w));
        builds := []; nextArg := None |}).
Proof.
  unfold run. destruct (checkBundles (bundleControl plugin) w) as [w1 checked].
  simpl. now intros ->.
Qed.

Lemma run_rebuild (host : Host) (plugin : DllBundlesPlugin) (w : World)
      (x : option DllBundleConfig) (l : list (option DllBundleConfig)) :
  settled (snd (checkBundles (bundleControl plugin) w)) = Return (x :: l) ->
  run host plugin w
  = match runWebpack_done host (fst (buildConfig plugin))
            (fst (checkBundles (bundleControl plugin) w)) with
    | (w2, Return stats) =>
        match saveBundleState (bundleControl plugin) w2 with
        | (w3, Return _) =>
            ((withConfig plugin (snd (buildConfig plugin)), w3),
             {| info := [CHECKING; REBUILDING; BUNDLING_DONE];
                errorLog := console (snd (checkBundles (bundleControl plugin) w));
                builds := [fst (buildConfig plugin)]; nextArg := None |})
        | (w3, Throw err) =>
            ((withConfig plugin (snd (buildConfig plugin)), w3),
             {| info := [CHECKING; REBUILDING];
                errorLog := console (snd (checkBundles (bundleControl plugin) w));
                builds := [fst (buildConfig plugin)]; nextArg := Some err |})
        end
    | (w2, Throw err) =>
        ((withConfig plugin (snd (buildConfig plugin)), w2),
         {| info := [CHECKING; REBUILDING];
            errorLog := console (snd (checkBundles (bundleControl plugin) w));
            builds := [fst (buildConfig plugin)]; nextArg := Some err |})
    end.
Proof.
  unfold run. destruct (checkBundles (bundleControl plugin) w) as [w1 checked].
  simpl. intros ->. simpl. now destruct (buildConfig plugin).
Qed.

(** What a save leaves on disk: the collected state when it returns, what
    was there when it throws. *)
Lemma saveBundleState_Return (this : DllBundlesControl) (w w3 : World) (u : unit) :
  saveBundleState this w = (w3, Return u) ->
  w3 = putFile w (stateFile this) (JsonState (bundleStateOf (getMetadata this w))).
Proof.
  unfold saveBundleState, writeFileSync.
  destruct (fs_writable w (stateFile this)); intros H; [|discriminate].
  now injection H as <- _.
Qed.

Lemma saveBundleState_Throw (this : DllBundlesControl) (w w3 : World) (e : Error) :
  saveBundleState this w = (w3, Throw e) -> w3 = w.
Proof.
  unfold saveBundleState, writeFileSync.
  destruct (fs_writable w (stateFile this)); intros H; [discriminate|].
  now injection H as <- _.
Qed.

Lemma checkBundles_strict_failure
      (this : DllBundlesControl) (w w' : World) (ref : ObjRef) (state : BundleState)
      (d : PackageInfo) :
  getBundleSate this w = (w', Return (ref, state)) ->
  methodShadowed state = false ->
  In d (getMetadata this w) ->
  hasError d = true ->
  ignoreErrors this = false ->
  settled (snd (checkBundles this w)) = Throw (NewError SOME_ERRORS).
Proof.
  intros Hload Hplain Hd Herr Hstrict.
  now apply (proj1 (checkBundles_failure_core this w w' ref state d Hload Hplain Hd Herr)).
Qed.

(** X15: in strict mode (the default) one package that fails to resolve
    keeps webpack from being run at all: once the state object is loaded
    (with no entry named [hasOwnProperty]), run calls next with the error
    "DllBundlesPlugin: Some packages have errors.", builds nothing, writes
    no file and leaves the caller's configuration alone. *)
Theorem run_strict_failure_blocks_the_build
        (host : Host) (plugin : DllBundlesPlugin) (w w' : World) (ref : ObjRef)
        (state : BundleState) (d : PackageInfo) :
  getBundleSate (bundleControl plugin) w = (w', Return (ref, state)) ->
  hasOwnProperty state "hasOwnProperty" = false ->
  In d (getMetadata (bundleControl plugin) w) ->
  hasError d = true ->
  ignoreErrors (bundleControl plugin) = false ->
  builds (snd (run host plugin w)) = [] /\
  nextArg (snd (run host plugin w))
  = Some (NewError "DllBundlesPlugin: Some packages have errors.") /\
  fst (fst (run host plugin w)) = plugin /\
  fs (snd (fst (run host plugin w))) = fs w.
Proof.
  intros Hload Hplain Hd Herr Hstrict.
  rewrite (run_rejected host plugin w _
             (checkBundles_strict_failure _ w w' ref state d Hload Hplain Hd Herr Hstrict)).
  simpl. repeat split.
  now destruct (checkBundles_outside (bundleControl plugin) w) as [_ [_ [_ Hfs]]].
Qed.

Lemma run_strict_failure_blocks_the_build_witness :
  let host := sampleHost emitArtifacts in
  let plugin := samplePlugin None [brokenBundle] in
  let w := installed [] in
  let d := {| pkg_bundle := "vendor"; pkg_name := "nope"; pkg_path := "nope";
              pkg_version := None; pkg_error := Some (NodeError ResolveCall "nope") |} in
  getBundleSate (bundleControl plugin) w = (w, Return (Literal, [])) /\
  hasOwnProperty [] "hasOwnProperty" = false /\
  In d (getMetadata (bundleControl plugin) w) /\
  hasError d = true /\
  ignoreErrors (bundleControl plugin) = false /\
  builds (snd (run host plugin w)) = [] /\
  nextArg (snd (run host plugin w))
  = Some (NewError "DllBundlesPlugin: Some packages have errors.") /\
  fst (fst (run host plugin w)) = plugin /\
  fs (snd (fst (run host plugin w))) = fs w.
Proof.
  intros host plugin w d.
  assert (Hload : getBundleSate (bundleControl plugin) w = (w, Return (Literal, [])))
    by reflexivity.
  assert (Hd : In d (getMetadata (bundleControl plugin) w)) by (right; left; reflexivity).
  split; [exact Hload|]. split; [reflexivity|]. split; [exact Hd|].
  split; [reflexivity|]. split; [reflexivity|].
  exact (run_strict_failure_blocks_the_build host plugin w w Literal [] d
           Hload eq_refl Hd eq_refl eq_refl).
Defined.






(** X17: when the build does not touch the state file, a run that calls
    next with an error (the check was rejected, or webpack failed) leaves
    the state file as it was: nothing is persisted on failure. *)
Theorem run_error_keeps_the_state_file
        (host : Host) (plugin : DllBundlesPlugin) (w : World) :
  (forall config w0,
      fs (fst (runWebpack_done host config w0)) (stateFile (bundleControl plugin))
      = fs w0 (stateFile (bundleControl plugin))) ->
  nextArg (snd (run host plugin w)) <> None ->
  fs (snd (fst (run host plugin w))) (stateFile (bundleControl plugin))
  = fs w (stateFile (bundleControl plugin)).
Proof.
  intros Hbuild Herr.
  assert (Hfs : fs (fst (checkBundles (bundleControl plugin) w)) = fs w)
    by now destruct (checkBundles_outside (bundleControl plugin) w) as [_ [_ [_ H]]].
  destruct (settled (snd (checkBundles (bundleControl plugin) w))) as [[|x l]|e] eqn:Hs.
  - rewrite (run_nothing host plugin w Hs) in Herr. now elim Herr.
  - rewrite (run_rebuild host plugin w x l Hs) in *.
    specialize (Hbuild (fst (buildConfig plugin))
                       (fst (checkBundles (bundleControl plugin) w))).
    destruct (runWebpack_done host _ _) as [w2 [stats|err]].
    + destruct (saveBundleState (bundleControl plugin) w2) as [w3 [u|err]] eqn:Hsave;
        simpl in *.
      * now elim Herr.
      * apply saveBundleState_Throw in Hsave. subst w3. now rewrite Hbuild, Hfs.
    + simpl in *. now rewrite Hbuild, Hfs.
  - rewrite (run_rejected host plugin w e Hs). simpl. now rewrite Hfs.
Qed.

Lemma run_error_keeps_the_state_file_witness :
  let host := sampleHost failingBuild in
  let plugin := samplePlugin None [appBundle] in
  let w := installed legacyDisk in
  (forall config w0,
      fs (fst (runWebpack_done host config w0)) (stateFile (bundleControl plugin))
      = fs w0 (stateFile (bundleControl plugin))) /\
  nextArg (snd (run host plugin w)) <> None /\
  fs (snd (fst (run host plugin w))) (stateFile (bundleControl plugin))
  = Some (JsonState legacyState).
Proof.
  intros host plugin w.
  assert (Hbuild : forall config w0,
             fs (fst (runWebpack_done host config w0)) (stateFile (bundleControl plugin))
             = fs w0 (stateFile (bundleControl plugin))) by reflexivity.
  assert (Herr : nextArg (snd (run host plugin w)) <> None) by (intros H; discriminate H).
  split; [exact Hbuild|]. split; [exact Herr|].
  exact (run_error_keeps_the_state_file host plugin w Hbuild Herr).
Defined.

(** X18: when the build leaves package resolution alone, a run that built
    and calls next without error has written the state file from the
    metadata of the declared packages as the run found them: the object
    [save] builds from the descriptors without error. *)
Theorem run_success_saves_the_metadata
        (host : Host) (plugin : DllBundlesPlugin) (w : World) :
  (forall config w0, sameModules w0 (fst (runWebpack_done host config w0))) ->
  builds (snd (run host plugin w)) <> [] ->
  nextArg (snd (run host plugin w)) = None ->
  fs (snd (fst (run host plugin w))) (stateFile (bundleControl plugin))
  = Some (JsonState (bundleStateOf (getMetadata (bundleControl plugin) w))).
Proof.
  intros Hbuild Hbuilt Hnext.
  destruct (settled (snd (checkBundles (bundleControl plugin) w))) as [[|x l]|e] eqn:Hs.
  - rewrite (run_nothing host plugin w Hs) in Hbuilt. now elim Hbuilt.
  - rewrite (run_rebuild host plugin w x l Hs) in *.
    specialize (Hbuild (fst (buildConfig plugin))
                       (fst (checkBundles (bundleControl plugin) w))).
    destruct (runWebpack_done host _ _) as [w2 [stats|err]];
      [|cbn [fst snd nextArg builds] in *; discriminate Hnext].
    destruct (saveBundleState (bundleControl plugin) w2) as [w3 [u|err]] eqn:Hsave;
      cbn [fst snd nextArg builds] in *; [|discriminate Hnext].
    apply saveBundleState_Return in Hsave. subst w3.
    rewrite putFile_file, (getMetadata_modules _ _ w2 Hbuild).
    rewrite (getMetadata_modules _ w _
               (sameOutside_modules _ _ (checkBundles_outside (bundleControl plugin) w))).
    reflexivity.
  - rewrite (run_rejected host plugin w e Hs) in Hbuilt. now elim Hbuilt.
Qed.

Lemma emitArtifacts_modules (config : WebpackConfig) (w0 : World) :
  sameModules w0 (fst (emitArtifacts config w0)).
Proof.
  unfold emitArtifacts. simpl. revert w0.
  induction (map fst (wp_entry config)) as [|name l IH]; intros w0; simpl.
  - unfold sameModules. tauto.
  - destruct (IH (putFile
                    (putFile w0
                       (Path_join (out_path (wp_output config)) (String.append name ".dll.js"))
                       Opaque)
                    (Path_join (out_path (wp_output config))
                       (String.append name "-manifest.json")) Opaque))
      as [H1 [H2 H3]].
    unfold sameModules. simpl in *. repeat split; assumption.
Qed.

Lemma run_success_saves_the_metadata_witness :
  let host := sampleHost emitArtifacts in
  let plugin := samplePlugin None [appBundle; vendorBundle] in
  let w := installed [] in
  (forall config w0, sameModules w0 (fst (runWebpack_done host config w0))) /\
  builds (snd (run host plugin w)) <> [] /\
  nextArg (snd (run host plugin w)) = None /\
  fs (snd (fst (run host plugin w))) (stateFile (bundleControl plugin))
  = Some (JsonState
            [("pkgA", {| st_bundle := "app"; st_version := Some "1.0.0" |});
             ("pkgB", {| st_bundle := "vendor"; st_version := Some "2.0.0" |})]).
Proof.
  intros host plugin w.
  assert (Hbuild : forall config w0, sameModules w0 (fst (runWebpack_done host config w0)))
    by exact emitArtifacts_modules.
  assert (Hbuilt : builds (snd (run host plugin w)) <> []) by (intros H; discriminate H).
  split; [exact Hbuild|]. split; [exact Hbuilt|]. split; [reflexivity|].
  exact (run_success_saves_the_metadata host plugin w Hbuild Hbuilt eq_refl).
Defined.





Lemma emitArtifacts_fold (dir : string) (names : list string) (w0 : World) :
  let w2 := fold_left
              (fun w1 name =>
                 putFile
                   (putFile w1 (Path_join dir (String.append name ".dll.js")) Opaque)
                   (Path_join dir (String.append name "-manifest.json")) Opaque)
              names w0 in
  sameModules w0 w2 /\
  require_cache w2 = require_cache w0 /\
  fs_writable w2 = fs_writable w0 /\
  (forall file, existsSync w0 file = true -> existsSync w2 file = true) /\
  (forall name, In name names ->
     existsSync w2 (Path_join dir (String.append name ".dll.js")) = true /\
     existsSync w2 (Path_join dir (String.append name "-manifest.json")) = true).
Proof.
  revert w0. induction names as [|n names IH]; intros w0; simpl.
  - split; [unfold sameModules; tauto|]. split; [reflexivity|]. split; [reflexivity|].
    split; [tauto|]. intros name [].
  - set (w1 := putFile
                 (putFile w0 (Path_join dir (String.append n ".dll.js")) Opaque)
                 (Path_join dir (String.append n "-manifest.json")) Opaque).
    destruct (IH w1) as [[M1 [M2 M3]] [Hc [Hwr [Hmono Hall]]]].
    assert (Hstep : forall file, existsSync w0 file = true -> existsSync w1 file = true).
    { intros file Hf. unfold existsSync, w1 in *. simpl. unfold update.
      destruct (String.eqb file _); [reflexivity|].
      now destruct (String.eqb file _). }
    split; [unfold sameModules; simpl in *; repeat split; assumption|].
    split; [exact Hc|]. split; [exact Hwr|].
    split; [intros file Hf; now apply Hmono, Hstep|].
    intros name [<-|Hin]; [|now apply Hall].
    split; apply Hmono; unfold existsSync, w1; simpl; unfold update.
    + destruct (String.eqb _ (Path_join dir (String.append n "-manifest.json")));
        [reflexivity|]. now rewrite String.eqb_refl.
    + now rewrite String.eqb_refl.
Qed.



Lemma run_keeps_control (host : Host) (plugin : DllBundlesPlugin) (w : World) :
  bundleControl (fst (fst (run host plugin w))) = bundleControl plugin.
Proof.
  destruct (settled (snd (checkBundles (bundleControl plugin) w))) as [[|x l]|e] eqn:Hs.
  - now rewrite (run_nothing host plugin w Hs).
  - rewrite (run_rebuild host plugin w x l Hs).
    destruct (runWebpack_done host _ _) as [w2 [stats|err]]; [|reflexivity].
    now destruct (saveBundleState _ w2) as [w3 [u|err]].
  - now rewrite (run_rejected host plugin w e Hs).
Qed.

Lemma sameModules_trans (w1 w2 w3 : World) :
  sameModules w1 w2 -> sameModules w2 w3 -> sameModules w1 w3.
Proof.
  unfold sameModules. intros [A1 [A2 A3]] [B1 [B2 B3]]. repeat split; congruence.
Qed.

Lemma run_keeps_the_cached_state (host : Host) (plugin : DllBundlesPlugin) (w : World) :
  buildKeeps host (stateFile (bundleControl plugin)) ->
  existsSync w (stateFile (bundleControl plugin)) = true ->
  sameModules (fst (checkBundles (bundleControl plugin) w)) (snd (fst (run host plugin w))) /\
  require_cache (snd (fst (run host plugin w))) (stateFile (bundleControl plugin))
  = require_cache (fst (checkBundles (bundleControl plugin) w))
                  (stateFile (bundleControl plugin)) /\
  existsSync (snd (fst (run host plugin w))) (stateFile (bundleControl plugin)) = true.
Proof.
  intros Hkeep Hfile.
  assert (Hfile1 : existsSync (fst (checkBundles (bundleControl plugin) w))
                     (stateFile (bundleControl plugin)) = true).
  { unfold existsSync in *.
    destruct (checkBundles_outside (bundleControl plugin) w) as [_ [_ [_ Hfs]]].
    now rewrite Hfs. }
  assert (Hrefl : forall w0, sameModules w0 w0) by (intros w0; unfold sameModules; tauto).
  destruct (settled (snd (checkBundles (bundleControl plugin) w))) as [[|x l]|e] eqn:Hs.
  - rewrite (run_nothing host plugin w Hs). simpl. auto.
  - rewrite (run_rebuild host plugin w x l Hs).
    destruct (Hkeep (fst (buildConfig plugin))
                    (fst (checkBundles (bundleControl plugin) w))) as [Hm [Hc He]].
    destruct (runWebpack_done host _ _) as [w2 [stats|err]]; cbn [fst snd] in *.
    + destruct (saveBundleState (bundleControl plugin) w2) as [w3 [u|err]] eqn:Hsave;
        cbn [fst snd].
      * apply saveBundleState_Return in Hsave. subst w3. split; [|split].
        -- apply sameModules_trans with (w2 := w2); [assumption|].
           unfold sameModules. simpl. tauto.
        -- exact Hc.
        -- unfold existsSync. now rewrite putFile_file.
      * apply saveBundleState_Throw in Hsave. subst w3.
        split; [assumption|]. split; [assumption|]. now apply He.
    + split; [assumption|]. split; [assumption|]. now apply He.
  - rewrite (run_rejected host plugin w e Hs). simpl. auto.
Qed.

(** X20: in one process, after a run whose check loaded the state file
    (no entry named [hasOwnProperty] in it, every package resolved, the
    build leaving package resolution, the module cache and the state file
    in place), the next run builds again as soon as one declared bundle has
    a package, whether the first run built or found everything valid. *)
Theorem run_after_a_loading_run_rebuilds
        (host : Host) (plugin : DllBundlesPlugin) (w : World) (s : BundleState)
        (b : DllBundleConfig) :
  buildKeeps host (stateFile (bundleControl plugin)) ->
  require_cache w (stateFile (bundleControl plugin)) = None ->
  fs w (stateFile (bundleControl plugin)) = Some (JsonState s) ->
  hasOwnProperty s "hasOwnProperty" = false ->
  (forall d, In d (getMetadata (bundleControl plugin) w) -> pkg_error d = None) ->
  In b (bundles (bundleControl plugin)) ->
  bnd_packages b <> [] ->
  let first := run host plugin w in
  let second := run host (fst (fst first)) (snd (fst first)) in
  builds (snd second) <> [].
Proof.
  intros Hkeep Hcache Hfile Hplain Hok Hb Hne first second.
  assert (Hexists : existsSync w (stateFile (bundleControl plugin)) = true)
    by (unfold existsSync; now rewrite Hfile).
  destruct (run_keeps_the_cached_state host plugin w Hkeep Hexists) as [Hm [Hc He]].
  destruct (checkBundles_again_core (bundleControl plugin) w (snd (fst (run host plugin w)))
              s Hcache Hfile Hplain Hok Hm Hc He) as [_ [l [Hl Hflag]]].
  destruct (Hflag b Hb Hne) as [b' [Hin _]].
  destruct l as [|x l]; [contradiction|].
  subst second first.
  pose proof (run_keeps_control host plugin w) as Hctl.
  rewrite <- Hctl in Hl.
  rewrite (run_rebuild host _ _ x l Hl).
  destruct (runWebpack_done host _ _) as [w2 [stats|err]]; [|simpl; discriminate].
  destruct (saveBundleState _ w2) as [w3 [u|err]]; simpl; discriminate.
Qed.

Lemma emitArtifacts_keeps (file : string) : buildKeeps (sampleHost emitArtifacts) file.
Proof.
  intros config w0.
  destruct (emitArtifacts_fold (out_path (wp_output config)) (map fst (wp_entry config)) w0)
    as [Hm [Hc [_ [Hmono _]]]].
  split; [exact Hm|]. split; [simpl; now rewrite Hc|apply Hmono].
Qed.

Lemma run_after_a_loading_run_rebuilds_witness :
  let host := sampleHost emitArtifacts in
  let plugin := samplePlugin None [appBundle] in
  let saved := [("pkgA", {| st_bundle := "app"; st_version := Some "1.0.0" |})] in
  let w := installed ((Path_join "/dll" BUNDLE_STATE_FILENAME, JsonState saved)
                        :: artifacts "app") in
  buildKeeps host (stateFile (bundleControl plugin)) /\
  require_cache w (stateFile (bundleControl plugin)) = None /\
  fs w (stateFile (bundleControl plugin)) = Some (JsonState saved) /\
  hasOwnProperty saved "hasOwnProperty" = false /\
  (forall d, In d (getMetadata (bundleControl plugin) w) -> pkg_error d = None) /\
  In appBundle (bundles (bundleControl plugin)) /\
  bnd_packages appBundle <> [] /\
  builds (snd (run host plugin w)) = [] /\
  let first := run host plugin w in
  let second := run host (fst (fst first)) (snd (fst first)) in
  builds (snd second) <> [].
Proof.
  intros host plugin saved w.
  assert (Hkeep : buildKeeps host (stateFile (bundleControl plugin)))
    by exact (emitArtifacts_keeps _).
  assert (Hcache : require_cache w (stateFile (bundleControl plugin)) = None)
    by reflexivity.
  assert (Hfile : fs w (stateFile (bundleControl plugin)) = Some (JsonState saved))
    by reflexivity.
  assert (Hplain : hasOwnProperty saved "hasOwnProperty" = false) by reflexivity.
  assert (Hok : forall d, In d (getMetadata (bundleControl plugin) w) -> pkg_error d = None).
  { intros d [<-|[]]. reflexivity. }
  assert (Hb : In appBundle (bundles (bundleControl plugin))) by (left; reflexivity).
  assert (Hne : bnd_packages appBundle <> []) by (intros H; discriminate H).
  repeat (split; [assumption|]). split; [reflexivity|].
  exact (run_after_a_loading_run_rebuilds host plugin w saved appBundle
           Hkeep Hcache Hfile Hplain Hok Hb Hne).
Defined.

(** X21: a build pushes its DllPlugin onto the caller's own plugins array:
    when the caller's configuration has a plugins array, webpack gets that
    array with the DllPlugin appended and the array keeps it afterwards, so
    it grows by one DllPlugin at every rebuild; when it has none, webpack
    gets the DllPlugin alone and the caller's configuration is unchanged. *)
Theorem run_pushes_on_the_callers_plugins
        (host : Host) (plugin : DllBundlesPlugin) (w : World)
        (x : option DllBundleConfig) (l : list (option DllBundleConfig)) :
  settled (snd (checkBundles (bundleControl plugin) w)) = Return (x :: l) ->
  exists config,
    builds (snd (run host plugin w)) = [config] /\
    match user_plugins (plg_webpackConfig plugin) with
    | Some arr =>
        wp_plugins config = arr ++ [dllPlugin plugin] /\
        user_plugins (plg_webpackConfig (fst (fst (run host plugin w))))
        = Some (arr ++ [dllPlugin plugin])
    | None =>
        wp_plugins config = [dllPlugin plugin] /\
        plg_webpackConfig (fst (fst (run host plugin w))) = plg_webpackConfig plugin
    end.
Proof.
  intros Hs. rewrite (run_rebuild host plugin w x l Hs).
  exists (fst (buildConfig plugin)).
  destruct (runWebpack_done host _ _) as [w2 [stats|err]];
    [destruct (saveBundleState _ w2) as [w3 [u|err]]|]; simpl;
    (split; [reflexivity|]); unfold buildConfig;
    destruct (user_plugins (plg_webpackConfig plugin)); simpl; auto.
Qed.

Lemma run_pushes_on_the_callers_plugins_witness :
  let host := sampleHost emitArtifacts in
  let plugin := samplePlugin None [appBundle] in
  let w := installed [] in
  settled (snd (checkBundles (bundleControl plugin) w)) = Return [Some appBundle] /\
  exists config,
    builds (snd (run host plugin w)) = [config] /\
    wp_plugins config = [UserPlugin "banner"] ++ [dllPlugin plugin] /\
    user_plugins (plg_webpackConfig (fst (fst (run host plugin w))))
    = Some ([UserPlugin "banner"] ++ [dllPlugin plugin]).
Proof.
  intros host plugin w.
  assert (Hs : settled (snd (checkBundles (bundleControl plugin) w))
               = Return [Some appBundle]) by reflexivity.
  split; [exact Hs|].
  exact (run_pushes_on_the_callers_plugins host plugin w (Some appBundle) [] Hs).
Defined.

(** ** The plugin: apply *)

(** X22: apply adds to the compiler one reference plugin per declared
    bundle, in declaration order, after the plugins already there; each
    reads the manifest file whose absence makes a check flag the bundle, as
    does the absence of the file named by resolveFile. *)
Theorem applyPlugin_references_the_checked_files
        (plugin : DllBundlesPlugin) (compiler : Compiler) (w : World)
        (l : list (option DllBundleConfig)) (b : DllBundleConfig) :
  bundles (bundleControl plugin) = plg_bundles plugin ->
  In b (plg_bundles plugin) ->
  settled (snd (checkBundles (bundleControl plugin) w)) = Return l ->
  compiler_plugins (applyPlugin plugin compiler)
  = compiler_plugins compiler
    ++ map (fun b0 => DllReferencePlugin (plg_context plugin)
                        (manifestFile (bundleControl plugin) (bnd_name b0)))
           (plg_bundles plugin) /\
  (existsSync w (manifestFile (bundleControl plugin) (bnd_name b)) = false \/
   existsSync w (Path_join (dllDir (options (bundleControl plugin)))
                           (resolveFile (bnd_name b))) = false ->
   exists b', In (Some b') l /\ bnd_name b' = bnd_name b).
Proof.
  intros Hbs Hb Hl. split; [reflexivity|].
  intros Hmissing. apply checkBundles_Return_analyzed in Hl.
  destruct Hl as [w1 [analyzed [_ ->]]].
  apply rebuildList_flags; [now rewrite Hbs|]. left.
  unfold artifactMissing, dllFile. unfold resolveFile in Hmissing. tauto.
Qed.

Lemma applyPlugin_references_the_checked_files_witness :
  let plugin := samplePlugin None [appBundle] in
  let compiler := {| compiler_plugins := [UserPlugin "banner"]; applied := [];
                     hooks := [] |} in
  let w := installed [(Path_join "/dll" "app.dll.js", Opaque)] in
  let l := [Some appBundle] in
  bundles (bundleControl plugin) = plg_bundles plugin /\
  In appBundle (plg_bundles plugin) /\
  settled (snd (checkBundles (bundleControl plugin) w)) = Return l /\
  compiler_plugins (applyPlugin plugin compiler)
  = [UserPlugin "banner"; DllReferencePlugin "/project" "/dll/app-manifest.json"] /\
  (existsSync w (manifestFile (bundleControl plugin) "app") = false \/
   existsSync w (Path_join "/dll" (resolveFile "app")) = false ->
   exists b', In (Some b') l /\ bnd_name b' = "app").
Proof.
  intros plugin compiler w l.
  assert (Hbs : bundles (bundleControl plugin) = plg_bundles plugin) by reflexivity.
  assert (Hb : In appBundle (plg_bundles plugin)) by (left; reflexivity).
  assert (Hl : settled (snd (checkBundles (bundleControl plugin) w)) = Return l)
    by reflexivity.
  split; [exact Hbs|]. split; [exact Hb|]. split; [exact Hl|].
  exact (applyPlugin_references_the_checked_files plugin compiler w l appBundle Hbs Hb Hl).
Defined.
